(** * imgProcessor: the calibration store and the correction pipeline

    A shallow embedding of [imgProcessor/camera/CameraCalibration.py]:
    the date index ([_insertDateIndex], [_getFromDate]), the store
    operations of class [CameraCalibration] (the [add...] family,
    [getCoeff], [deleteCoeff], [clearOldCalibrations], [calcDarkCurrent])
    and the staged [correct] pipeline with its per-stage [try]/[except].

    Python exceptions are values of [result]; methods that mutate [self]
    return the store they leave behind together with their outcome, so a
    mutation made before a [raise] stays visible. *)

From Stdlib Require Import List ZArith QArith Bool Lia String Ascii Sorting.Sorted.
Import ListNotations.
Local Open Scope Z_scope.

Set Implicit Arguments.

(* ================================================================= *)
(** ** Outcomes of Python calls

    The exceptions the code raises or lets through; the text of an
    [Exception] is kept without the values formatted into it. *)

Inductive exn : Type :=
| IndexError
| KeyError
| TypeError
| ValueError
| Exception (msg : string).

Inductive result (A : Type) : Type :=
| Ok (a : A)
| Raise (e : exn).
Arguments Ok {A} a.
Arguments Raise {A} e.

Definition raises {A} (r : result A) : Prop := exists e, r = Raise e.

(** [except (ValueError, TypeError)] *)
Definition is_value_or_type_error (e : exn) : bool :=
  match e with
  | ValueError | TypeError => true
  | _ => false
  end.

(** [l[i]] on a Python list: negative indices count from the end, an index
    outside [-len, len) raises [IndexError]. *)
Definition py_index {A} (l : list A) (i : Z) : result A :=
  let n := Z.of_nat (List.length l) in
  let j := if i <? 0 then i + n else i in
  if (0 <=? j) && (j <? n)
  then match nth_error l (Z.to_nat j) with
       | Some x => Ok x
       | None => Raise IndexError
       end
  else Raise IndexError.

(** [l.insert(i, x)] for [0 <= i]: everything from position [i] on moves
    one place to the right; an index past the end appends. *)
Definition py_insert {A} (i : nat) (x : A) (l : list A) : list A :=
  firstn i l ++ x :: skipn i l.

(** [l.pop(i)] for [0 <= i < len(l)]. *)
Definition py_pop {A} (i : nat) (l : list A) : list A :=
  firstn i l ++ skipn (S i) l.

(* ================================================================= *)
(** ** [time.struct_time]

    A [struct_time] is a 9-tuple of integers and is compared as a tuple:
    lexicographically, field by field. *)

Record struct_time : Type := mk_time {
  tm_year : Z; tm_mon : Z; tm_mday : Z;
  tm_hour : Z; tm_min : Z; tm_sec : Z;
  tm_wday : Z; tm_yday : Z; tm_isdst : Z
}.

Definition time_fields (t : struct_time) : list Z :=
  [tm_year t; tm_mon t; tm_mday t; tm_hour t; tm_min t; tm_sec t;
   tm_wday t; tm_yday t; tm_isdst t].

Fixpoint tuple_ltb (a b : list Z) : bool :=
  match a, b with
  | x :: a', y :: b' =>
      if x <? y then true else if x =? y then tuple_ltb a' b' else false
  | [], _ :: _ => true
  | _, [] => false
  end.

(** [s < t] on two [struct_time]s *)
Definition time_ltb (s t : struct_time) : bool :=
  tuple_ltb (time_fields s) (time_fields t).

(** The [date] argument of the API: [None], a string, or some other
    object (on which [time.strptime] raises [TypeError]). *)
Inductive date_arg : Type :=
| DNone
| DStr (s : string)
| DOther.

(** What the module takes from the [time] library: the parser
    [time.strptime(_, DATE_FORMAT)], which raises [ValueError] on a string
    that does not match the format.  The clock, [time.localtime()], is
    passed to every operation as the reading [now] it would get. *)
Record TimeLib : Type := {
  strptime : string -> option struct_time
}.

Definition _toDate (T : TimeLib) (now : struct_time) (date : date_arg)
  : result struct_time :=
  match date with
  | DNone => Ok now
  | DStr s => match strptime T s with
              | Some t => Ok t
              | None => Raise ValueError
              end
  | DOther => Raise TypeError
  end.

(* ================================================================= *)
(** ** Arrays, payloads and calibration records *)

(** An [np.ndarray]: its shape and its elements in row-major order.
    Pixel values are carried as rationals; all arithmetic on them is done
    by the numeric collaborators below. *)
Record ndarray : Type := mk_array {
  arr_shape : list nat;
  arr_data : list Q
}.

(** The objects stored as calibration payload.  A pair is a [tuple] as
    [addDarkCurrent] builds it, or the [list] of the same two items that
    [transpose] puts in its place. *)
Inductive pyval : Type :=
| VNone
| VNum (x : Q)
| VArr (a : ndarray)
| VTuple2 (a b : pyval)
| VList2 (a b : pyval)
| VObj (repr : string).

(** A light spectrum is a dictionary key: a string, or [None]. *)
Definition light : Type := option string.

Definition light_eqb (a b : light) : bool :=
  match a, b with
  | None, None => true
  | Some x, Some y => String.eqb x y
  | _, _ => false
  end.

(** A calibration record is the Python sequence
    [[date, info, data]] or [[date, info, data, error]]; [rec_kind] says
    whether the sequence object is a [list] or a [tuple]. *)
Inductive seq_kind : Type := KList | KTuple.

Record calrec : Type := mk_rec {
  rec_kind : seq_kind;
  rec_date : struct_time;   (* n[0] *)
  rec_info : string;        (* n[1] *)
  rec_data : pyval;         (* n[2] *)
  rec_rest : list pyval     (* [] or [error] *)
}.

(* ================================================================= *)
(** ** The date index *)

(** [next((i for i, n in enumerate(l) if n[0] < date), len(l))] *)
Fixpoint _insertDateIndex (date : struct_time) (l : list calrec) : nat :=
  match l with
  | [] => 0%nat
  | n :: l' =>
      if time_ltb (rec_date n) date then 0%nat
      else S (_insertDateIndex date l')
  end.

Definition _getFromDate (T : TimeLib) (now : struct_time)
           (l : list calrec) (date : date_arg) : result calrec :=
  match _toDate T now date with
  | Ok d =>
      let i := Z.of_nat (_insertDateIndex d l) - 1 in
      if i =? -1 then py_index l 0 else py_index l i
  | Raise e =>
      if is_value_or_type_error e then py_index l 0 else Raise e
  end.

(* ================================================================= *)
(** ** The calibration store *)

(** A spectrum-keyed category is a Python [dict]: keys are unique and
    iteration follows insertion order (Python 3.7 and later). *)
Definition dict : Type := list (light * list calrec).

Fixpoint dict_get (k : light) (d : dict) : option (list calrec) :=
  match d with
  | [] => None
  | (k', v) :: d' => if light_eqb k' k then Some v else dict_get k d'
  end.

(** [d[k] = v]: an existing key keeps its place, a new one goes last. *)
Fixpoint dict_set (k : light) (v : list calrec) (d : dict) : dict :=
  match d with
  | [] => [(k, v)]
  | (k', v') :: d' =>
      if light_eqb k' k then (k', v) :: d' else (k', v') :: dict_set k v d'
  end.

(** The noise-level function cached on the object: the closure
    [lambda x: boundedFunction(x, *n)] over stored coefficients [n], or
    the function estimated by the single-time-effect detection. *)
Inductive nlf : Type :=
| NlfBounded (n : pyval)
| NlfEstimated (f : pyval).

(** The object: the entries of [self.coeffs] and
    [self.noise_level_function].  (The attributes [temp], [last_img] and
    [last_light_spectrum] are only written by the code below and are left
    out.) *)
Record CameraCalibration : Type := mk_cal {
  c_name : string;
  c_depth : Z;
  c_light_spectra : list light;
  c_dark_current : list calrec;
  c_flat_field : dict;
  c_lens : dict;
  c_noise : list calrec;
  c_psf : dict;
  c_shape : option (list nat);
  c_balance : dict;
  noise_level_function : option nlf
}.

(** [CameraCalibration.__init__] *)
Definition init : CameraCalibration :=
  {| c_name := "no camera"; c_depth := 16; c_light_spectra := [];
     c_dark_current := []; c_flat_field := []; c_lens := []; c_noise := [];
     c_psf := []; c_shape := None; c_balance := [];
     noise_level_function := None |}.

Definition set_light_spectra v (s : CameraCalibration) :=
  mk_cal (c_name s) (c_depth s) v (c_dark_current s) (c_flat_field s)
         (c_lens s) (c_noise s) (c_psf s) (c_shape s) (c_balance s)
         (noise_level_function s).
Definition set_dark_current v (s : CameraCalibration) :=
  mk_cal (c_name s) (c_depth s) (c_light_spectra s) v (c_flat_field s)
         (c_lens s) (c_noise s) (c_psf s) (c_shape s) (c_balance s)
         (noise_level_function s).
Definition set_flat_field v (s : CameraCalibration) :=
  mk_cal (c_name s) (c_depth s) (c_light_spectra s) (c_dark_current s) v
         (c_lens s) (c_noise s) (c_psf s) (c_shape s) (c_balance s)
         (noise_level_function s).
Definition set_lens v (s : CameraCalibration) :=
  mk_cal (c_name s) (c_depth s) (c_light_spectra s) (c_dark_current s)
         (c_flat_field s) v (c_noise s) (c_psf s) (c_shape s) (c_balance s)
         (noise_level_function s).
Definition set_noise v (s : CameraCalibration) :=
  mk_cal (c_name s) (c_depth s) (c_light_spectra s) (c_dark_current s)
         (c_flat_field s) (c_lens s) v (c_psf s) (c_shape s) (c_balance s)
         (noise_level_function s).
Definition set_psf v (s : CameraCalibration) :=
  mk_cal (c_name s) (c_depth s) (c_light_spectra s) (c_dark_current s)
         (c_flat_field s) (c_lens s) (c_noise s) v (c_shape s) (c_balance s)
         (noise_level_function s).
Definition set_shape v (s : CameraCalibration) :=
  mk_cal (c_name s) (c_depth s) (c_light_spectra s) (c_dark_current s)
         (c_flat_field s) (c_lens s) (c_noise s) (c_psf s) v (c_balance s)
         (noise_level_function s).
Definition set_balance v (s : CameraCalibration) :=
  mk_cal (c_name s) (c_depth s) (c_light_spectra s) (c_dark_current s)
         (c_flat_field s) (c_lens s) (c_noise s) (c_psf s) (c_shape s) v
         (noise_level_function s).
Definition set_noise_level_function v (s : CameraCalibration) :=
  mk_cal (c_name s) (c_depth s) (c_light_spectra s) (c_dark_current s)
         (c_flat_field s) (c_lens s) (c_noise s) (c_psf s) (c_shape s)
         (c_balance s) v.

(** The calibration categories, i.e. the keys of [self.coeffs] that hold
    records, and what [self.coeffs[name]] is for each: a list, or a dict
    keyed by light spectrum. *)
Inductive category : Type :=
| DarkCurrent | FlatField | Lens | Noise | PSF | Balance.

Inductive table : Type :=
| Flat (l : list calrec)
| BySpectrum (d : dict).

Definition coeffs_get (s : CameraCalibration) (name : category) : table :=
  match name with
  | DarkCurrent => Flat (c_dark_current s)
  | Noise => Flat (c_noise s)
  | FlatField => BySpectrum (c_flat_field s)
  | Lens => BySpectrum (c_lens s)
  | PSF => BySpectrum (c_psf s)
  | Balance => BySpectrum (c_balance s)
  end.

Definition coeffs_set (name : category) (t : table) (s : CameraCalibration)
  : CameraCalibration :=
  match name, t with
  | DarkCurrent, Flat l => set_dark_current l s
  | Noise, Flat l => set_noise l s
  | FlatField, BySpectrum d => set_flat_field d s
  | Lens, BySpectrum d => set_lens d s
  | PSF, BySpectrum d => set_psf d s
  | Balance, BySpectrum d => set_balance d s
  | _, _ => s
  end.

(** *** Methods that mutate [self] *)

Definition M (A : Type) : Type :=
  CameraCalibration -> CameraCalibration * result A.

Definition ret {A} (a : A) : M A := fun s => (s, Ok a).
Definition lift {A} (r : result A) : M A := fun s => (s, r).
Definition modify (f : CameraCalibration -> CameraCalibration) : M unit :=
  fun s => (f s, Ok tt).
Definition bind {A B} (m : M A) (k : A -> M B) : M B :=
  fun s => match m s with
           | (s', Ok a) => k a s'
           | (s', Raise e) => (s', Raise e)
           end.

Notation "x <- m ;; k" := (bind m (fun x => k))
  (at level 61, m at next level, right associativity).
Notation "m ;;; k" := (bind m (fun _ => k))
  (at level 61, right associativity).

Fixpoint light_in (k : light) (l : list light) : bool :=
  match l with
  | [] => false
  | k' :: l' => light_eqb k' k || light_in k l'
  end.

Definition _registerLight (light_spectrum : light) : M unit :=
  modify (fun s =>
    if light_in light_spectrum (c_light_spectra s) then s
    else set_light_spectra (c_light_spectra s ++ [light_spectrum]) s).

Definition shape_eqb (a b : list nat) : bool :=
  if list_eq_dec Nat.eq_dec a b then true else false.

Definition _checkShape (array : pyval) : M unit :=
  fun s =>
    match array with
    | VArr a =>
        match c_shape s with
        | None => (set_shape (Some (arr_shape a)) s, Ok tt)
        | Some sh =>
            if shape_eqb (firstn 2 sh) (firstn 2 (arr_shape a))
            then (s, Ok tt)
            else (s, Raise (Exception "array shapes are different"))
        end
    | _ => (s, Ok tt)
    end.

(** [f[light].insert(_insertDateIndex(date, f[light]), rec)], after
    [if light not in f: f[light] = []] *)
Definition dict_insert_dated (k : light) (date : struct_time) (r : calrec)
           (f : dict) : dict :=
  let l := match dict_get k f with Some l => l | None => [] end in
  dict_set k (py_insert (_insertDateIndex date l) r l) f.

Definition addDarkCurrent (T : TimeLib) (now : struct_time)
           (slope intercept : pyval) (date : date_arg) (info : string)
           (error : pyval) : M unit :=
  date <- lift (_toDate T now date) ;;
  _checkShape slope ;;;
  _checkShape intercept ;;;
  modify (fun s =>
    let d := c_dark_current s in
    let data := match intercept with
                | VNone => slope
                | _ => VTuple2 slope intercept
                end in
    set_dark_current
      (py_insert (_insertDateIndex date d)
                 (mk_rec KList date info data [error]) d) s).

Definition addNoise (T : TimeLib) (now : struct_time)
           (nlf_coeff : pyval) (date : date_arg) (info : string)
           (error : pyval) : M unit :=
  date <- lift (_toDate T now date) ;;
  modify (fun s =>
    let d := c_noise s in
    set_noise
      (py_insert (_insertDateIndex date d)
                 (mk_rec KList date info nlf_coeff [error]) d) s).

Definition addDeconvolutionBalance (T : TimeLib) (now : struct_time)
           (balance : pyval) (date : date_arg) (info : string)
           (light_spectrum : light) : M unit :=
  _registerLight light_spectrum ;;;
  date <- lift (_toDate T now date) ;;
  modify (fun s =>
    set_balance
      (dict_insert_dated light_spectrum date
         (mk_rec KList date info balance []) (c_balance s)) s).

Definition addPSF (T : TimeLib) (now : struct_time)
           (psf : pyval) (date : date_arg) (info : string)
           (light_spectrum : light) : M unit :=
  _registerLight light_spectrum ;;;
  date <- lift (_toDate T now date) ;;
  modify (fun s =>
    set_psf
      (dict_insert_dated light_spectrum date
         (mk_rec KList date info psf []) (c_psf s)) s).

Definition addFlatField (T : TimeLib) (now : struct_time)
           (arr : pyval) (date : date_arg) (info : string) (error : pyval)
           (light_spectrum : light) : M unit :=
  _registerLight light_spectrum ;;;
  _checkShape arr ;;;
  date <- lift (_toDate T now date) ;;
  modify (fun s =>
    set_flat_field
      (dict_insert_dated light_spectrum date
         (mk_rec KList date info arr [error]) (c_flat_field s)) s).

(** The [lens] argument of [addLens]: a [LensDistortion] instance (of
    which only [.coeffs] is used) or the name of a saved file. *)
Inductive lens_arg : Type :=
| LensInstance (coeffs : pyval)
| LensFile (path : string).

(** [readFromFile] is the lens-model collaborator:
    [LensDistortion().readFromFile(path)] followed by reading [.coeffs]. *)
Definition addLens (readFromFile : string -> result pyval)
           (T : TimeLib) (now : struct_time)
           (lens : lens_arg) (date : date_arg) (info : string)
           (light_spectrum : light) : M unit :=
  _registerLight light_spectrum ;;;
  date <- lift (_toDate T now date) ;;
  coeffs <- lift (match lens with
                  | LensInstance c => Ok c
                  | LensFile p => readFromFile p
                  end) ;;
  modify (fun s =>
    set_lens
      (dict_insert_dated light_spectrum date
         (mk_rec KList date info coeffs []) (c_lens s)) s).

(** [for light in d: d[light] = [d[light][-1]]]; the loop stops at the
    first empty sequence, with the earlier assignments done. *)
Fixpoint keep_last_each (d : dict) : dict * result unit :=
  match d with
  | [] => ([], Ok tt)
  | (k, l) :: d' =>
      match py_index l (-1) with
      | Ok r => let (d'', res) := keep_last_each d' in ((k, [r]) :: d'', res)
      | Raise e => (d, Raise e)
      end
  end.

Definition clearOldCalibrations : M unit :=
  (fun s => match py_index (c_dark_current s) (-1) with
            | Ok r => (set_dark_current [r] s, Ok tt)
            | Raise e => (s, Raise e)
            end) ;;;
  (fun s => match py_index (c_noise s) (-1) with
            | Ok r => (set_noise [r] s, Ok tt)
            | Raise e => (s, Raise e)
            end) ;;;
  (fun s => let (d, res) := keep_last_each (c_flat_field s) in
            (set_flat_field d s, res)) ;;;
  (fun s => let (d, res) := keep_last_each (c_lens s) in
            (set_lens d s, res)).

Definition deleteCoeff (T : TimeLib) (now : struct_time)
           (name : category) (date : date_arg) (light_ : light) : M unit :=
  fun s =>
    let found :=
      match coeffs_get s name with
      | BySpectrum d => match dict_get light_ d with
                        | Some c => Ok c
                        | None => Raise KeyError
                        end
      | Flat l => Ok l              (* except TypeError: c = self.coeffs[name] *)
      end in
    match found with
    | Raise e => (s, Raise e)
    | Ok c =>
        match _toDate T now date with
        | Raise e => (s, Raise e)
        | Ok d =>
            let i := Z.of_nat (_insertDateIndex d c) - 1 in
            if negb (i =? -1) then
              let c' := py_pop (Z.to_nat i) c in
              (match coeffs_get s name with
               | BySpectrum f => coeffs_set name (BySpectrum (dict_set light_ c' f)) s
               | Flat _ => coeffs_set name (Flat c') s
               end, Ok tt)
            else (s, Raise (Exception "no coeff for date"))
        end
    end.

(** [getCoeff] returns a record, or [None]. *)
Definition getCoeff (T : TimeLib) (now : struct_time)
           (s : CameraCalibration) (name : category) (light_ : light)
           (date : date_arg) : result (option calrec) :=
  let found :=
    match coeffs_get s name with
    | BySpectrum d =>
        match dict_get light_ d with
        | Some c => Some c
        | None =>                           (* except KeyError *)
            match d with
            | (k, i) :: _ => Some i         (* next(iter(d.items())) *)
            | [] => None                    (* except StopIteration *)
            end
        end
    | Flat d => Some d                      (* except TypeError *)
    end in
  match found with
  | None => Ok None
  | Some c => match _getFromDate T now c date with
              | Ok r => Ok (Some r)
              | Raise e => Raise e
              end
  end.

(* ================================================================= *)
(** ** The correction pipeline *)

Definition rbind {A B} (r : result A) (k : A -> result B) : result B :=
  match r with
  | Ok a => k a
  | Raise e => Raise e
  end.

Notation "'do' x <- r ; k" := (rbind r (fun x => k))
  (at level 10, x name, r at level 100, k at level 200).

(** The [images] and [bgImages] arguments: one source (a file name or an
    array), or a Python list or tuple of sources. *)
Inductive source : Type :=
| SrcPath (p : string)
| SrcArr (a : ndarray).

Inductive images_arg : Type :=
| ImgOne (x : source)
| ImgSeq (l : list source).

(** The external numeric collaborators, and the [numpy] operations the
    pipeline applies to whole arrays.  An operation written in place in
    the source ([image -= bg], [image /= mx], ...) either returns the new
    contents of the buffer or raises and leaves the buffer as it was.
    The collaborators are functions of their arguments and do not write
    to the arrays they are given. *)
Record Collab : Type := {
  readFromFile : string -> result pyval;
      (* LensDistortion().readFromFile(path), then .coeffs *)
  imread : images_arg -> result ndarray;
  imread_float : images_arg -> result ndarray;
      (* np.asfarray(imread(x, dtype=np.float)) *)
  SingleTimeEffectDetection :
    images_arg -> option nlf -> result (ndarray * nlf);
      (* (.noSTE, .noise_level_function) with nStd=4 *)
  np_add : pyval -> pyval -> result pyval;
  np_mul : pyval -> pyval -> result pyval;
  np_clip_above : pyval -> Z -> result pyval;        (* bg[bg > mx] = mx *)
  np_isub : ndarray -> pyval -> result ndarray;      (* image -= bg *)
  np_idiv_nonzero : ndarray -> pyval -> result ndarray;
      (* i = d != 0; image[i] /= d[i] *)
  np_nan_to_num : ndarray -> result ndarray;
  medianThreshold : ndarray -> Q -> result ndarray;  (* copy=False *)
  np_max : ndarray -> result Q;
  np_idiv : ndarray -> Q -> result ndarray;          (* image /= mx *)
  unsupervised_wiener : ndarray -> pyval -> result ndarray;
  wiener : ndarray -> pyval -> pyval -> result ndarray;
  np_clip_below_zero : ndarray -> result ndarray;    (* a[a < 0] = 0 *)
  np_imul : ndarray -> Q -> result ndarray;          (* a *= mx *)
  lens_correct : pyval -> ndarray -> bool -> result ndarray;
      (* LensDistortion(coeffs).correct(image, keepSize=keep_size) *)
  np_zero_nan : ndarray -> result ndarray;  (* image[np.isnan(image)] = 0 *)
  denoise_nl_means : ndarray -> result ndarray
}.

Definition arr_ndim (a : ndarray) : nat := List.length (arr_shape a).

(** [len(images)] and [images[0]] *)
Definition images_len (images : images_arg) : nat :=
  match images with
  | ImgSeq l => List.length l
  | ImgOne (SrcArr a) => hd 0%nat (arr_shape a)
  | ImgOne (SrcPath p) => String.length p
  end.

Definition images_first (images : images_arg) : result source :=
  match images with
  | ImgSeq l => py_index l 0
  | ImgOne (SrcArr a) =>
      match arr_shape a with
      | S _ :: sh =>
          Ok (SrcArr (mk_array sh (firstn (fold_right Nat.mul 1%nat sh)
                                          (arr_data a))))
      | _ => Raise IndexError
      end
  | ImgOne (SrcPath p) =>
      match p with
      | String c _ => Ok (SrcPath (String c EmptyString))
      | EmptyString => Raise IndexError
      end
  end.

(** [type(images) in (list, tuple) or (isinstance(images, np.ndarray) and
    images.ndim == 3 and images.shape[-1] not in (3, 4))] *)
Definition is_image_stack (images : images_arg) : bool :=
  match images with
  | ImgSeq _ => true
  | ImgOne (SrcArr a) =>
      Nat.eqb (arr_ndim a) 3
      && negb (Nat.eqb (last (arr_shape a) 0%nat) 3
               || Nat.eqb (last (arr_shape a) 0%nat) 4)
  | ImgOne (SrcPath _) => false
  end.

(** [type(bgImages) in (list, tuple) or (isinstance(bgImages, np.ndarray)
    and bgImages.ndim == 3)] *)
Definition is_bg_stack (bgImages : images_arg) : bool :=
  match bgImages with
  | ImgSeq _ => true
  | ImgOne (SrcArr a) => Nat.eqb (arr_ndim a) 3
  | ImgOne (SrcPath _) => false
  end.

(** The [date] argument of [correct]: one date for every category (a
    string or [None]), or a dict from category name to date. *)
Inductive correct_date : Type :=
| DateOne (d : option string)
| DateDict (m : list (string * date_arg)).

Definition date_dict (date : correct_date) : list (string * date_arg) :=
  match date with
  | DateOne d =>
      let d := match d with Some s => DStr s | None => DNone end in
      [("dark current", d); ("flat field", d); ("lens", d); ("noise", d);
       ("psf", d)]%string
  | DateDict m => m
  end.

(** [date[key]] *)
Fixpoint date_item (date : list (string * date_arg)) (key : string)
  : result date_arg :=
  match date with
  | [] => Raise KeyError
  | (k, d) :: m => if String.eqb k key then Ok d else date_item m key
  end.

(** Every category is looked up at most once during one [correct] call;
    [clock name] is the reading of [time.localtime()] at that look-up. *)
Definition clock_t : Type := category -> struct_time.

(** [offs, ascent = d[2]] *)
Definition unpack2 (v : pyval) : result (pyval * pyval) :=
  match v with
  | VTuple2 a b | VList2 a b => Ok (a, b)
  | VArr a =>
      match arr_shape a with
      | [] => Raise TypeError
      | n :: sh =>
          if Nat.eqb n 2 then
            let k := fold_right Nat.mul 1%nat sh in
            Ok (VArr (mk_array sh (firstn k (arr_data a))),
                VArr (mk_array sh (firstn k (skipn k (arr_data a)))))
          else Raise ValueError
      end
  | _ => Raise TypeError
  end.

Definition calcDarkCurrent (N : Collab) (T : TimeLib) (now : struct_time)
           (s : CameraCalibration) (exposuretime : pyval) (date : date_arg)
  : result pyval :=
  do d <- _getFromDate T now (c_dark_current s) date;
  match rec_kind d with
  | KTuple =>                                   (* type(d) == tuple *)
      do p <- unpack2 (rec_data d);
      let (offs, ascent) := p in
      do m <- np_mul N ascent exposuretime;
      do bg <- np_add N offs m;
      let mx := 2 ^ c_depth s - 1 in            (* maximum value *)
      np_clip_above N bg mx
  | KList => Ok (rec_data d)
  end.

(** The stages.  Each takes the contents of the caller's [image] buffer
    and returns the contents it leaves in that buffer, together with its
    own outcome. *)

Definition _correctDarkCurrent (N : Collab) (T : TimeLib) (now : struct_time)
           (s : CameraCalibration) (image : ndarray) (exposuretime : pyval)
           (bgImages : option images_arg) (date : date_arg)
  : ndarray * result unit :=
  let bg :=
    match bgImages with
    | Some b =>
        if is_bg_stack b then
          if (1 <? images_len b)%nat then
            do r <- SingleTimeEffectDetection N b (noise_level_function s);
            Ok (VArr (fst r))
          else
            do x <- images_first b;
            do a <- imread N (ImgOne x);
            Ok (VArr a)
        else
          do a <- imread N b;
          Ok (VArr a)
    | None => calcDarkCurrent N T now s exposuretime date
    end in
  match bg with
  | Raise e => (image, Raise e)
  | Ok bg => match np_isub N image bg with
             | Ok image' => (image', Ok tt)
             | Raise e => (image, Raise e)
             end
  end.

Definition _correctVignetting (N : Collab) (T : TimeLib) (now : struct_time)
           (s : CameraCalibration) (image : ndarray) (light_spectrum : light)
           (date : date_arg) : ndarray * result unit :=
  match getCoeff T now s FlatField light_spectrum date with
  | Raise e => (image, Raise e)
  | Ok None => (image, Ok tt)
  | Ok (Some d) =>
      match np_idiv_nonzero N image (rec_data d) with
      | Ok image' => (image', Ok tt)
      | Raise e => (image, Raise e)
      end
  end.

Definition _correctArtefacts (N : Collab) (image : ndarray) (threshold : Q)
  : ndarray * result ndarray :=
  (image,
   do image' <- np_nan_to_num N image;
   medianThreshold N image' threshold).

Definition _correctBlur (N : Collab) (T : TimeLib) (clock : clock_t)
           (s : CameraCalibration) (image : ndarray) (light_spectrum : light)
           (date : date_arg) : ndarray * result ndarray :=
  match getCoeff T (clock PSF) s PSF light_spectrum date with
  | Raise e => (image, Raise e)
  | Ok None => (image, Ok image)            (* skip deconvolution *)
  | Ok (Some d) =>
      let psf := rec_data d in
      match np_max N image with
      | Raise e => (image, Raise e)
      | Ok mx =>
          match np_idiv N image mx with
          | Raise e => (image, Raise e)
          | Ok image' =>                    (* the buffer is now image/mx *)
              (image',
               do balance <- getCoeff T (clock Balance) s Balance
                                      light_spectrum date;
               do deconvolved <-
                  match balance with
                  | None => unsupervised_wiener N image' psf
                  | Some b => wiener N image' psf (rec_data b)
                  end;
               do deconvolved <- np_clip_below_zero N deconvolved;
               np_imul N deconvolved mx)
          end
      end
  end.

(** [getLens] followed by [lens.correct] *)
Definition _correctLens (N : Collab) (T : TimeLib) (now : struct_time)
           (s : CameraCalibration) (image : ndarray) (light_spectrum : light)
           (date : date_arg) (keep_size : bool) : ndarray * result ndarray :=
  (image,
   do d <- getCoeff T now s Lens light_spectrum date;
   match d with
   | Some d => lens_correct N (rec_data d) image keep_size
   | None => Ok image
   end).

Definition _correctNoise (N : Collab) (image : ndarray) : result ndarray :=
  do image' <- np_zero_nan N image;
  denoise_nl_means N image'.

(** [try: stage(image, ...) except Exception: print(...)] for a stage that
    works in place, and [try: image = stage(image, ...) except ...] for one
    whose value is assigned: what [image] holds afterwards. *)
Definition try_in_place (r : ndarray * result unit) : ndarray := fst r.

Definition try_assign (r : ndarray * result ndarray) : ndarray :=
  match r with
  | (_, Ok out) => out
  | (buffer, Raise _) => buffer
  end.

(** The call [stage(..., date[key])]: the subscript is evaluated inside
    the [try] block, before the stage is entered. *)
Definition with_date {X} (date : list (string * date_arg)) (key : string)
           (image : ndarray) (stage : date_arg -> ndarray * result X)
  : ndarray * result X :=
  match date_item date key with
  | Ok d => stage d
  | Raise e => (image, Raise e)
  end.

(** Steps 0 and 1 of [correct]: the working image. *)
Definition acquire (N : Collab) (T : TimeLib) (clock : clock_t)
           (images : images_arg) (date : list (string * date_arg))
  : M ndarray :=
  if is_image_stack images then
    if (1 <? images_len images)%nat then
      (fun s =>
         let n := c_noise s in
         match noise_level_function s, n with
         | None, _ :: _ =>
             match (do d <- date_item date "noise";
                    _getFromDate T (clock Noise) n d) with
             | Ok r => (set_noise_level_function
                          (Some (NlfBounded (rec_data r))) s, Ok tt)
             | Raise e => (s, Raise e)
             end
         | _, _ => (s, Ok tt)
         end) ;;;
      (fun s =>
         match SingleTimeEffectDetection N images (noise_level_function s) with
         | Ok (image, f) =>
             (match noise_level_function s with
              | None => set_noise_level_function (Some f) s
              | Some _ => s
              end, Ok image)
         | Raise e => (s, Raise e)
         end)
    else
      lift (do x <- images_first images; imread_float N (ImgOne x))
  else
    lift (imread_float N images).

Definition correct (N : Collab) (T : TimeLib) (clock : clock_t)
           (images : images_arg) (bgImages : option images_arg)
           (exposure_time : pyval) (light_spectrum : light) (threshold : Q)
           (keep_size : bool) (date : correct_date) (deblur denoise : bool)
  : M ndarray :=
  fun s0 =>
    let date := date_dict date in
    let light_spectrum :=
      match light_spectrum with
      | None => match py_index (c_light_spectra s0) 0 with
                | Ok l => l
                | Raise _ => None
                end
      | Some _ => light_spectrum
      end in
    (image <- acquire N T clock images date ;;
     _checkShape (VArr image) ;;;
     (fun s =>
        (* 2. BACKGROUND REMOVAL *)
        let image :=
          try_in_place
            (with_date date "dark current" image
               (_correctDarkCurrent N T (clock DarkCurrent) s image
                                    exposure_time bgImages)) in
        (* 3. VIGNETTING/SENSITIVITY CORRECTION *)
        let image :=
          try_in_place
            (with_date date "flat field" image
               (_correctVignetting N T (clock FlatField) s image
                                   light_spectrum)) in
        (* 4. REPLACE DEFECTIVE PX WITH MEDIAN FILTERED VALUE *)
        let image :=
          if negb (Qle_bool threshold 0)
          then try_assign (_correctArtefacts N image threshold)
          else image in
        (* 5. DEBLUR *)
        let image :=
          if deblur
          then try_assign
                 (with_date date "psf" image
                    (_correctBlur N T clock s image light_spectrum))
          else image in
        (* 5. LENS CORRECTION *)
        let image :=
          try_assign
            (with_date date "lens" image
               (fun d => _correctLens N T (clock Lens) s image
                                      light_spectrum d keep_size)) in
        (* 6. Denoise *)
        if denoise then (s, _correctNoise N image) else (s, Ok image))) s0.

(* ================================================================= *)
(** ** Sequences of add-operations *)

Inductive add_op : Type :=
| AddDarkCurrent (slope intercept : pyval) (date : date_arg) (info : string)
                 (error : pyval)
| AddNoise (nlf_coeff : pyval) (date : date_arg) (info : string)
           (error : pyval)
| AddFlatField (arr : pyval) (date : date_arg) (info : string)
               (error : pyval) (light_spectrum : light)
| AddPSF (psf : pyval) (date : date_arg) (info : string)
         (light_spectrum : light)
| AddDeconvolutionBalance (balance : pyval) (date : date_arg)
                          (info : string) (light_spectrum : light)
| AddLens (lens : lens_arg) (date : date_arg) (info : string)
          (light_spectrum : light).

Definition run_add (N : Collab) (T : TimeLib) (now : struct_time)
           (op : add_op) : M unit :=
  match op with
  | AddDarkCurrent slope intercept date info error =>
      addDarkCurrent T now slope intercept date info error
  | AddNoise c date info error => addNoise T now c date info error
  | AddFlatField arr date info error l =>
      addFlatField T now arr date info error l
  | AddPSF psf date info l => addPSF T now psf date info l
  | AddDeconvolutionBalance b date info l =>
      addDeconvolutionBalance T now b date info l
  | AddLens lens date info l =>
      addLens (readFromFile N) T now lens date info l
  end.

(** A sequence of calls, each with the clock reading it gets; a call that
    raises leaves the store as it was at the [raise] and the sequence
    goes on from there. *)
Fixpoint run_adds (N : Collab) (T : TimeLib)
         (ops : list (struct_time * add_op)) (s : CameraCalibration)
  : CameraCalibration :=
  match ops with
  | [] => s
  | (now, op) :: ops' => run_adds N T ops' (fst (run_add N T now op s))
  end.

(* ================================================================= *)
(** ** Vocabulary of the statements *)

(** [r] is dated on or after [d]; [r] is dated before [d]. *)
Definition on_or_after (d : struct_time) (r : calrec) : Prop :=
  time_ltb (rec_date r) d = false.
Definition before (d : struct_time) (r : calrec) : Prop :=
  time_ltb (rec_date r) d = true.

(** Newest first; records of equal date may follow each other. *)
Definition descending (l : list calrec) : Prop :=
  StronglySorted (fun a b => time_ltb (rec_date a) (rec_date b) = false) l.

(** Newest first, no two records of the same date. *)
Definition strictly_descending (l : list calrec) : Prop :=
  StronglySorted (fun a b => time_ltb (rec_date b) (rec_date a) = true) l.

Definition each_sequence (P : list calrec -> Prop) (d : dict) : Prop :=
  Forall (fun kv => P (snd kv)) d.

Definition every_sequence (P : list calrec -> Prop) (s : CameraCalibration)
  : Prop :=
  P (c_dark_current s) /\ P (c_noise s) /\
  each_sequence P (c_flat_field s) /\ each_sequence P (c_lens s) /\
  each_sequence P (c_psf s) /\ each_sequence P (c_balance s).

(** Every record of the sequence is a Python [list]. *)
Definition all_lists (l : list calrec) : Prop :=
  Forall (fun r => rec_kind r = KList) l.

(** No record in any sequence of the dict. *)
Definition no_records (d : dict) : Prop :=
  each_sequence (fun l => l = []) d.

(** [images] is one image, which [imread] loads as [img]: a file name or
    an array that is not a stack, or a list or stack of one image. *)
Definition single_image (N : Collab) (images : images_arg) (img : ndarray)
  : Prop :=
  (is_image_stack images = false /\ imread_float N images = Ok img) \/
  (is_image_stack images = true /\ images_len images = 1%nat /\
   exists x, images_first images = Ok x /\
             imread_float N (ImgOne x) = Ok img).

(** The reference shape is unset, or agrees with the array in the first
    two dimensions. *)
Definition shape_admits (s : CameraCalibration) (a : ndarray) : Prop :=
  match c_shape s with
  | None => True
  | Some sh => firstn 2 sh = firstn 2 (arr_shape a)
  end.

(** No sequence of [s'] differs from the one in [s]. *)
Definition same_tables (s s' : CameraCalibration) : Prop :=
  c_dark_current s' = c_dark_current s /\ c_noise s' = c_noise s /\
  c_flat_field s' = c_flat_field s /\ c_lens s' = c_lens s /\
  c_psf s' = c_psf s /\ c_balance s' = c_balance s.

(** A method keeps a property of the store, however it ends. *)
Definition preserves (I : CameraCalibration -> Prop) {A} (m : M A) : Prop :=
  forall s, I s -> I (fst (m s)).

(** The sequence held for [name] under [light_], and the store with that
    sequence replaced. *)
Definition stored_sequence (s : CameraCalibration) (name : category)
           (light_ : light) : option (list calrec) :=
  match coeffs_get s name with
  | Flat l => Some l
  | BySpectrum d => dict_get light_ d
  end.

Definition store_sequence (name : category) (light_ : light)
           (l : list calrec) (s : CameraCalibration) : CameraCalibration :=
  match coeffs_get s name with
  | Flat _ => coeffs_set name (Flat l) s
  | BySpectrum d => coeffs_set name (BySpectrum (dict_set light_ l d)) s
  end.

(** The record the date look-up settles on in a sequence [l], for a
    request that [_toDate] turned into [d]: the oldest record dated on or
    after [d] (the last such record of [l]) and, when every record is
    dated before [d], the newest one.  For a request that [_toDate]
    rejected it is the newest record. *)
Definition date_lookup_rule (d : result struct_time) (l : list calrec)
           (r : calrec) : Prop :=
  match d with
  | Ok d =>
      (exists pre post,
          l = pre ++ r :: post /\ Forall (on_or_after d) pre /\
          on_or_after d r /\ Forall (before d) post)
      \/ (Forall (before d) l /\ hd_error l = Some r)
  | Raise _ => hd_error l = Some r
  end.

(* ================================================================= *)
(** ** An instance of the libraries, for running examples

    [strptime_en] reads the strings that [_toDateStr] writes in an English
    locale, ["DD Mon YY - HH:MM"] with every number on two digits;
    Python's parser also takes some other spellings of the same dates,
    which the examples do not use. *)

Definition digit (c : ascii) : option Z :=
  let n := Z.of_nat (nat_of_ascii c) - 48 in
  if (0 <=? n) && (n <=? 9) then Some n else None.

Definition two_digits (a b : ascii) : option Z :=
  match digit a, digit b with
  | Some x, Some y => Some (10 * x + y)
  | _, _ => None
  end.

Definition month_names : list string :=
  ["Jan"; "Feb"; "Mar"; "Apr"; "May"; "Jun";
   "Jul"; "Aug"; "Sep"; "Oct"; "Nov"; "Dec"]%string.

Fixpoint month_number (names : list string) (k : Z) (s : string)
  : option Z :=
  match names with
  | [] => None
  | n :: names' => if String.eqb n s then Some k
                   else month_number names' (k + 1) s
  end.

Definition is_leap (y : Z) : bool :=
  (y mod 4 =? 0) && (negb (y mod 100 =? 0) || (y mod 400 =? 0)).

Definition days_in_month (y m : Z) : Z :=
  if m =? 2 then (if is_leap y then 29 else 28)
  else if (m =? 4) || (m =? 6) || (m =? 9) || (m =? 11) then 30 else 31.

Fixpoint days_before_month (y : Z) (m : nat) : Z :=
  match m with
  | O => 0
  | S m' => days_before_month y m' + days_in_month y (Z.of_nat m)
  end.

(** [datetime.date(y, m, d).toordinal()] *)
Definition toordinal (y m d : Z) : Z :=
  let y1 := y - 1 in
  y1 * 365 + y1 / 4 - y1 / 100 + y1 / 400
  + days_before_month y (Z.to_nat (m - 1)) + d.

Definition strptime_fields (dd : Z) (mon : string) (yy hh mm : Z)
  : option struct_time :=
  match month_number month_names 1 mon with
  | None => None
  | Some m =>
      let y := if yy <=? 68 then 2000 + yy else 1900 + yy in
      if (1 <=? dd) && (dd <=? days_in_month y m)
         && (hh <=? 23) && (mm <=? 59)
      then Some (mk_time y m dd hh mm 0
                         ((toordinal y m dd + 6) mod 7)
                         (days_before_month y (Z.to_nat (m - 1)) + dd)
                         (-1))
      else None
  end.

Definition strptime_en (s : string) : option struct_time :=
  match list_ascii_of_string s with
  | [d1; d2; s1; m1; m2; m3; s2; y1; y2; s3; dash; s4; h1; h2; col; n1; n2] =>
      if (Ascii.eqb s1 " " && Ascii.eqb s2 " " && Ascii.eqb s3 " "
          && Ascii.eqb dash "-" && Ascii.eqb s4 " " && Ascii.eqb col ":")%char
      then match two_digits d1 d2, two_digits y1 y2,
                 two_digits h1 h2, two_digits n1 n2 with
           | Some dd, Some yy, Some hh, Some mm =>
               strptime_fields dd (string_of_list_ascii [m1; m2; m3])
                               yy hh mm
           | _, _, _, _ => None
           end
      else None
  | _ => None
  end.

Definition time_en : TimeLib := {| strptime := strptime_en |}.

(** [lab] follows [numpy] on scalars and on arrays of one shape, with
    exact arithmetic (there is no NaN and no infinity), and on the
    subtraction of a pair of arrays from an image, which [numpy] refuses
    because the stacked pair has one dimension more than the image.  Its
    [imread] hands arrays through.  Whatever else it is given, [lab]
    rejects: it does not broadcast, reads no files, and has no
    deconvolution, median filter, lens correction, denoising or
    single-time-effect detection. *)

Definition rejected {A} : result A :=
  Raise (Exception "rejected by the collaborator").

Definition arr_map (f : Q -> Q) (a : ndarray) : ndarray :=
  mk_array (arr_shape a) (map (fun x => Qred (f x)) (arr_data a)).

Definition arr_map2 (f : Q -> Q -> Q) (a b : ndarray) : result ndarray :=
  if shape_eqb (arr_shape a) (arr_shape b)
  then Ok (mk_array (arr_shape a)
                    (map (fun p => Qred (f (fst p) (snd p)))
                         (combine (arr_data a) (arr_data b))))
  else rejected.

Definition lab_binop (f : Q -> Q -> Q) (a b : pyval) : result pyval :=
  match a, b with
  | VNum x, VNum y => Ok (VNum (Qred (f x y)))
  | VArr x, VNum y => Ok (VArr (arr_map (fun v => f v y) x))
  | VNum x, VArr y => Ok (VArr (arr_map (fun v => f x v) y))
  | VArr x, VArr y => do r <- arr_map2 f x y; Ok (VArr r)
  | VNone, _ | _, VNone => Raise TypeError
  | _, _ => rejected
  end.

Definition lab_in_place (f : Q -> Q -> Q) (image : ndarray) (v : pyval)
  : result ndarray :=
  match v with
  | VNum y => Ok (arr_map (fun x => f x y) image)
  | VArr b => arr_map2 f image b
  | VTuple2 (VArr a) (VArr b) | VList2 (VArr a) (VArr b) =>
      if shape_eqb (arr_shape a) (arr_shape b)
         && shape_eqb (arr_shape a) (arr_shape image)
      then Raise ValueError
      else rejected
  | VNone => Raise TypeError
  | _ => rejected
  end.

Definition lab : Collab :=
  {| readFromFile := fun _ => rejected;
     imread := fun x => match x with
                        | ImgOne (SrcArr a) => Ok a
                        | _ => rejected
                        end;
     imread_float := fun x => match x with
                              | ImgOne (SrcArr a) => Ok a
                              | _ => rejected
                              end;
     SingleTimeEffectDetection := fun _ _ => rejected;
     np_add := lab_binop Qplus;
     np_mul := lab_binop Qmult;
     np_clip_above := fun v mx =>
       match v with
       | VArr a => Ok (VArr (arr_map (fun x => if Qle_bool x (inject_Z mx)
                                               then x else inject_Z mx) a))
       | _ => Raise TypeError
       end;
     np_isub := lab_in_place Qminus;
     np_idiv_nonzero :=
       lab_in_place (fun x d => if Qeq_bool d 0 then x else (x / d)%Q);
     np_nan_to_num := fun a => Ok a;
     medianThreshold := fun _ _ => rejected;
     np_max := fun a => match arr_data a with
                        | [] => Raise ValueError
                        | x :: l =>
                            Ok (fold_left (fun m y => if Qle_bool m y then y
                                                      else m) l x)
                        end;
     np_idiv := fun a mx => Ok (arr_map (fun x => (x / mx)%Q) a);
     unsupervised_wiener := fun _ _ => rejected;
     wiener := fun _ _ _ => rejected;
     np_clip_below_zero := fun a =>
       Ok (arr_map (fun x => if Qle_bool 0 x then x else 0%Q) a);
     np_imul := fun a mx => Ok (arr_map (fun x => (x * mx)%Q) a);
     lens_correct := fun _ _ _ => rejected;
     np_zero_nan := fun a => Ok a;
     denoise_nl_means := fun _ => rejected |}.


(* ================================================================= *)
(** ** Example data *)

Module Ex.

Definition jan19 : string := "01 Jan 19 - 00:00".
Definition jan20 : string := "01 Jan 20 - 00:00".
Definition feb20 : string := "01 Feb 20 - 00:00".
Definition mar20 : string := "01 Mar 20 - 00:00".

(** A clock reading later than every date above. *)
Definition today : struct_time := mk_time 2026 11 3 10 0 0 1 307 0.

Definition t_jan20 : struct_time := mk_time 2020 1 1 0 0 0 2 1 (-1).
Definition t_mar20 : struct_time := mk_time 2020 3 1 0 0 0 6 61 (-1).

Definition rec_jan : calrec := mk_rec KList t_jan20 "january" (VNum 2) [VNone].
Definition rec_mar : calrec := mk_rec KList t_mar20 "march" (VNum 1) [VNone].

(** [addDarkCurrent(1, date=mar20, info='march')] and then
    [addDarkCurrent(2, date=jan20, info='january')] on a new object. *)
Definition two_dark : CameraCalibration :=
  run_adds lab time_en
    [(today, AddDarkCurrent (VNum 1) VNone (DStr mar20) "march" VNone);
     (today, AddDarkCurrent (VNum 2) VNone (DStr jan20) "january" VNone)]
    init.

(** [addNoise(1, date=jan20, info='a')] and then
    [addNoise(2, date=jan20, info='b')] on a new object. *)
Definition same_date_twice : CameraCalibration :=
  run_adds lab time_en
    [(today, AddNoise (VNum 1) (DStr jan20) "a" VNone);
     (today, AddNoise (VNum 2) (DStr jan20) "b" VNone)]
    init.

Definition lens_coeffs : pyval := VObj "lens coefficients".
Definition t_feb20 : struct_time := mk_time 2020 2 1 0 0 0 5 32 (-1).
Definition rec_visible : calrec := mk_rec KList t_jan20 "" lens_coeffs [].
Definition rec_uv : calrec := mk_rec KList t_feb20 "" lens_coeffs [].

(** [addLens(lens, date=jan20, light_spectrum='visible')] on a new
    object. *)
Definition only_visible : CameraCalibration :=
  run_adds lab time_en
    [(today, AddLens (LensInstance lens_coeffs) (DStr jan20) ""
                     (Some "visible"%string))]
    init.

(** Lenses added for ['visible'] and then for ['UV'], after which
    [deleteCoeff('lens', jan20, 'visible')] removes the only record of
    ['visible']. *)
Definition visible_emptied : CameraCalibration :=
  fst (deleteCoeff time_en today Lens (DStr jan20) (Some "visible"%string)
         (run_adds lab time_en
            [(today, AddLens (LensInstance lens_coeffs) (DStr jan20) ""
                             (Some "visible"%string));
             (today, AddLens (LensInstance lens_coeffs) (DStr feb20) ""
                             (Some "UV"%string))]
            init)).

(** Two dark-current records, one noise record and two point spread
    functions. *)
Definition rec_psf_jan : calrec := mk_rec KList t_jan20 "" (VNum 1) [].
Definition rec_psf_mar : calrec := mk_rec KList t_mar20 "" (VNum 1) [].

Definition several : CameraCalibration :=
  run_adds lab time_en
    [(today, AddNoise (VObj "nlf") (DStr jan20) "" VNone);
     (today, AddPSF (VNum 1) (DStr jan20) "" (Some "visible"%string));
     (today, AddPSF (VNum 1) (DStr mar20) "" (Some "visible"%string))]
    two_dark.

(** A 1 x 2 flat field, and a 2 x 2 array offered afterwards. *)
Definition flat_1x2 : ndarray := mk_array [1; 2]%nat [1; 1]%Q.
Definition flat_2x2 : ndarray := mk_array [2; 2]%nat [1; 1; 1; 1]%Q.

Definition with_flat : CameraCalibration :=
  run_adds lab time_en
    [(today, AddFlatField (VArr flat_1x2) (DStr jan20) "" VNone
                          (Some "visible"%string))]
    init.

(** A dark current given as slope 1 and intercept 10 per pixel, on a
    sensor of one pixel; an image of value 100 exposed for 2 s. *)
Definition slope_1x1 : ndarray := mk_array [1; 1]%nat [1]%Q.
Definition intercept_1x1 : ndarray := mk_array [1; 1]%nat [10]%Q.
Definition image_100 : ndarray := mk_array [1; 1]%nat [100]%Q.
Definition image_88 : ndarray := mk_array [1; 1]%nat [88]%Q.

Definition with_pair : CameraCalibration :=
  run_adds lab time_en
    [(today, AddDarkCurrent (VArr slope_1x1) (VArr intercept_1x1)
                            (DStr jan20) "" VNone)]
    init.

(** Images for the pipeline, and a store that holds one point spread
    function and nothing else; the kernel has three dimensions, which
    no deconvolution of a two-dimensional image accepts. *)
Definition image_2_4 : ndarray := mk_array [1; 2]%nat [2; 4]%Q.
Definition image_half_1 : ndarray := mk_array [1; 2]%nat [1 # 2; 1]%Q.
Definition image_1_3 : ndarray := mk_array [1; 2]%nat [1; 3]%Q.
Definition ones_1x2 : ndarray := mk_array [1; 2]%nat [1; 1]%Q.
Definition kernel_3d : ndarray := mk_array [1; 1; 1]%nat [1]%Q.

Definition clock : clock_t := fun _ => today.

Definition only_psf : CameraCalibration :=
  run_adds lab time_en
    [(today, AddPSF (VArr kernel_3d) (DStr jan20) ""
                    (Some "visible"%string))]
    init.

(** The store after [correct(image_2_4, threshold=0)] on a new
    object. *)
Definition after_first_image : CameraCalibration :=
  fst (correct lab time_en clock (ImgOne (SrcArr image_2_4)) None VNone
               None 0 true (DateOne None) false false init).

End Ex.

(* ================================================================= *)
(** ** Further methods of the store *)

Definition set_name v (s : CameraCalibration) :=
  mk_cal v (c_depth s) (c_light_spectra s) (c_dark_current s)
         (c_flat_field s) (c_lens s) (c_noise s) (c_psf s) (c_shape s)
         (c_balance s) (noise_level_function s).
Definition set_depth v (s : CameraCalibration) :=
  mk_cal (c_name s) v (c_light_spectra s) (c_dark_current s)
         (c_flat_field s) (c_lens s) (c_noise s) (c_psf s) (c_shape s)
         (c_balance s) (noise_level_function s).

Definition setCamera (camera_name : string) (bit_depth : Z) : M unit :=
  modify (fun s => set_depth bit_depth (set_name camera_name s)).

(** [_getDate].  The failing [assert] raises an [AssertionError]; it is
    carried as an [Exception] with the text of the assertion.  No handler
    of the module tells the two apart. *)
Definition _getDate (s : CameraCalibration) (typ : category) (light_ : light)
  : result (list calrec) :=
  match coeffs_get s typ with
  | BySpectrum d =>
      match light_ with
      | None => Raise (Exception "need light spectrum given to access")
      | Some _ => match dict_get light_ d with
                  | Some l => Ok l
                  | None => Raise KeyError
                  end
      end
  | Flat l => Ok l
  end.

(** [dates]; [strftime] is [time.strftime(DATE_FORMAT, _)], applied to
    dates that [strptime] or the clock produced. *)
Definition dates (strftime : struct_time -> string) (s : CameraCalibration)
           (typ : category) (light_ : light) : result (list string) :=
  match _getDate s typ light_ with
  | Ok d => Ok (map (fun c => strftime (rec_date c)) d)
  | Raise KeyError => Ok []
  | Raise e => Raise e
  end.

(** [infos] returns the list of all infos when no date is given, and one
    info otherwise. *)
Inductive infos_value : Type :=
| AllInfos (l : list string)
| OneInfo (i : string).

Definition infos (T : TimeLib) (now : struct_time) (s : CameraCalibration)
           (typ : category) (light_ : light) (date : date_arg)
  : result infos_value :=
  do d <- _getDate s typ light_;
  match date with
  | DNone => Ok (AllInfos (map rec_info d))
  | _ => do r <- _getFromDate T now d date; Ok (OneInfo (rec_info r))
  end.

(** [_correctPath], with [str.endswith] *)
Definition ftype : string := ".cal".

Fixpoint starts_with (p l : list ascii) : bool :=
  match p, l with
  | [], _ => true
  | a :: p', b :: l' => Ascii.eqb a b && starts_with p' l'
  | _ :: _, [] => false
  end.

Definition endswith (s suffix : string) : bool :=
  starts_with (rev (list_ascii_of_string suffix))
              (rev (list_ascii_of_string s)).

Definition _correctPath (path : string) : string :=
  if negb (endswith path ftype) then (path ++ ftype)%string else path.

(** [transpose].  [np_T] is [numpy]'s [.T].  The helper [_t] walks a list
    in place: an item that is a tuple is replaced by a list of the same
    items, an item that is a list (or has just become one) is walked in
    turn, and an array whose shape equals the reference shape is replaced
    by its transpose.  So a pair comes out as a [VList2], whether it went
    in as a tuple or as a list, and a record comes out as a list. *)
Fixpoint _t_value (np_T : ndarray -> ndarray) (s : option (list nat))
         (it : pyval) : pyval :=
  match it with
  | VTuple2 a b                      (* it = list(it); item[n] = it; _t(it) *)
  | VList2 a b =>                    (* _t(it) *)
      VList2 (_t_value np_T s a) (_t_value np_T s b)
  | VArr a =>
      match s with
      | Some sh => if shape_eqb (arr_shape a) sh then VArr (np_T a) else it
      | None => it
      end
  | _ => it
  end.

Definition _t_record (np_T : ndarray -> ndarray) (s : option (list nat))
           (r : calrec) : calrec :=
  mk_rec KList (rec_date r) (rec_info r) (_t_value np_T s (rec_data r))
         (map (_t_value np_T s) (rec_rest r)).

Definition _t (np_T : ndarray -> ndarray) (s : option (list nat))
           (item : list calrec) : list calrec :=
  map (_t_record np_T s) item.

Definition _t_dict (np_T : ndarray -> ndarray) (s : option (list nat))
           (item : dict) : dict :=
  map (fun kv => (fst kv, _t np_T s (snd kv))) item.

Definition transpose (np_T : ndarray -> ndarray) : M unit :=
  fun c =>
    let s := c_shape c in
    let c' :=
      mk_cal (c_name c) (c_depth c) (c_light_spectra c)
             (_t np_T s (c_dark_current c)) (_t_dict np_T s (c_flat_field c))
             (_t_dict np_T s (c_lens c)) (_t np_T s (c_noise c))
             (_t_dict np_T s (c_psf c)) s (_t_dict np_T s (c_balance c))
             (noise_level_function c) in
    match s with
    | Some sh => (set_shape (Some (rev sh)) c', Ok tt)   (* s[::-1] *)
    | None => (c', Raise TypeError)
    end.

(* ================================================================= *)
(** ** Sequences of calls to the mutating methods *)

Inductive call : Type :=
| Add (op : add_op)
| Delete (name : category) (date : date_arg) (light_ : light)
| ClearOld
| SetCamera (camera_name : string) (bit_depth : Z)
| Transpose.

Definition run_call (N : Collab) (T : TimeLib) (np_T : ndarray -> ndarray)
           (now : struct_time) (c : call) : M unit :=
  match c with
  | Add op => run_add N T now op
  | Delete name date light_ => deleteCoeff T now name date light_
  | ClearOld => clearOldCalibrations
  | SetCamera camera_name bit_depth => setCamera camera_name bit_depth
  | Transpose => transpose np_T
  end.

(** As for [run_adds]: a call that raises leaves the store as it was at
    the [raise], and the sequence goes on from there. *)
Fixpoint run_calls (N : Collab) (T : TimeLib) (np_T : ndarray -> ndarray)
         (cs : list (struct_time * call)) (s : CameraCalibration)
  : CameraCalibration :=
  match cs with
  | [] => s
  | (now, c) :: cs' =>
      run_calls N T np_T cs' (fst (run_call N T np_T now c s))
  end.

(* ================================================================= *)
(** ** More vocabulary *)

(** The category and the light spectrum an add-operation addresses, its
    date argument, and the record it stores when it gets as far as the
    insertion, for the date [d] that its date argument stands for. *)
Definition op_category (op : add_op) : category :=
  match op with
  | AddDarkCurrent _ _ _ _ _ => DarkCurrent
  | AddNoise _ _ _ _ => Noise
  | AddFlatField _ _ _ _ _ => FlatField
  | AddPSF _ _ _ _ => PSF
  | AddDeconvolutionBalance _ _ _ _ => Balance
  | AddLens _ _ _ _ => Lens
  end.

Definition op_light (op : add_op) : light :=
  match op with
  | AddDarkCurrent _ _ _ _ _ | AddNoise _ _ _ _ => None
  | AddFlatField _ _ _ _ l | AddPSF _ _ _ l
  | AddDeconvolutionBalance _ _ _ l | AddLens _ _ _ l => l
  end.

Definition op_date (op : add_op) : date_arg :=
  match op with
  | AddDarkCurrent _ _ date _ _ | AddNoise _ date _ _
  | AddFlatField _ date _ _ _ | AddPSF _ date _ _
  | AddDeconvolutionBalance _ date _ _ | AddLens _ date _ _ => date
  end.

Definition op_record (N : Collab) (d : struct_time) (op : add_op)
  : option calrec :=
  match op with
  | AddDarkCurrent slope intercept _ info error =>
      Some (mk_rec KList d info
                   (match intercept with
                    | VNone => slope
                    | _ => VTuple2 slope intercept
                    end) [error])
  | AddNoise c _ info error => Some (mk_rec KList d info c [error])
  | AddFlatField arr _ info error _ => Some (mk_rec KList d info arr [error])
  | AddPSF psf _ info _ => Some (mk_rec KList d info psf [])
  | AddDeconvolutionBalance b _ info _ => Some (mk_rec KList d info b [])
  | AddLens (LensInstance c) _ info _ => Some (mk_rec KList d info c [])
  | AddLens (LensFile p) _ info _ =>
      match readFromFile N p with
      | Ok c => Some (mk_rec KList d info c [])
      | Raise _ => None
      end
  end.

(** The sequence an add-operation inserts into: the stored one, or the
    empty one that the operation creates for a new spectrum. *)
Definition sequence_or_empty (s : CameraCalibration) (name : category)
           (light_ : light) : list calrec :=
  match stored_sequence s name light_ with
  | Some l => l
  | None => []
  end.

(** The spectra a dict is keyed by. *)
Definition dict_keys (d : dict) : list light := map fst d.

(** The registry of light spectra is in order: no spectrum is listed
    twice, no dict has a key twice, and every key of every dict is
    registered. *)
Definition keys_registered (s : CameraCalibration) (d : dict) : Prop :=
  NoDup (dict_keys d) /\
  forall k, In k (dict_keys d) -> In k (c_light_spectra s).

Definition registry_in_order (s : CameraCalibration) : Prop :=
  NoDup (c_light_spectra s) /\
  keys_registered s (c_flat_field s) /\ keys_registered s (c_lens s) /\
  keys_registered s (c_psf s) /\ keys_registered s (c_balance s).

(** The arrays held in a payload and in a record. *)
Fixpoint value_arrays (v : pyval) : list ndarray :=
  match v with
  | VArr a => [a]
  | VTuple2 a b | VList2 a b => value_arrays a ++ value_arrays b
  | _ => []
  end.

Definition record_arrays (r : calrec) : list ndarray :=
  value_arrays (rec_data r) ++ flat_map value_arrays (rec_rest r).

(** Every array held in a record of the store has property [P]. *)
Definition every_array (P : ndarray -> Prop) (s : CameraCalibration) : Prop :=
  every_sequence (fun l => Forall P (flat_map record_arrays l)) s.

(** What [transpose] needs of an array [a] to come back to it after two
    calls, the reference shape being [sh] before the first call: if [a]
    has the reference shape, [np_T] turns its shape round and undoes
    itself on it; and [a] does not have the reference shape read
    backwards without having the reference shape itself. *)
Definition flips_back (np_T : ndarray -> ndarray) (sh : list nat)
           (a : ndarray) : Prop :=
  (arr_shape a = sh ->
   np_T (np_T a) = a /\ arr_shape (np_T a) = rev sh) /\
  (arr_shape a = rev sh -> arr_shape a = sh).

(** A payload holds no tuple, so that [transpose] finds nothing in it to
    replace by a list. *)
Fixpoint tuple_free (v : pyval) : bool :=
  match v with
  | VTuple2 _ _ => false
  | VList2 a b => tuple_free a && tuple_free b
  | _ => true
  end.

(** The payload items of a record, [n[2:]], and a property of every one
    of them in the store. *)
Definition record_values (r : calrec) : list pyval :=
  rec_data r :: rec_rest r.

Definition every_value (P : pyval -> Prop) (s : CameraCalibration) : Prop :=
  every_sequence (fun l => Forall P (flat_map record_values l)) s.

(** The light spectrum [correct] works with: the one it is given or,
    when it is given none, the first registered one, if there is one. *)
Definition spectrum_or_first (s : CameraCalibration) (light_spectrum : light)
  : light :=
  match light_spectrum with
  | None => match py_index (c_light_spectra s) 0 with
            | Ok l => l
            | Raise _ => None
            end
  | Some _ => light_spectrum
  end.

(** [strftime_en] writes a date as [strptime_en] reads it. *)
Definition digit_char (n : Z) : ascii :=
  ascii_of_nat (Z.to_nat (48 + n mod 10)).

Definition two_digit_string (n : Z) : string :=
  String (digit_char (n / 10)) (String (digit_char n) EmptyString).

Definition strftime_en (t : struct_time) : string :=
  (two_digit_string (tm_mday t) ++ " "
   ++ nth (Z.to_nat (tm_mon t - 1)) month_names "" ++ " "
   ++ two_digit_string (tm_year t mod 100) ++ " - "
   ++ two_digit_string (tm_hour t) ++ ":"
   ++ two_digit_string (tm_min t))%string.

(** [numpy]'s [.T] on row-major data: the axes are reversed.  The first
    axis becomes the last one: the blocks along it are transposed one by
    one and then read side by side. *)
Fixpoint transpose_data (shape : list nat) (data : list Q) : list Q :=
  match shape with
  | [] => data
  | n :: rest =>
      let m := fold_right Nat.mul 1%nat rest in
      let blocks :=
        map (fun i => transpose_data rest (firstn m (skipn (i * m) data)))
            (seq 0 n) in
      flat_map (fun j => map (fun b => nth j b 0%Q) blocks) (seq 0 m)
  end.

Definition ndarray_T (a : ndarray) : ndarray :=
  mk_array (rev (arr_shape a)) (transpose_data (arr_shape a) (arr_data a)).

(** [l] is the sequence that [getCoeff] consults for [name] and
    [light_]: the list of a flat category, the entry of the spectrum, or,
    when the spectrum has none, the entry inserted first. *)
Definition consults (s : CameraCalibration) (name : category)
           (light_ : light) (l : list calrec) : Prop :=
  coeffs_get s name = Flat l \/
  exists d, coeffs_get s name = BySpectrum d /\
            (dict_get light_ d = Some l \/
             (dict_get light_ d = None /\ exists k rest, d = (k, l) :: rest)).

(** A method takes a store with property [P] to a store with property
    [Q], however it ends. *)
Definition transforms (P : CameraCalibration -> Prop) {A} (m : M A)
           (Q : CameraCalibration -> Prop) : Prop :=
  forall s, P s -> Q (fst (m s)).

(** What [registry_in_order] looks at: the list of spectra and the keys
    of the four dicts. *)
Definition registry_fields (s : CameraCalibration)
  : list light * (list light * (list light * (list light * list light))) :=
  (c_light_spectra s,
   (dict_keys (c_flat_field s),
    (dict_keys (c_lens s), (dict_keys (c_psf s), dict_keys (c_balance s))))).

(** The registry is in order and lists the spectrum [l]. *)
Definition registered (l : light) (s : CameraCalibration) : Prop :=
  registry_in_order s /\ In l (c_light_spectra s).

Module Ex2.

(** A 2 x 3 array and its transpose. *)
Definition a_2x3 : ndarray := mk_array [2; 3]%nat [1; 2; 3; 4; 5; 6]%Q.
Definition a_3x2 : ndarray := mk_array [3; 2]%nat [1; 4; 2; 5; 3; 6]%Q.

(** A 2 x 2 x 2 array. *)
Definition a_2x2x2 : ndarray :=
  mk_array [2; 2; 2]%nat [1; 2; 3; 4; 5; 6; 7; 8]%Q.
Definition a_2x2x2_T : ndarray :=
  mk_array [2; 2; 2]%nat [1; 5; 3; 7; 2; 6; 4; 8]%Q.

(** A new object on which a noise-level function has been cached. *)
Definition with_cached_nlf : CameraCalibration :=
  set_noise_level_function (Some (NlfEstimated (VObj "nlf"))) init.

(** Arrays of 2 x 2 and of 3 x 3 pixels. *)
Definition a_2x2 : ndarray := mk_array [2; 2]%nat [1; 2; 3; 4]%Q.
Definition a_3x3 : ndarray :=
  mk_array [3; 3]%nat [1; 2; 3; 4; 5; 6; 7; 8; 9]%Q.

(** A store with a flat field of 2 x 3 pixels, a point spread function
    of 2 x 2 pixels and a noise record. *)
Definition flat_and_psf : CameraCalibration :=
  run_adds lab time_en
    [(Ex.today, AddFlatField (VArr a_2x3) (DStr Ex.jan20) "flat" VNone
                             (Some "visible"%string));
     (Ex.today, AddPSF (VArr a_2x2) (DStr Ex.feb20) "psf"
                       (Some "visible"%string));
     (Ex.today, AddNoise (VObj "nlf") (DStr Ex.mar20) "noise" VNone)]
    init.

(** A store in which every category holds a record, and the spectrum
    ['visible'] has an entry in every spectrum-keyed category: two dark
    currents (March, then January), two point spread functions, and one
    record of everything else. *)
Definition full : CameraCalibration :=
  run_adds lab time_en
    [(Ex.today, AddNoise (VObj "nlf") (DStr Ex.jan20) "" VNone);
     (Ex.today, AddFlatField (VArr Ex.flat_1x2) (DStr Ex.jan20) "" VNone
                             (Some "visible"%string));
     (Ex.today, AddLens (LensInstance Ex.lens_coeffs) (DStr Ex.jan20) ""
                        (Some "visible"%string));
     (Ex.today, AddPSF (VNum 1) (DStr Ex.jan20) "" (Some "visible"%string));
     (Ex.today, AddPSF (VNum 1) (DStr Ex.mar20) "" (Some "visible"%string));
     (Ex.today, AddDeconvolutionBalance (VNum 1) (DStr Ex.jan20) ""
                                        (Some "visible"%string))]
    Ex.two_dark.

(** Lenses for ['visible'] and then for ['UV']. *)
Definition two_lenses : CameraCalibration :=
  run_adds lab time_en
    [(Ex.today, AddLens (LensInstance Ex.lens_coeffs) (DStr Ex.jan20) ""
                        (Some "visible"%string));
     (Ex.today, AddLens (LensInstance Ex.lens_coeffs) (DStr Ex.feb20) ""
                        (Some "UV"%string))]
    init.

(** Noise records of January 2020 and January 2019, and the store after
    [addNoise(3, date=jan20, info='b')]. *)
Definition rec_a : calrec := mk_rec KList Ex.t_jan20 "a" (VNum 1) [VNone].
Definition rec_b : calrec := mk_rec KList Ex.t_jan20 "b" (VNum 3) [VNone].
Definition t_jan19 : struct_time := mk_time 2019 1 1 0 0 0 1 1 (-1).
Definition rec_z : calrec := mk_rec KList t_jan19 "z" (VNum 2) [VNone].

Definition two_noise : CameraCalibration :=
  run_adds lab time_en
    [(Ex.today, AddNoise (VNum 1) (DStr Ex.jan20) "a" VNone);
     (Ex.today, AddNoise (VNum 2) (DStr Ex.jan19) "z" VNone)]
    init.

Definition add_b : add_op := AddNoise (VNum 3) (DStr Ex.jan20) "b" VNone.

(** A store on which the dark-current, the vignetting and the lens stage
    of [correct] fail for an image of one pixel: the dark current is a
    pair of arrays, the flat field has three dimensions, and the only
    lens record of the first spectrum has been deleted. *)
Definition flat_1x1x2 : ndarray := mk_array [1; 1; 2]%nat [1; 1]%Q.

Definition failing_stages : CameraCalibration :=
  run_calls lab time_en ndarray_T
    [(Ex.today, Add (AddDarkCurrent (VArr Ex.slope_1x1)
                                    (VArr Ex.intercept_1x1)
                                    (DStr Ex.jan20) "" VNone));
     (Ex.today, Add (AddFlatField (VArr flat_1x1x2) (DStr Ex.jan20) "" VNone
                                  (Some "visible"%string)));
     (Ex.today, Add (AddLens (LensInstance Ex.lens_coeffs) (DStr Ex.jan20) ""
                             (Some "visible"%string)));
     (Ex.today, Delete Lens (DStr Ex.jan20) (Some "visible"%string))]
    init.

(** [addDarkCurrent(1, 10, date=jan20)] on a new object: a pair of
    numbers, and no reference shape. *)
Definition scalar_pair : CameraCalibration :=
  run_adds lab time_en
    [(Ex.today, AddDarkCurrent (VNum 1) (VNum 10) (DStr Ex.jan20) "" VNone)]
    init.

(** A dark current given as two arrays of 2 x 3 pixels, and the store
    after one [transpose()], in which the pair is a list. *)
Definition array_pair : CameraCalibration :=
  run_adds lab time_en
    [(Ex.today, AddDarkCurrent (VArr a_2x3) (VArr a_2x3) (DStr Ex.jan20) ""
                               VNone)]
    init.

Definition array_pair_T : CameraCalibration :=
  fst (transpose ndarray_T array_pair).

End Ex2.
(* ================================================================= *)
(** ** Properties of the date order and of Python indexing *)

Section TupleOrder.

Lemma tuple_ltb_irrefl (a : list Z) : tuple_ltb a a = false.
Proof.
  induction a as [|x a IH]; simpl; [reflexivity|].
  rewrite Z.ltb_irrefl, Z.eqb_refl. exact IH.
Qed.

Lemma tuple_ltb_asym (a : list Z) :
  forall b, tuple_ltb a b = true -> tuple_ltb b a = false.
Proof.
  induction a as [|x a IH]; intros [|y b]; simpl; try congruence.
  destruct (Z.ltb_spec x y), (Z.ltb_spec y x), (Z.eqb_spec x y),
    (Z.eqb_spec y x); try lia; try congruence.
  apply IH.
Qed.

Lemma tuple_ltb_negtrans (a : list Z) :
  forall b c,
    tuple_ltb a b = false -> tuple_ltb b c = false -> tuple_ltb a c = false.
Proof.
  induction a as [|x a IH]; intros [|y b] [|z c]; simpl; try congruence.
  destruct (Z.ltb_spec x y), (Z.ltb_spec y z), (Z.ltb_spec x z),
    (Z.eqb_spec x y), (Z.eqb_spec y z), (Z.eqb_spec x z);
    try lia; try congruence.
  apply IH.
Qed.

End TupleOrder.

Lemma time_ltb_irrefl (t : struct_time) : time_ltb t t = false.
Proof. apply tuple_ltb_irrefl. Qed.

Lemma time_ltb_asym (s t : struct_time) :
  time_ltb s t = true -> time_ltb t s = false.
Proof. apply tuple_ltb_asym. Qed.

Lemma time_ltb_negtrans (s t u : struct_time) :
  time_ltb s t = false -> time_ltb t u = false -> time_ltb s u = false.
Proof. apply tuple_ltb_negtrans. Qed.

(** [y < d] and [z <= y] give [z < d]. *)
Lemma time_ltb_le_lt (y z d : struct_time) :
  time_ltb y d = true -> time_ltb y z = false -> time_ltb z d = true.
Proof.
  intros Hyd Hyz. destruct (time_ltb z d) eqn:E; [reflexivity|].
  rewrite (time_ltb_negtrans _ _ _ Hyz E) in Hyd. discriminate.
Qed.

Lemma py_index_nth {A} (l : list A) (n : nat) (x : A) :
  nth_error l n = Some x -> py_index l (Z.of_nat n) = Ok x.
Proof.
  intros H. unfold py_index.
  assert (Hn : (n < List.length l)%nat)
    by (apply nth_error_Some; congruence).
  destruct (Z.ltb_spec (Z.of_nat n) 0); [lia|].
  destruct (Z.leb_spec 0 (Z.of_nat n)); [|lia].
  destruct (Z.ltb_spec (Z.of_nat n) (Z.of_nat (List.length l))); [|lia].
  simpl. rewrite Nat2Z.id, H. reflexivity.
Qed.

Lemma py_index_nil {A} (i : Z) : py_index (@nil A) i = Raise IndexError.
Proof.
  unfold py_index. simpl.
  destruct (i <? 0) eqn:E.
  - rewrite Z.add_0_r.
    destruct (Z.leb_spec 0 i); [apply Z.ltb_lt in E; lia|reflexivity].
  - destruct (Z.leb_spec 0 i); simpl; [|reflexivity].
    destruct (Z.ltb_spec i 0); [lia|reflexivity].
Qed.

Lemma py_index_head {A} (x : A) (l : list A) : py_index (x :: l) 0 = Ok x.
Proof. apply (py_index_nth (x :: l) 0). reflexivity. Qed.

Lemma py_index_last {A} (l : list A) (x : A) : py_index (l ++ [x]) (-1) = Ok x.
Proof.
  unfold py_index. rewrite length_app. simpl List.length.
  change (-1 <? 0) with true. cbv iota.
  replace (-1 + Z.of_nat (List.length l + 1)) with (Z.of_nat (List.length l))
    by lia.
  destruct (Z.leb_spec 0 (Z.of_nat (List.length l))); [|lia].
  destruct (Z.ltb_spec (Z.of_nat (List.length l))
                       (Z.of_nat (List.length l + 1))); [|lia].
  simpl. rewrite Nat2Z.id, nth_error_app2, Nat.sub_diag by lia. reflexivity.
Qed.

(** *** Where [_insertDateIndex] points *)

Lemma insertDateIndex_le (d : struct_time) (l : list calrec) :
  (_insertDateIndex d l <= List.length l)%nat.
Proof.
  induction l as [|n l IH]; simpl; [lia|].
  destruct (time_ltb (rec_date n) d); simpl; lia.
Qed.

Lemma insertDateIndex_firstn (d : struct_time) (l : list calrec) :
  Forall (on_or_after d) (firstn (_insertDateIndex d l) l).
Proof.
  induction l as [|n l IH]; simpl; [constructor|].
  destruct (time_ltb (rec_date n) d) eqn:E; simpl; [constructor|].
  constructor; [exact E|exact IH].
Qed.

Lemma descending_tail_before (d : struct_time) (y : calrec) (l : list calrec) :
  descending (y :: l) -> before d y -> Forall (before d) (y :: l).
Proof.
  intros Hs Hy. apply StronglySorted_inv in Hs as [_ Hall].
  constructor; [exact Hy|].
  eapply Forall_impl; [|exact Hall].
  intros z Hz. unfold before in *. eapply time_ltb_le_lt; eassumption.
Qed.

Lemma insertDateIndex_skipn (d : struct_time) (l : list calrec) :
  descending l -> Forall (before d) (skipn (_insertDateIndex d l) l).
Proof.
  induction l as [|n l IH]; intros Hs; simpl; [constructor|].
  destruct (time_ltb (rec_date n) d) eqn:E; simpl.
  - now apply descending_tail_before.
  - apply IH. now apply StronglySorted_inv in Hs.
Qed.

Lemma Forall_py_insert {A} (P : A -> Prop) (i : nat) (x : A) (l : list A) :
  P x -> Forall P l -> Forall P (py_insert i x l).
Proof.
  intros Hx Hl. unfold py_insert.
  rewrite <- (firstn_skipn i l) in Hl. apply Forall_app in Hl as [H1 H2].
  apply Forall_app. split; [exact H1|]. constructor; assumption.
Qed.

(** Inserting at the index keeps a descending sequence descending. *)
Lemma descending_insert (r : calrec) (l : list calrec) :
  descending l ->
  descending (py_insert (_insertDateIndex (rec_date r) l) r l).
Proof.
  induction l as [|n l IH]; intros Hs.
  - unfold py_insert. simpl. repeat constructor.
  - pose proof (StronglySorted_inv Hs) as [Hl Hall]. simpl.
    destruct (time_ltb (rec_date n) (rec_date r)) eqn:E.
    + unfold py_insert. simpl. constructor; [exact Hs|].
      pose proof (descending_tail_before Hs E) as Hb.
      eapply Forall_impl; [|exact Hb].
      intros z Hz. now apply time_ltb_asym.
    + change (py_insert (S (_insertDateIndex (rec_date r) l)) r (n :: l))
        with (n :: py_insert (_insertDateIndex (rec_date r) l) r l).
      constructor; [now apply IH|].
      apply Forall_py_insert; [exact E|exact Hall].
Qed.

Lemma nth_error_split_firstn {A} (l : list A) :
  forall n, (n < List.length l)%nat ->
  exists x, nth_error l n = Some x /\
            l = firstn n l ++ x :: skipn (S n) l /\
            firstn (S n) l = firstn n l ++ [x].
Proof.
  induction l as [|a l IH]; intros n Hn; simpl in Hn; [lia|].
  destruct n as [|n].
  - exists a. repeat split.
  - destruct (IH n) as (x & Hx & Hl & Hf); [lia|].
    exists x. split; [exact Hx|]. split.
    + change (a :: l = a :: (firstn n l ++ x :: skipn (S n) l)).
      now rewrite <- Hl.
    + change (a :: firstn (S n) l = a :: (firstn n l ++ [x])).
      now rewrite Hf.
Qed.

Lemma toDate_raises (T : TimeLib) (now : struct_time) (date : date_arg)
      (e : exn) :
  _toDate T now date = Raise e -> is_value_or_type_error e = true.
Proof.
  destruct date as [|str|]; simpl; [discriminate| |].
  - destruct (strptime T str); [discriminate|].
    intros H. injection H as <-. reflexivity.
  - intros H. injection H as <-. reflexivity.
Qed.

(* ================================================================= *)
(** ** The date look-up *)

Lemma getFromDate_rule (T : TimeLib) (now : struct_time) (l : list calrec)
      (date : date_arg) :
  l <> [] -> descending l ->
  exists r, _getFromDate T now l date = Ok r /\
            date_lookup_rule (_toDate T now date) l r.
Proof.
  intros Hne Hs. unfold _getFromDate.
  destruct (_toDate T now date) as [d|e] eqn:Ed.
  - pose proof (insertDateIndex_le d l) as Hle.
    pose proof (insertDateIndex_firstn d l) as Hpre.
    pose proof (insertDateIndex_skipn d Hs) as Hpost.
    destruct (_insertDateIndex d l) as [|k].
    + destruct l as [|r l]; [congruence|].
      exists r. simpl. rewrite py_index_head. split; [reflexivity|].
      right. split; [exact Hpost|reflexivity].
    + destruct (nth_error_split_firstn l (n := k)) as (r & Hr & Hl & Hf);
        [lia|].
      exists r. replace (Z.of_nat (S k) - 1) with (Z.of_nat k) by lia.
      destruct (Z.eqb_spec (Z.of_nat k) (-1)); [lia|].
      split; [now apply py_index_nth|].
      left. exists (firstn k l), (skipn (S k) l).
      rewrite Hf in Hpre. apply Forall_app in Hpre as [H1 H2].
      repeat split; [exact Hl|exact H1|now inversion H2|exact Hpost].
  - rewrite (toDate_raises _ _ _ Ed).
    destruct l as [|r l]; [congruence|].
    exists r. rewrite py_index_head. split; reflexivity.
Qed.

(** C1 (as amended).  In a non-empty sequence kept newest first,
    [getCoeff] returns a record, chosen as follows.  If the requested
    date parses (an omitted date is the current time), the record is the
    oldest one dated on or after the request: every record before it in
    the sequence is dated on or after the request too, every record
    after it is dated before the request.  If every record is dated
    before the request, it is the newest record, and so it is when the
    date string is invalid. *)
Theorem getCoeff_date_lookup (T : TimeLib) (now : struct_time)
        (s : CameraCalibration) (name : category) (light_ : light)
        (date : date_arg) (l : list calrec) :
  stored_sequence s name light_ = Some l -> l <> [] -> descending l ->
  exists r, getCoeff T now s name light_ date = Ok (Some r) /\
            date_lookup_rule (_toDate T now date) l r.
Proof.
  intros Hl Hne Hs.
  destruct (getFromDate_rule T now date Hne Hs) as (r & Hr & Hrule).
  exists r. split; [|exact Hrule].
  unfold getCoeff. unfold stored_sequence in Hl.
  destruct (coeffs_get s name) as [l0|d].
  - injection Hl as ->. now rewrite Hr.
  - rewrite Hl. now rewrite Hr.
Qed.

Lemma getCoeff_date_lookup_witness :
  exists r,
    getCoeff time_en Ex.today Ex.two_dark DarkCurrent None (DStr Ex.jan19)
    = Ok (Some r) /\
    date_lookup_rule (_toDate time_en Ex.today (DStr Ex.jan19))
                     [Ex.rec_mar; Ex.rec_jan] r.
Proof.
  apply (@getCoeff_date_lookup time_en Ex.today Ex.two_dark DarkCurrent None
           (DStr Ex.jan19) [Ex.rec_mar; Ex.rec_jan]).
  - vm_compute. reflexivity.
  - discriminate.
  - repeat constructor.
Defined.

(** C1 (as stated) fails: with records dated 1 March 2020 and
    1 January 2020, a request for 1 February 2020 returns the March
    record, not the January one; and a request with an invalid date
    string returns the newest record, not the oldest. *)
Lemma getCoeff_between_dates_returns_newer :
  c_dark_current Ex.two_dark = [Ex.rec_mar; Ex.rec_jan] /\
  getCoeff time_en Ex.today Ex.two_dark DarkCurrent None (DStr Ex.feb20)
  = Ok (Some Ex.rec_mar) /\
  getCoeff time_en Ex.today Ex.two_dark DarkCurrent None (DStr "2020-02-01")
  = Ok (Some Ex.rec_mar) /\
  Ex.rec_mar <> Ex.rec_jan.
Proof.
  repeat split; try (vm_compute; reflexivity). discriminate.
Qed.

(** The other two requests of the example: a date before every record
    gives the oldest record; an omitted date gives the newest record when
    the clock is past every record. *)
Example getCoeff_before_all :
  getCoeff time_en Ex.today Ex.two_dark DarkCurrent None (DStr Ex.jan19)
  = Ok (Some Ex.rec_jan).
Proof. vm_compute. reflexivity. Qed.

Example getCoeff_no_date :
  getCoeff time_en Ex.today Ex.two_dark DarkCurrent None DNone
  = Ok (Some Ex.rec_mar).
Proof. vm_compute. reflexivity. Qed.

(* ================================================================= *)
(** ** Sorted insertion *)

Lemma each_sequence_dict_set (P : list calrec -> Prop) (k : light)
      (v : list calrec) (d : dict) :
  P v -> each_sequence P d -> each_sequence P (dict_set k v d).
Proof.
  intros Hv Hd. induction Hd as [|[k' v'] d Hkv Hd IH]; simpl.
  - repeat constructor. exact Hv.
  - destruct (light_eqb k' k); constructor; assumption.
Qed.

Lemma each_sequence_dict_get (P : list calrec -> Prop) (k : light)
      (l : list calrec) (d : dict) :
  each_sequence P d -> dict_get k d = Some l -> P l.
Proof.
  intros Hd. induction Hd as [|[k' v'] d Hkv _ IH]; simpl; [discriminate|].
  destruct (light_eqb k' k); [|exact IH].
  intros H. injection H as <-. exact Hkv.
Qed.

Lemma dict_insert_dated_descending (k : light) (r : calrec) (f : dict) :
  each_sequence descending f ->
  each_sequence descending (dict_insert_dated k (rec_date r) r f).
Proof.
  intros Hf. unfold dict_insert_dated.
  apply each_sequence_dict_set; [|exact Hf].
  apply descending_insert.
  destruct (dict_get k f) as [l|] eqn:E.
  - exact (each_sequence_dict_get _ Hf E).
  - constructor.
Qed.

Section Preservation.

Variable I : CameraCalibration -> Prop.

Lemma preserves_bind {A B} (m : M A) (k : A -> M B) :
  preserves I m -> (forall a, preserves I (k a)) -> preserves I (bind m k).
Proof.
  intros Hm Hk s Hs. unfold bind. specialize (Hm s Hs).
  destruct (m s) as [s' [a|e]]; simpl in *; [now apply Hk|exact Hm].
Qed.

Lemma preserves_lift {A} (r : result A) : preserves I (lift r).
Proof. intros s Hs. exact Hs. Qed.

Lemma preserves_modify (f : CameraCalibration -> CameraCalibration) :
  (forall s, I s -> I (f s)) -> preserves I (modify f).
Proof. intros Hf s Hs. now apply Hf. Qed.

End Preservation.

Lemma registerLight_same_tables (k : light) (s : CameraCalibration) :
  same_tables s (fst (_registerLight k s)).
Proof.
  unfold _registerLight, modify, same_tables. simpl.
  destruct (light_in k (c_light_spectra s)); simpl; repeat split.
Qed.

Lemma checkShape_same_tables (array : pyval) (s : CameraCalibration) :
  same_tables s (fst (_checkShape array s)).
Proof.
  unfold _checkShape, same_tables.
  destruct array as [| |a| | |]; simpl; repeat split;
    destruct (c_shape s) as [sh|]; simpl; try reflexivity;
    destruct (shape_eqb _ _); reflexivity.
Qed.

Lemma every_sequence_same_tables (P : list calrec -> Prop)
      (s s' : CameraCalibration) :
  same_tables s s' -> every_sequence P s -> every_sequence P s'.
Proof.
  intros (E1 & E2 & E3 & E4 & E5 & E6). unfold every_sequence.
  now rewrite E1, E2, E3, E4, E5, E6.
Qed.

Lemma run_add_descending (N : Collab) (T : TimeLib) (now : struct_time)
      (op : add_op) :
  preserves (every_sequence descending) (run_add N T now op).
Proof.
  destruct op; unfold run_add, addDarkCurrent, addNoise, addFlatField,
    addPSF, addDeconvolutionBalance, addLens;
    repeat first
      [ apply preserves_bind; [|intros ?]
      | apply preserves_lift
      | intros s0 Hs0;
        first [ exact (every_sequence_same_tables
                         (registerLight_same_tables _ s0) Hs0)
              | exact (every_sequence_same_tables
                         (checkShape_same_tables _ s0) Hs0) ]
      | apply preserves_modify;
        intros s0 (Hd & Hn & Hf & Hl & Hp & Hb);
        unfold every_sequence; simpl; repeat split; try assumption;
        first [ apply (descending_insert (mk_rec KList _ _ _ _)); assumption
              | apply (dict_insert_dated_descending _ (mk_rec KList _ _ _ _));
                assumption ] ].
Qed.

Lemma run_adds_descending (N : Collab) (T : TimeLib)
      (ops : list (struct_time * add_op)) :
  forall s, every_sequence descending s ->
            every_sequence descending (run_adds N T ops s).
Proof.
  induction ops as [|[now op] ops IH]; intros s Hs; simpl; [exact Hs|].
  apply IH. now apply run_add_descending.
Qed.

Lemma init_descending : every_sequence descending init.
Proof. unfold every_sequence, each_sequence; simpl. repeat split; constructor. Qed.

(** C3 (as stated) fails: two records added with the same date stand
    next to each other, so the sequence is not strictly descending. *)
Lemma same_date_twice_not_strict :
  ~ strictly_descending (c_noise Ex.same_date_twice).
Proof.
  intros H. vm_compute in H.
  apply StronglySorted_inv in H as [_ H].
  inversion H as [|x l Hx _]. vm_compute in Hx. discriminate.
Qed.

(* ================================================================= *)
(** ** Deleting a record *)

Lemma insertDateIndex_decompose (d : struct_time) (c : list calrec) :
  descending c ->
  (_insertDateIndex d c = 0%nat /\ Forall (before d) c) \/
  (exists pre r post,
      c = pre ++ r :: post /\ Forall (on_or_after d) pre /\
      on_or_after d r /\ Forall (before d) post /\
      _insertDateIndex d c = S (List.length pre) /\
      nth_error c (List.length pre) = Some r).
Proof.
  intros Hs.
  pose proof (insertDateIndex_le d c) as Hle.
  pose proof (insertDateIndex_firstn d c) as Hpre.
  pose proof (insertDateIndex_skipn d Hs) as Hpost.
  destruct (_insertDateIndex d c) as [|k].
  - left. split; [reflexivity|exact Hpost].
  - right.
    destruct (nth_error_split_firstn c (n := k)) as (r & Hr & Hl & Hf); [lia|].
    assert (Hlen : List.length (firstn k c) = k)
      by (apply firstn_length_le; lia).
    exists (firstn k c), r, (skipn (S k) c).
    rewrite Hf in Hpre. apply Forall_app in Hpre as [H1 H2].
    rewrite Hlen.
    repeat split; [exact Hl|exact H1|now inversion H2|exact Hpost|exact Hr].
Qed.

Lemma py_pop_app {A} (pre post : list A) (x : A) :
  py_pop (List.length pre) (pre ++ x :: post) = pre ++ post.
Proof.
  unfold py_pop. induction pre as [|a pre IH]; simpl; [reflexivity|].
  f_equal. exact IH.
Qed.

Lemma before_not_on_or_after (d : struct_time) (c : list calrec) :
  Forall (before d) c -> Exists (on_or_after d) c -> False.
Proof.
  intros Hb He. apply Exists_exists in He as (x & Hin & Hx).
  rewrite Forall_forall in Hb. specialize (Hb x Hin).
  unfold before, on_or_after in *. congruence.
Qed.

(** C6 (as amended).  For a sequence kept newest first and a date that
    parses (an omitted date is the current time): if every record is
    dated before the requested date -- in particular if the sequence is
    empty -- [deleteCoeff] raises and changes nothing; if some record is
    dated on or after the requested date, [deleteCoeff] succeeds and
    removes exactly one record, the oldest one dated on or after the
    request, which is the record the date look-up returns. *)
Theorem deleteCoeff_rule (T : TimeLib) (now : struct_time)
        (s : CameraCalibration) (name : category) (light_ : light)
        (date : date_arg) (c : list calrec) (d : struct_time) :
  stored_sequence s name light_ = Some c -> descending c ->
  _toDate T now date = Ok d ->
  (Forall (before d) c ->
   deleteCoeff T now name date light_ s
   = (s, Raise (Exception "no coeff for date")))
  /\
  (Exists (on_or_after d) c ->
   exists pre r post,
     c = pre ++ r :: post /\ Forall (on_or_after d) pre /\
     on_or_after d r /\ Forall (before d) post /\
     _getFromDate T now c date = Ok r /\
     deleteCoeff T now name date light_ s
     = (store_sequence name light_ (pre ++ post) s, Ok tt)).
Proof.
  intros Hc Hs Hd.
  assert (Hfound :
    match coeffs_get s name with
    | BySpectrum f => match dict_get light_ f with
                      | Some c0 => Ok c0
                      | None => Raise KeyError
                      end
    | Flat l => Ok l
    end = Ok c).
  { unfold stored_sequence in Hc. destruct (coeffs_get s name) as [l|f].
    - congruence.
    - now rewrite Hc. }
  destruct (insertDateIndex_decompose d Hs)
    as [[Hi Hall] | (pre & r & post & Hl & Hpre & Hr & Hpost & Hi & Hn)].
  - split.
    + intros _. unfold deleteCoeff. rewrite Hfound, Hd, Hi. reflexivity.
    + intros He. destruct (before_not_on_or_after Hall He).
  - split.
    + intros Hall. exfalso. apply (before_not_on_or_after Hall).
      rewrite Hl. apply Exists_app. right. now constructor.
    + intros _. exists pre, r, post.
      repeat split; try assumption.
      * unfold _getFromDate. rewrite Hd, Hi.
        replace (Z.of_nat (S (List.length pre)) - 1)
          with (Z.of_nat (List.length pre)) by lia.
        destruct (Z.eqb_spec (Z.of_nat (List.length pre)) (-1)); [lia|].
        now apply py_index_nth.
      * unfold deleteCoeff. rewrite Hfound, Hd, Hi.
        replace (Z.of_nat (S (List.length pre)) - 1)
          with (Z.of_nat (List.length pre)) by lia.
        destruct (Z.eqb_spec (Z.of_nat (List.length pre)) (-1)); [lia|].
        simpl negb. cbv iota. rewrite Nat2Z.id.
        rewrite Hl, py_pop_app.
        unfold store_sequence. reflexivity.
Qed.

Lemma deleteCoeff_rule_witness :
  exists pre r post,
    [Ex.rec_mar; Ex.rec_jan] = pre ++ r :: post /\
    Forall (on_or_after Ex.t_feb20) pre /\
    on_or_after Ex.t_feb20 r /\ Forall (before Ex.t_feb20) post /\
    _getFromDate time_en Ex.today [Ex.rec_mar; Ex.rec_jan] (DStr Ex.feb20)
    = Ok r /\
    deleteCoeff time_en Ex.today DarkCurrent (DStr Ex.feb20) None Ex.two_dark
    = (store_sequence DarkCurrent None (pre ++ post) Ex.two_dark, Ok tt).
Proof.
  apply (@deleteCoeff_rule time_en Ex.today Ex.two_dark DarkCurrent None
           (DStr Ex.feb20) [Ex.rec_mar; Ex.rec_jan] Ex.t_feb20).
  - vm_compute. reflexivity.
  - repeat constructor.
  - vm_compute. reflexivity.
  - apply Exists_cons_hd. vm_compute. reflexivity.
Defined.

(** C6 (as stated) fails: the dark-current sequence holds two records,
    and [deleteCoeff] with the date omitted, or with a date later than
    both, raises and removes nothing. *)
Lemma deleteCoeff_raises_on_nonempty :
  c_dark_current Ex.two_dark = [Ex.rec_mar; Ex.rec_jan] /\
  deleteCoeff time_en Ex.today DarkCurrent DNone None Ex.two_dark
  = (Ex.two_dark, Raise (Exception "no coeff for date")) /\
  deleteCoeff time_en Ex.today DarkCurrent (DStr "01 Apr 20 - 00:00") None
              Ex.two_dark
  = (Ex.two_dark, Raise (Exception "no coeff for date")).
Proof. repeat split; vm_compute; reflexivity. Qed.

(* ================================================================= *)
(** ** Reading from the store *)

Lemma getFromDate_nonempty (T : TimeLib) (now : struct_time)
      (l : list calrec) (date : date_arg) :
  l <> [] -> exists r, In r l /\ _getFromDate T now l date = Ok r.
Proof.
  intros Hne. unfold _getFromDate.
  destruct (_toDate T now date) as [d|e] eqn:Ed.
  - pose proof (insertDateIndex_le d l) as Hle.
    destruct (_insertDateIndex d l) as [|k].
    + destruct l as [|r l]; [congruence|].
      exists r. simpl. rewrite py_index_head. split; [now left|reflexivity].
    + destruct (nth_error_split_firstn l (n := k)) as (r & Hr & _); [lia|].
      exists r. split; [eapply nth_error_In; eassumption|].
      replace (Z.of_nat (S k) - 1) with (Z.of_nat k) by lia.
      destruct (Z.eqb_spec (Z.of_nat k) (-1)); [lia|].
      now apply py_index_nth.
  - rewrite (toDate_raises _ _ _ Ed).
    destruct l as [|r l]; [congruence|].
    exists r. rewrite py_index_head. split; [now left|reflexivity].
Qed.

Lemma getFromDate_empty (T : TimeLib) (now : struct_time) (date : date_arg) :
  _getFromDate T now [] date = Raise IndexError.
Proof.
  unfold _getFromDate. destruct (_toDate T now date) as [d|e] eqn:Ed.
  - simpl. apply py_index_nil.
  - rewrite (toDate_raises _ _ _ Ed). apply py_index_nil.
Qed.

(** X26.  The spectrum fallback.  In a spectrum-keyed category that has
    no entry for the requested spectrum: if the category has no spectrum
    at all, [getCoeff] returns [None]; otherwise, if the sequence of the
    first-inserted spectrum holds a record, [getCoeff] returns a record
    of that sequence -- the one the date look-up picks there -- and does
    not raise. *)
Theorem getCoeff_spectrum_fallback (T : TimeLib) (now : struct_time)
        (s : CameraCalibration) (name : category) (light_ : light)
        (date : date_arg) (d : dict) :
  coeffs_get s name = BySpectrum d -> dict_get light_ d = None ->
  (d = [] -> getCoeff T now s name light_ date = Ok None) /\
  (forall k l rest,
      d = (k, l) :: rest -> l <> [] ->
      exists r, In r l /\ _getFromDate T now l date = Ok r /\
                getCoeff T now s name light_ date = Ok (Some r)).
Proof.
  intros Hd Hmiss. unfold getCoeff. rewrite Hd, Hmiss. split.
  - intros ->. reflexivity.
  - intros k l rest -> Hne.
    destruct (getFromDate_nonempty T now date Hne) as (r & Hin & Hr).
    exists r. rewrite Hr. repeat split; assumption.
Qed.

Lemma getCoeff_spectrum_fallback_witness :
  exists r, In r [Ex.rec_visible] /\
            _getFromDate time_en Ex.today [Ex.rec_visible] DNone = Ok r /\
            getCoeff time_en Ex.today Ex2.two_lenses Lens (Some "IR"%string)
                     DNone = Ok (Some r).
Proof.
  refine (proj2 (@getCoeff_spectrum_fallback time_en Ex.today Ex2.two_lenses
                   Lens (Some "IR"%string) DNone
                   [(Some "visible"%string, [Ex.rec_visible]);
                    (Some "UV"%string, [Ex.rec_uv])] _ _)
                (Some "visible"%string) [Ex.rec_visible]
                [(Some "UV"%string, [Ex.rec_uv])] _ _).
  - vm_compute. reflexivity.
  - vm_compute. reflexivity.
  - reflexivity.
  - discriminate.
Defined.

(** The example of the spectrum fallback: only ['visible'] is registered
    and the lens for ['IR'] is asked for. *)
Example getCoeff_lens_IR :
  c_lens Ex.only_visible = [(Some "visible"%string, [Ex.rec_visible])] /\
  getCoeff time_en Ex.today Ex.only_visible Lens (Some "IR"%string) DNone
  = Ok (Some Ex.rec_visible).
Proof. split; vm_compute; reflexivity. Qed.

(** C9, on the code: lenses were added for ['visible'] and then for
    ['UV'], and the only record of ['visible'] was deleted, which leaves
    its empty sequence under its key.  ['IR'] has no entry and two other
    spectra have one, ['UV'] with a record; [getCoeff('lens', 'IR')]
    falls back to the sequence of ['visible'], inserted first, and raises
    [IndexError] on it: it neither returns a record nor [None]. *)
Theorem getCoeff_fallback_to_emptied_spectrum :
  Ex.visible_emptied
  = fst (deleteCoeff time_en Ex.today Lens (DStr Ex.jan20)
                     (Some "visible"%string) Ex2.two_lenses) /\
  c_lens Ex.visible_emptied
  = [(Some "visible"%string, []); (Some "UV"%string, [Ex.rec_uv])] /\
  dict_get (Some "IR"%string) (c_lens Ex.visible_emptied) = None /\
  getCoeff time_en Ex.today Ex.visible_emptied Lens (Some "IR"%string) DNone
  = Raise IndexError /\
  getCoeff time_en Ex.today Ex.visible_emptied Lens (Some "UV"%string) DNone
  = Ok (Some Ex.rec_uv).
Proof. repeat split; vm_compute; reflexivity. Qed.

(** C5, on the code: on a new object the dark-current sequence is empty,
    and [getCoeff('dark current')] raises [IndexError] whatever the light
    and the date; it does not return [None]. *)
Theorem getCoeff_empty_sequence_raises (T : TimeLib) (now : struct_time)
        (light_ : light) (date : date_arg) :
  c_dark_current init = [] /\
  getCoeff T now init DarkCurrent light_ date = Raise IndexError.
Proof.
  split; [reflexivity|].
  unfold getCoeff. simpl. now rewrite getFromDate_empty.
Qed.

(** The sibling path: a spectrum-keyed category without any spectrum
    gives [None]. *)
Example getCoeff_no_spectrum (T : TimeLib) (now : struct_time)
        (light_ : light) (date : date_arg) :
  getCoeff T now init Lens light_ date = Ok None.
Proof. reflexivity. Qed.

(* ================================================================= *)
(** ** Pruning *)

Lemma keep_last_each_nonempty (d : dict) :
  each_sequence (fun l => l <> []) d ->
  exists d', keep_last_each d = (d', Ok tt).
Proof.
  intros H. induction H as [|[k l] d Hl _ [d' IH]]; simpl.
  - eexists. reflexivity.
  - simpl in Hl. destruct (exists_last Hl) as (pre & r & ->).
    rewrite py_index_last, IH. eexists. reflexivity.
Qed.

(** C2, on the code: a store in which every category holds a record and
    ['visible'], the one registered spectrum, has an entry in every
    spectrum-keyed category; the dark currents are of 1 March 2020 and
    1 January 2020.  [clearOldCalibrations] succeeds and keeps the
    January record, the oldest one and the last of the sequence, not the
    newest; and it leaves both point spread functions in place, so that
    sequence does not get length 1. *)
Theorem clearOldCalibrations_keeps_oldest :
  c_light_spectra Ex2.full = [Some "visible"%string] /\
  every_sequence (fun l => l <> []) Ex2.full /\
  (forall name, stored_sequence Ex2.full name (Some "visible"%string)
                <> None) /\
  c_dark_current Ex2.full = [Ex.rec_mar; Ex.rec_jan] /\
  c_psf Ex2.full
  = [(Some "visible"%string, [Ex.rec_psf_mar; Ex.rec_psf_jan])] /\
  snd (clearOldCalibrations Ex2.full) = Ok tt /\
  c_dark_current (fst (clearOldCalibrations Ex2.full)) = [Ex.rec_jan] /\
  c_psf (fst (clearOldCalibrations Ex2.full)) = c_psf Ex2.full.
Proof.
  split; [vm_compute; reflexivity|].
  split.
  { vm_compute. repeat split; repeat constructor; discriminate. }
  split; [intros []; vm_compute; discriminate|].
  repeat split; vm_compute; reflexivity.
Qed.

(** In general the survivor of each pruned sequence is its last record,
    and the point spread functions and balances are not pruned. *)
Lemma clearOldCalibrations_keeps_last (s : CameraCalibration)
      (pre pre' : list calrec) (r r' : calrec) :
  c_dark_current s = pre ++ [r] -> c_noise s = pre' ++ [r'] ->
  each_sequence (fun l => l <> []) (c_flat_field s) ->
  each_sequence (fun l => l <> []) (c_lens s) ->
  let s' := fst (clearOldCalibrations s) in
  snd (clearOldCalibrations s) = Ok tt /\
  c_dark_current s' = [r] /\ c_noise s' = [r'] /\
  c_psf s' = c_psf s /\ c_balance s' = c_balance s.
Proof.
  intros Hd Hn Hf Hl. unfold clearOldCalibrations, bind. simpl.
  rewrite Hd, py_index_last. simpl. rewrite Hn, py_index_last. simpl.
  destruct (keep_last_each_nonempty Hf) as [f' ->]. simpl.
  destruct (keep_last_each_nonempty Hl) as [l' ->]. simpl.
  repeat split.
Qed.

(* ================================================================= *)
(** ** A flat field of the wrong shape *)

Lemma light_in_app (k : light) (l : list light) :
  light_in k (l ++ [k]) = true.
Proof.
  induction l as [|a l IH]; simpl.
  - destruct k as [k|]; simpl; [now rewrite String.eqb_refl|reflexivity].
  - rewrite IH. apply orb_true_r.
Qed.

Lemma checkShape_mismatch (a : ndarray) (s : CameraCalibration)
      (sh : list nat) :
  c_shape s = Some sh -> firstn 2 sh <> firstn 2 (arr_shape a) ->
  _checkShape (VArr a) s
  = (s, Raise (Exception "array shapes are different")).
Proof.
  intros Hsh Hne. unfold _checkShape. rewrite Hsh. unfold shape_eqb.
  destruct (list_eq_dec Nat.eq_dec (firstn 2 sh) (firstn 2 (arr_shape a)));
    [contradiction|reflexivity].
Qed.

(** C10 (as amended).  On a store whose reference shape is set,
    [addFlatField] with an array whose first two dimensions differ from
    it raises and inserts no record: every sequence is as before, and so
    is the reference shape.  If the light spectrum was not registered,
    it has been appended to the list of spectra by then, so the failed
    call has changed the store; if it was registered, the failed call
    leaves the store as it was. *)
Theorem addFlatField_registers_before_failing (T : TimeLib)
        (now : struct_time) (s : CameraCalibration) (a : ndarray)
        (date : date_arg) (info : string) (error : pyval)
        (light_spectrum : light) (sh : list nat) :
  c_shape s = Some sh -> firstn 2 sh <> firstn 2 (arr_shape a) ->
  let out := addFlatField T now (VArr a) date info error light_spectrum s in
  snd out = Raise (Exception "array shapes are different") /\
  same_tables s (fst out) /\ c_shape (fst out) = c_shape s /\
  (light_in light_spectrum (c_light_spectra s) = false ->
   c_light_spectra (fst out) = c_light_spectra s ++ [light_spectrum] /\
   fst out <> s) /\
  (light_in light_spectrum (c_light_spectra s) = true -> fst out = s).
Proof.
  intros Hsh Hne out. subst out.
  unfold addFlatField, bind, _registerLight, modify. cbv beta iota.
  set (s1 := if light_in light_spectrum (c_light_spectra s) then s
             else set_light_spectra (c_light_spectra s ++ [light_spectrum]) s).
  assert (Hsh1 : c_shape s1 = Some sh)
    by (subst s1; destruct (light_in _ _); simpl; assumption).
  rewrite (checkShape_mismatch a s1 Hsh1 Hne). cbn [fst snd].
  split; [reflexivity|].
  subst s1.
  destruct (light_in light_spectrum (c_light_spectra s)) eqn:Hin;
    simpl; repeat split; try assumption; try discriminate;
    try reflexivity.
  intros Heq.
  apply (f_equal (fun x => List.length (c_light_spectra x))) in Heq.
  simpl in Heq. rewrite length_app in Heq. simpl in Heq. lia.
Qed.

Lemma addFlatField_registers_before_failing_witness :
  let out := addFlatField time_en Ex.today (VArr Ex.flat_2x2) DNone "" VNone
                          (Some "IR"%string) Ex.with_flat in
  c_light_spectra Ex.with_flat = [Some "visible"%string] /\
  snd out = Raise (Exception "array shapes are different") /\
  same_tables Ex.with_flat (fst out) /\
  c_light_spectra (fst out) = [Some "visible"%string; Some "IR"%string] /\
  fst out <> Ex.with_flat.
Proof.
  destruct (@addFlatField_registers_before_failing time_en Ex.today
              Ex.with_flat Ex.flat_2x2 DNone "" VNone (Some "IR"%string)
              [1; 2]%nat) as (H1 & H2 & _ & H4 & _).
  - vm_compute. reflexivity.
  - vm_compute. discriminate.
  - destruct H4 as [H4 H5]; [vm_compute; reflexivity|].
    cbv zeta. split; [vm_compute; reflexivity|].
    split; [exact H1|]. split; [exact H2|]. split; [exact H4|exact H5].
Defined.

(** C10 (as stated) fails: ['visible'] is registered already, by the
    flat field that set the reference shape; a flat field of another
    shape offered for ['visible'] makes [addFlatField] raise and leaves
    the store, the list of spectra included, exactly as it was. *)
Lemma addFlatField_failing_keeps_registered_spectrum :
  let out := addFlatField time_en Ex.today (VArr Ex.flat_2x2) DNone "" VNone
                          (Some "visible"%string) Ex.with_flat in
  c_shape Ex.with_flat = Some [1; 2]%nat /\
  arr_shape Ex.flat_2x2 = [2; 2]%nat /\
  c_light_spectra Ex.with_flat = [Some "visible"%string] /\
  snd out = Raise (Exception "array shapes are different") /\
  fst out = Ex.with_flat.
Proof. repeat split; vm_compute; reflexivity. Qed.

(* ================================================================= *)
(** ** The dark-current background *)

Lemma dict_insert_dated_all_lists (k : light) (d : struct_time) (r : calrec)
      (f : dict) :
  rec_kind r = KList -> each_sequence all_lists f ->
  each_sequence all_lists (dict_insert_dated k d r f).
Proof.
  intros Hr Hf. unfold dict_insert_dated.
  apply each_sequence_dict_set; [|exact Hf].
  apply Forall_py_insert; [exact Hr|].
  destruct (dict_get k f) as [l|] eqn:E.
  - exact (each_sequence_dict_get _ Hf E).
  - constructor.
Qed.

(** The add-operations store every record as a list. *)
Lemma run_add_all_lists (N : Collab) (T : TimeLib) (now : struct_time)
      (op : add_op) :
  preserves (every_sequence all_lists) (run_add N T now op).
Proof.
  destruct op; unfold run_add, addDarkCurrent, addNoise, addFlatField,
    addPSF, addDeconvolutionBalance, addLens;
    repeat first
      [ apply preserves_bind; [|intros ?]
      | apply preserves_lift
      | intros s0 Hs0;
        first [ exact (every_sequence_same_tables
                         (registerLight_same_tables _ s0) Hs0)
              | exact (every_sequence_same_tables
                         (checkShape_same_tables _ s0) Hs0) ]
      | apply preserves_modify;
        intros s0 (Hd & Hn & Hf & Hl & Hp & Hb);
        unfold every_sequence; simpl; repeat split; try assumption;
        first [ apply Forall_py_insert; [reflexivity|assumption]
              | apply dict_insert_dated_all_lists; [reflexivity|assumption] ] ].
Qed.

Lemma run_adds_all_lists (N : Collab) (T : TimeLib)
      (ops : list (struct_time * add_op)) :
  forall s, every_sequence all_lists s ->
            every_sequence all_lists (run_adds N T ops s).
Proof.
  induction ops as [|[now op] ops IH]; intros s Hs; simpl; [exact Hs|].
  apply IH. now apply run_add_all_lists.
Qed.

Lemma getFromDate_In (T : TimeLib) (now : struct_time) (l : list calrec)
      (date : date_arg) (r : calrec) :
  _getFromDate T now l date = Ok r -> In r l.
Proof.
  destruct l as [|x l].
  - rewrite getFromDate_empty. discriminate.
  - intros H.
    destruct (@getFromDate_nonempty T now (x :: l) date) as (r' & Hin & Hr');
      [discriminate|].
    congruence.
Qed.

(** Whatever add-operations built the store, [calcDarkCurrent] either
    raises or returns the stored payload of a dark-current record as it
    is: the branch that evaluates offset and slope is not taken. *)
Lemma calcDarkCurrent_returns_payload (N N' : Collab) (T T' : TimeLib)
      (ops : list (struct_time * add_op)) (now : struct_time)
      (exposuretime : pyval) (date : date_arg) (bg : pyval) :
  calcDarkCurrent N T now (run_adds N' T' ops init) exposuretime date = Ok bg ->
  exists r, In r (c_dark_current (run_adds N' T' ops init)) /\
            bg = rec_data r.
Proof.
  assert (Hall : every_sequence all_lists (run_adds N' T' ops init)).
  { apply run_adds_all_lists. unfold every_sequence, each_sequence; simpl.
    repeat split; constructor. }
  destruct Hall as [Hd _]. unfold calcDarkCurrent.
  destruct (_getFromDate T now (c_dark_current (run_adds N' T' ops init)) date)
    as [r|e] eqn:E; simpl; [|discriminate].
  apply getFromDate_In in E.
  unfold all_lists in Hd. rewrite Forall_forall in Hd.
  rewrite (Hd r E). intros H. injection H as <-.
  exists r. split; [exact E|reflexivity].
Qed.

(** C4, on the code: a dark current stored with slope 1 and intercept 10,
    an image of value 100 and an exposure time of 2.  Whatever the
    numeric collaborators, [calcDarkCurrent] returns the stored pair
    itself; so the dark-current stage fails on [image -= bg] and the
    image comes back as 100, not as 100 - (10 + 1 * 2) = 88. *)
Theorem dark_current_pair_is_not_evaluated (N : Collab) :
  c_dark_current Ex.with_pair
  = [mk_rec KList Ex.t_jan20 ""
            (VTuple2 (VArr Ex.slope_1x1) (VArr Ex.intercept_1x1)) [VNone]] /\
  calcDarkCurrent N time_en Ex.today Ex.with_pair (VNum 2) DNone
  = Ok (VTuple2 (VArr Ex.slope_1x1) (VArr Ex.intercept_1x1)) /\
  snd (correct lab time_en Ex.clock (ImgOne (SrcArr Ex.image_100)) None
               (VNum 2) None 0 true (DateOne None) false false Ex.with_pair)
  = Ok Ex.image_100 /\
  (do m <- np_mul lab (VArr Ex.slope_1x1) (VNum 2);
   do bg <- np_add lab (VArr Ex.intercept_1x1) m;
   do bg <- np_clip_above lab bg (2 ^ 16 - 1);
   np_isub lab Ex.image_100 bg) = Ok Ex.image_88.
Proof.
  split; [vm_compute; reflexivity|].
  split; [|split; vm_compute; reflexivity].
  unfold calcDarkCurrent.
  replace (_getFromDate time_en Ex.today (c_dark_current Ex.with_pair) DNone)
    with (Ok (mk_rec KList Ex.t_jan20 ""
                     (VTuple2 (VArr Ex.slope_1x1) (VArr Ex.intercept_1x1))
                     [VNone]))
    by (vm_compute; reflexivity).
  reflexivity.
Qed.

(* ================================================================= *)
(** ** The pipeline *)

Lemma getCoeff_no_records (T : TimeLib) (now : struct_time)
      (s : CameraCalibration) (name : category) (light_ : light)
      (date : date_arg) (d : dict) :
  coeffs_get s name = BySpectrum d -> no_records d ->
  getCoeff T now s name light_ date = Ok None \/
  getCoeff T now s name light_ date = Raise IndexError.
Proof.
  intros Hd Hno. unfold getCoeff. rewrite Hd.
  destruct (dict_get light_ d) as [c|] eqn:E.
  - right. rewrite (each_sequence_dict_get _ Hno E), getFromDate_empty.
    reflexivity.
  - destruct d as [|[k i] rest]; [now left|right].
    apply Forall_inv in Hno. simpl in Hno. subst i.
    now rewrite getFromDate_empty.
Qed.

Lemma dark_stage_without_records (N : Collab) (T : TimeLib)
      (now : struct_time) (s : CameraCalibration) (image : ndarray)
      (exposuretime : pyval) (date : list (string * date_arg))
      (key : string) :
  c_dark_current s = [] ->
  try_in_place
    (with_date date key image
       (_correctDarkCurrent N T now s image exposuretime None)) = image.
Proof.
  intros Hd. unfold with_date.
  destruct (date_item date key) as [d|e]; [|reflexivity].
  unfold _correctDarkCurrent, calcDarkCurrent.
  rewrite Hd, getFromDate_empty. reflexivity.
Qed.

Lemma vignetting_stage_without_records (N : Collab) (T : TimeLib)
      (now : struct_time) (s : CameraCalibration) (image : ndarray)
      (light_spectrum : light) (date : list (string * date_arg))
      (key : string) :
  no_records (c_flat_field s) ->
  try_in_place
    (with_date date key image
       (_correctVignetting N T now s image light_spectrum)) = image.
Proof.
  intros Hf. unfold with_date.
  destruct (date_item date key) as [d|e]; [|reflexivity].
  unfold _correctVignetting.
  destruct (@getCoeff_no_records T now s FlatField light_spectrum d
              (c_flat_field s) eq_refl Hf) as [-> | ->]; reflexivity.
Qed.

Lemma lens_stage_without_records (N : Collab) (T : TimeLib)
      (now : struct_time) (s : CameraCalibration) (image : ndarray)
      (light_spectrum : light) (keep_size : bool)
      (date : list (string * date_arg)) (key : string) :
  no_records (c_lens s) ->
  try_assign
    (with_date date key image
       (fun d => _correctLens N T now s image light_spectrum d keep_size))
  = image.
Proof.
  intros Hl. unfold with_date.
  destruct (date_item date key) as [d|e]; [|reflexivity].
  unfold _correctLens.
  destruct (@getCoeff_no_records T now s Lens light_spectrum d
              (c_lens s) eq_refl Hl) as [-> | ->]; reflexivity.
Qed.

Lemma acquire_single (N : Collab) (T : TimeLib) (clock : clock_t)
      (images : images_arg) (date : list (string * date_arg))
      (img : ndarray) (s : CameraCalibration) :
  single_image N images img -> acquire N T clock images date s = (s, Ok img).
Proof.
  intros [[Hs Hr] | (Hs & Hlen & x & Hx & Hr)]; unfold acquire; rewrite Hs.
  - unfold lift. now rewrite Hr.
  - rewrite Hlen. cbn [Nat.ltb Nat.leb]. unfold lift.
    rewrite Hx. cbn [rbind]. now rewrite Hr.
Qed.

Lemma checkShape_admits (s : CameraCalibration) (a : ndarray) :
  shape_admits s a ->
  exists s', _checkShape (VArr a) s = (s', Ok tt) /\ same_tables s s'.
Proof.
  unfold shape_admits, _checkShape. destruct (c_shape s) as [sh|].
  - intros ->. unfold shape_eqb.
    destruct (list_eq_dec Nat.eq_dec (firstn 2 (arr_shape a))
                          (firstn 2 (arr_shape a))); [|contradiction].
    exists s. repeat split.
  - intros _. eexists. split; [reflexivity|]. repeat split.
Qed.

(** C7 (as amended).  For one input image that passes the shape
    validation (the reference shape is unset or agrees with the image in
    its first two dimensions), with no background images, on a store
    without dark-current, flat-field and lens records, with a threshold
    that is not positive and with deblurring and denoising off,
    [correct] does not raise and returns the image as it was loaded. *)
Theorem correct_is_identity_without_records (N : Collab) (T : TimeLib)
        (clock : clock_t) (s : CameraCalibration) (images : images_arg)
        (img : ndarray) (exposure_time : pyval) (light_spectrum : light)
        (threshold : Q) (keep_size : bool) (date : correct_date) :
  single_image N images img -> shape_admits s img ->
  c_dark_current s = [] -> no_records (c_flat_field s) ->
  no_records (c_lens s) -> (threshold <= 0)%Q ->
  snd (correct N T clock images None exposure_time light_spectrum threshold
               keep_size date false false s) = Ok img.
Proof.
  intros Himg Hshape Hd Hf Hl Hth.
  unfold correct, bind. rewrite (acquire_single T clock (date_dict date) s Himg).
  destruct (@checkShape_admits s img Hshape)
    as (s' & -> & (Ed & _ & Ef & El & _ & _)).
  rewrite <- Ed in Hd. rewrite <- Ef in Hf. rewrite <- El in Hl.
  cbv zeta.
  rewrite dark_stage_without_records by exact Hd.
  rewrite vignetting_stage_without_records by exact Hf.
  apply Qle_bool_iff in Hth. rewrite Hth. cbv [negb].
  rewrite lens_stage_without_records by exact Hl.
  reflexivity.
Qed.

Lemma correct_is_identity_without_records_witness :
  snd (correct lab time_en Ex.clock (ImgOne (SrcArr Ex.image_2_4)) None VNone
               None 0 true (DateOne None) false false init)
  = Ok Ex.image_2_4.
Proof.
  apply correct_is_identity_without_records.
  - left. split; reflexivity.
  - exact I.
  - reflexivity.
  - constructor.
  - constructor.
  - discriminate.
Defined.

(** C7 (as stated) fails.  After one image of 1 x 2 pixels has been
    corrected, the store still holds no record, but an image of 2 x 2
    pixels is refused by the shape validation and [correct] raises.  And
    with a background image given, the image returned differs from the
    input. *)
Lemma correct_without_records_not_identity :
  c_dark_current Ex.after_first_image = [] /\
  c_flat_field Ex.after_first_image = [] /\
  c_lens Ex.after_first_image = [] /\
  snd (correct lab time_en Ex.clock (ImgOne (SrcArr Ex.flat_2x2)) None VNone
               None 0 true (DateOne None) false false Ex.after_first_image)
  = Raise (Exception "array shapes are different") /\
  snd (correct lab time_en Ex.clock (ImgOne (SrcArr Ex.image_2_4))
               (Some (ImgOne (SrcArr Ex.ones_1x2))) VNone
               None 0 true (DateOne None) false false init)
  = Ok Ex.image_1_3 /\
  Ex.image_1_3 <> Ex.image_2_4.
Proof.
  repeat split; try (vm_compute; reflexivity). discriminate.
Qed.

(** *** What a failing stage leaves behind *)

Lemma with_date_raises_keeps {X} (date : list (string * date_arg))
      (key : string) (image : ndarray)
      (stage : date_arg -> ndarray * result X) :
  (forall d, raises (snd (stage d)) -> fst (stage d) = image) ->
  raises (snd (with_date date key image stage)) ->
  fst (with_date date key image stage) = image.
Proof.
  intros Hstage. unfold with_date.
  destruct (date_item date key) as [d|e]; [apply Hstage|reflexivity].
Qed.

Lemma dark_stage_raises_keeps (N : Collab) (T : TimeLib) (now : struct_time)
      (s : CameraCalibration) (image : ndarray) (exposuretime : pyval)
      (bgImages : option images_arg) (d : date_arg) :
  raises (snd (_correctDarkCurrent N T now s image exposuretime bgImages d)) ->
  fst (_correctDarkCurrent N T now s image exposuretime bgImages d) = image.
Proof.
  unfold _correctDarkCurrent.
  destruct (match bgImages with Some _ => _ | None => _ end) as [bg|e];
    [|reflexivity].
  destruct (np_isub N image bg) as [image'|e]; simpl; [|reflexivity].
  intros [e He]. discriminate.
Qed.

Lemma vignetting_stage_raises_keeps (N : Collab) (T : TimeLib)
      (now : struct_time) (s : CameraCalibration) (image : ndarray)
      (light_spectrum : light) (d : date_arg) :
  raises (snd (_correctVignetting N T now s image light_spectrum d)) ->
  fst (_correctVignetting N T now s image light_spectrum d) = image.
Proof.
  unfold _correctVignetting.
  destruct (getCoeff T now s FlatField light_spectrum d) as [[r|]|e];
    try reflexivity.
  destruct (np_idiv_nonzero N image (rec_data r)) as [image'|e]; simpl;
    [|reflexivity].
  intros [e He]. discriminate.
Qed.

Lemma try_assign_raises (r : ndarray * result ndarray) :
  raises (snd r) -> try_assign r = fst r.
Proof.
  destruct r as [buffer [out|e]]; simpl; [|reflexivity].
  intros [e He]. discriminate.
Qed.

Lemma try_in_place_raises (image : ndarray) (r : ndarray * result unit) :
  (raises (snd r) -> fst r = image) ->
  raises (snd r) -> try_in_place r = image.
Proof. intros H Hr. unfold try_in_place. now apply H. Qed.

(** C8 (as amended).  [correct] can raise only out of the acquisition of
    the working image, out of the shape validation, or out of the
    denoising stage when that is asked for; an exception inside the
    dark-current, vignetting, artefact, deblurring or lens stage never
    leaves the call.  In a call whose acquisition and shape validation
    succeed, with working image [img], the stages run one after the
    other on the images [img], [img1], ..., [img5] below, and [correct]
    returns [img5], denoised if that is asked for; when the
    dark-current, the vignetting, the artefact or the lens stage raises,
    the image passed on to the next stage is the image that stage was
    given. *)
Theorem stage_failures_are_isolated (N : Collab) (T : TimeLib)
        (clock : clock_t) (images : images_arg)
        (bgImages : option images_arg) (exposure_time : pyval)
        (light_spectrum : light) (threshold : Q) (keep_size : bool)
        (date : correct_date) (deblur denoise : bool)
        (s : CameraCalibration) :
  (forall e,
      snd (correct N T clock images bgImages exposure_time light_spectrum
                   threshold keep_size date deblur denoise s) = Raise e ->
      snd (acquire N T clock images (date_dict date) s) = Raise e \/
      (exists s1 img,
          acquire N T clock images (date_dict date) s = (s1, Ok img) /\
          snd (_checkShape (VArr img) s1) = Raise e) \/
      (denoise = true /\ exists img, _correctNoise N img = Raise e))
  /\
  (forall s1 s2 img,
      acquire N T clock images (date_dict date) s = (s1, Ok img) ->
      _checkShape (VArr img) s1 = (s2, Ok tt) ->
      let light_ := spectrum_or_first s light_spectrum in
      let dark :=
        with_date (date_dict date) "dark current" img
          (_correctDarkCurrent N T (clock DarkCurrent) s2 img exposure_time
                               bgImages) in
      let img1 := try_in_place dark in
      let vignetting :=
        with_date (date_dict date) "flat field" img1
          (_correctVignetting N T (clock FlatField) s2 img1 light_) in
      let img2 := try_in_place vignetting in
      let artefacts := _correctArtefacts N img2 threshold in
      let img3 := if negb (Qle_bool threshold 0)
                  then try_assign artefacts else img2 in
      let blur :=
        with_date (date_dict date) "psf" img3
          (_correctBlur N T clock s2 img3 light_) in
      let img4 := if deblur then try_assign blur else img3 in
      let lens :=
        with_date (date_dict date) "lens" img4
          (fun d => _correctLens N T (clock Lens) s2 img4 light_ d
                                 keep_size) in
      let img5 := try_assign lens in
      correct N T clock images bgImages exposure_time light_spectrum
              threshold keep_size date deblur denoise s
      = (s2, if denoise then _correctNoise N img5 else Ok img5) /\
      (raises (snd dark) -> img1 = img) /\
      (raises (snd vignetting) -> img2 = img1) /\
      (raises (snd artefacts) -> img3 = img2) /\
      (raises (snd lens) -> img5 = img4)).
Proof.
  split.
  - intros e. unfold correct, bind.
    destruct (acquire N T clock images (date_dict date) s)
      as [s1 [img|e1]] eqn:Ea; cbv beta iota; [|intros H; now left].
    destruct (_checkShape (VArr img) s1) as [s2 [[]|e2]] eqn:Ec;
      cbv beta iota zeta.
    + destruct denoise; cbn [snd]; intros H; [|discriminate].
      right; right. split; [reflexivity|]. eexists. exact H.
    + intros H. right; left. exists s1, img. rewrite Ec.
      split; [reflexivity|]. cbn in *. congruence.
  - intros s1 s2 img Ha Hc light_ dark img1 vignetting img2 artefacts img3
           blur img4 lens img5.
    split; [|repeat split].
    + unfold correct, bind. rewrite Ha. cbv beta iota. rewrite Hc.
      cbv beta iota zeta. destruct denoise; reflexivity.
    + apply try_in_place_raises.
      apply with_date_raises_keeps. intros d. apply dark_stage_raises_keeps.
    + apply try_in_place_raises.
      apply with_date_raises_keeps. intros d.
      apply vignetting_stage_raises_keeps.
    + intros H. subst img3. destruct (negb (Qle_bool threshold 0));
        [|reflexivity].
      now rewrite try_assign_raises.
    + intros H. subst img5. rewrite try_assign_raises by exact H.
      apply with_date_raises_keeps; [|exact H]. reflexivity.
Qed.

(** One call in which four stages raise: the stored dark current is a
    pair of arrays, which [image -= bg] refuses; the flat field has one
    dimension more than the image; no median filter is at hand; and the
    lens sequence of the spectrum is empty.  [correct] returns the image
    it was given. *)
Lemma stage_failures_are_isolated_witness :
  let img := Ex.image_100 in
  let s := Ex2.failing_stages in
  let light_ := Some "visible"%string in
  snd (_correctDarkCurrent lab time_en (Ex.clock DarkCurrent) s img (VNum 2)
                           None DNone) = Raise ValueError /\
  raises (snd (_correctVignetting lab time_en (Ex.clock FlatField) s img
                                  light_ DNone)) /\
  raises (snd (_correctArtefacts lab img 1)) /\
  snd (_correctLens lab time_en (Ex.clock Lens) s img light_ DNone true)
  = Raise IndexError /\
  correct lab time_en Ex.clock (ImgOne (SrcArr img)) None (VNum 2) None 1
          true (DateOne None) false false s
  = (s, Ok img).
Proof.
  cbv zeta.
  destruct (proj2 (@stage_failures_are_isolated lab time_en Ex.clock
                     (ImgOne (SrcArr Ex.image_100)) None (VNum 2) None 1
                     true (DateOne None) false false Ex2.failing_stages)
                  Ex2.failing_stages Ex2.failing_stages Ex.image_100)
    as (H0 & H1 & H2 & H3 & H5).
  - vm_compute. reflexivity.
  - vm_compute. reflexivity.
  - split; [vm_compute; reflexivity|].
    split; [eexists; vm_compute; reflexivity|].
    split; [eexists; vm_compute; reflexivity|].
    split; [vm_compute; reflexivity|].
    assert (E1 := H1 ltac:(eexists; vm_compute; reflexivity)).
    rewrite E1 in H0, H2, H3, H5.
    assert (E2 := H2 ltac:(eexists; vm_compute; reflexivity)).
    rewrite E2 in H0, H3, H5.
    assert (E3 := H3 ltac:(eexists; vm_compute; reflexivity)).
    rewrite E3 in H0, H5.
    assert (E5 := H5 ltac:(eexists; vm_compute; reflexivity)).
    rewrite E5 in H0. exact H0.
Defined.

(** C8 (as stated) fails.  With a point spread function stored and
    deblurring on, the deblurring stage divides the image by its maximum
    in place and then fails in the deconvolution; the exception is
    caught, but the pipeline goes on with the divided image, not with the
    image the stage was given.  And an empty list of images, or an image
    that cannot be read, makes [correct] raise before any stage. *)
Lemma failed_deblurring_changes_image :
  c_psf Ex.only_psf
  = [(Some "visible"%string,
      [mk_rec KList Ex.t_jan20 "" (VArr Ex.kernel_3d) []])] /\
  raises (snd (_correctBlur lab time_en Ex.clock Ex.only_psf Ex.image_2_4
                            (Some "visible"%string) DNone)) /\
  snd (correct lab time_en Ex.clock (ImgOne (SrcArr Ex.image_2_4)) None VNone
               None 0 true (DateOne None) true false Ex.only_psf)
  = Ok Ex.image_half_1 /\
  Ex.image_half_1 <> Ex.image_2_4 /\
  snd (correct lab time_en Ex.clock (ImgSeq []) None VNone None 0 true
               (DateOne None) false false init) = Raise IndexError /\
  raises (snd (correct lab time_en Ex.clock (ImgOne (SrcPath "missing.png"))
                       None VNone None 0 true (DateOne None) false false
                       init)).
Proof.
  repeat split; try (vm_compute; reflexivity); try discriminate;
    eexists; vm_compute; reflexivity.
Qed.

(* ================================================================= *)
(** ** Further properties of the store *)

Example ndarray_T_2x3 : ndarray_T Ex2.a_2x3 = Ex2.a_3x2.
Proof. reflexivity. Qed.

Example ndarray_T_2x2x2 : ndarray_T Ex2.a_2x2x2 = Ex2.a_2x2x2_T.
Proof. reflexivity. Qed.

(** X1.  What [getCoeff] can do: it raises nothing but [IndexError], and
    only when the sequence it consults is empty; it returns [None] only
    for a spectrum-keyed category without any spectrum; and a record it
    returns is a record of the sequence it consults, whatever the date
    argument is (a date, no date, an invalid string, not a string). *)
Theorem getCoeff_outcomes (T : TimeLib) (now : struct_time)
        (s : CameraCalibration) (name : category) (light_ : light)
        (date : date_arg) :
  match getCoeff T now s name light_ date with
  | Ok (Some r) => exists l, consults s name light_ l /\ In r l
  | Ok None => coeffs_get s name = BySpectrum []
  | Raise e => e = IndexError /\ consults s name light_ []
  end.
Proof.
  assert (Hseq : forall l, consults s name light_ l ->
            match (match _getFromDate T now l date with
                   | Ok r => Ok (Some r)
                   | Raise e => Raise e
                   end) with
            | Ok (Some r) => exists l, consults s name light_ l /\ In r l
            | Ok None => coeffs_get s name = BySpectrum []
            | Raise e => e = IndexError /\ consults s name light_ []
            end).
  { intros [|x l] Hc.
    - rewrite getFromDate_empty. split; [reflexivity|exact Hc].
    - destruct (@getFromDate_nonempty T now (x :: l) date) as (r & Hin & ->);
        [discriminate|].
      exists (x :: l). split; assumption. }
  unfold getCoeff.
  destruct (coeffs_get s name) as [l|d] eqn:Hd.
  - apply Hseq. left. exact Hd.
  - destruct (dict_get light_ d) as [c|] eqn:Hg.
    + apply Hseq. right. exists d. split; [exact Hd|now left].
    + destruct d as [|[k i] rest]; [reflexivity|].
      apply Hseq. right. exists ((k, i) :: rest).
      split; [exact Hd|]. right. split; [exact Hg|]. now exists k, rest.
Qed.

Lemma tuple_ltb_antisym (a : list Z) :
  forall b, List.length a = List.length b ->
            tuple_ltb a b = false -> tuple_ltb b a = false -> a = b.
Proof.
  induction a as [|x a IH]; intros [|y b]; simpl; try discriminate;
    [reflexivity|].
  intros Hlen. injection Hlen as Hlen.
  destruct (Z.ltb_spec x y), (Z.ltb_spec y x), (Z.eqb_spec x y),
    (Z.eqb_spec y x); try lia; try discriminate.
  intros Hab Hba. subst y. f_equal. now apply IH.
Qed.

Lemma time_ltb_antisym (s t : struct_time) :
  time_ltb s t = false -> time_ltb t s = false -> s = t.
Proof.
  intros Hst Hts.
  assert (H : time_fields s = time_fields t)
    by (apply tuple_ltb_antisym; [reflexivity|assumption|assumption]).
  destruct s, t. unfold time_fields in H. simpl in H.
  injection H as -> -> -> -> -> -> -> -> ->. reflexivity.
Qed.

Lemma insertDateIndex_split (d : struct_time) (pre post : list calrec) :
  Forall (on_or_after d) pre -> Forall (before d) post ->
  _insertDateIndex d (pre ++ post) = List.length pre.
Proof.
  intros Hpre Hpost. induction Hpre as [|x pre Hx _ IH]; simpl.
  - destruct Hpost as [|y post Hy _]; simpl; [reflexivity|].
    unfold before in Hy. now rewrite Hy.
  - unfold on_or_after in Hx. rewrite Hx. now rewrite IH.
Qed.

Lemma getFromDate_split (T : TimeLib) (now : struct_time) (date : date_arg)
      (d : struct_time) (pre post : list calrec) (r : calrec) :
  _toDate T now date = Ok d ->
  Forall (on_or_after d) pre -> on_or_after d r -> Forall (before d) post ->
  _getFromDate T now (pre ++ r :: post) date = Ok r.
Proof.
  intros Hd Hpre Hr Hpost. unfold _getFromDate. rewrite Hd.
  change (pre ++ r :: post) with (pre ++ [r] ++ post).
  rewrite app_assoc, insertDateIndex_split;
    [|apply Forall_app; split; [exact Hpre|now constructor]|exact Hpost].
  rewrite length_app. simpl List.length.
  replace (Z.of_nat (List.length pre + 1) - 1)
    with (Z.of_nat (List.length pre)) by lia.
  destruct (Z.eqb_spec (Z.of_nat (List.length pre)) (-1)); [lia|].
  apply py_index_nth. rewrite <- app_assoc.
  rewrite nth_error_app2, Nat.sub_diag by lia. reflexivity.
Qed.

Lemma descending_app_before (pre post : list calrec) (r : calrec) :
  descending (pre ++ r :: post) ->
  Forall (fun x => time_ltb (rec_date x) (rec_date r) = false) pre.
Proof.
  induction pre as [|x pre IH]; intros Hs; [constructor|].
  simpl in Hs. apply StronglySorted_inv in Hs as [Hs Hall].
  constructor; [|now apply IH].
  apply Forall_app in Hall as [_ Hall]. now inversion Hall.
Qed.

Lemma getCoeff_stored (T : TimeLib) (now : struct_time)
      (s : CameraCalibration) (name : category) (light_ : light)
      (date : date_arg) (l : list calrec) :
  stored_sequence s name light_ = Some l ->
  getCoeff T now s name light_ date
  = match _getFromDate T now l date with
    | Ok r => Ok (Some r)
    | Raise e => Raise e
    end.
Proof.
  unfold stored_sequence, getCoeff.
  destruct (coeffs_get s name) as [l0|d]; intros H.
  - now injection H as ->.
  - now rewrite H.
Qed.

Lemma lookup_stored_date (T : TimeLib) (now : struct_time)
        (s : CameraCalibration) (name : category) (light_ : light)
        (date : date_arg) (l : list calrec) (r0 : calrec) :
  stored_sequence s name light_ = Some l -> descending l -> In r0 l ->
  _toDate T now date = Ok (rec_date r0) ->
  exists pre r post,
    getCoeff T now s name light_ date = Ok (Some r) /\
    rec_date r = rec_date r0 /\
    l = pre ++ r :: post /\ Forall (before (rec_date r0)) post.
Proof.
  intros Hl Hs Hin Hd. rewrite (@getCoeff_stored T now s name light_ date l Hl).
  destruct (insertDateIndex_decompose (rec_date r0) Hs)
    as [[_ Hall] | (pre & r & post & El & Hpre & Hr & Hpost & _ & _)].
  - rewrite Forall_forall in Hall. specialize (Hall r0 Hin).
    unfold before in Hall. rewrite time_ltb_irrefl in Hall. discriminate.
  - exists pre, r, post.
    rewrite El at 1.
    rewrite (@getFromDate_split T now date (rec_date r0) pre post r
               Hd Hpre Hr Hpost).
    repeat split; [|exact El|exact Hpost].
    rewrite El in Hin. apply in_app_or in Hin as [Hin | [<- | Hin]].
    + rewrite El in Hs.
      pose proof (@descending_app_before pre post r Hs) as Hb.
      rewrite Forall_forall in Hb. specialize (Hb r0 Hin).
      symmetry. now apply time_ltb_antisym.
    + reflexivity.
    + rewrite Forall_forall in Hpost. specialize (Hpost r0 Hin).
      unfold before in Hpost. rewrite time_ltb_irrefl in Hpost. discriminate.
Qed.

(** X2.  Look-up by a stored date.  In a sequence kept newest first, a
    request for the date of a stored record returns a record of exactly
    that date; and every record that follows it in the sequence is
    older, so of several records with that date it is the one added
    last. *)
Theorem getCoeff_by_stored_date (T : TimeLib) (now : struct_time)
        (s : CameraCalibration) (name : category) (light_ : light)
        (date : date_arg) (l : list calrec) (r0 : calrec) :
  stored_sequence s name light_ = Some l -> descending l -> In r0 l ->
  _toDate T now date = Ok (rec_date r0) ->
  exists pre r post,
    getCoeff T now s name light_ date = Ok (Some r) /\
    rec_date r = rec_date r0 /\
    l = pre ++ r :: post /\ Forall (before (rec_date r0)) post.
Proof.
  intros Hl Hs Hin Hd.
  exact (@lookup_stored_date T now s name light_ date l r0 Hl Hs Hin Hd).
Qed.

Lemma getCoeff_by_stored_date_witness :
  exists pre r post,
    getCoeff time_en Ex.today Ex.two_dark DarkCurrent None (DStr Ex.jan20)
    = Ok (Some r) /\
    rec_date r = rec_date Ex.rec_jan /\
    [Ex.rec_mar; Ex.rec_jan] = pre ++ r :: post /\
    Forall (before (rec_date Ex.rec_jan)) post.
Proof.
  apply (@getCoeff_by_stored_date time_en Ex.today Ex.two_dark DarkCurrent
           None (DStr Ex.jan20) [Ex.rec_mar; Ex.rec_jan] Ex.rec_jan).
  - vm_compute. reflexivity.
  - repeat constructor.
  - right. left. reflexivity.
  - vm_compute. reflexivity.
Defined.

(** *** What a successful add-operation does *)

Lemma light_eqb_refl (k : light) : light_eqb k k = true.
Proof. destruct k as [k|]; simpl; [apply String.eqb_refl|reflexivity]. Qed.

Lemma light_eqb_eq (a b : light) : light_eqb a b = true <-> a = b.
Proof.
  destruct a as [a|], b as [b|]; simpl; split; try discriminate;
    try reflexivity.
  - intros H. apply String.eqb_eq in H. now subst.
  - intros H. injection H as ->. apply String.eqb_refl.
Qed.

Lemma dict_get_set_same (k : light) (v : list calrec) (d : dict) :
  dict_get k (dict_set k v d) = Some v.
Proof.
  induction d as [|[k' v'] d IH]; simpl.
  - now rewrite light_eqb_refl.
  - destruct (light_eqb k' k) eqn:E; simpl; rewrite E; [reflexivity|exact IH].
Qed.

Lemma checkShape_ok_tables (array : pyval) (s s' : CameraCalibration)
      (r : result unit) :
  _checkShape array s = (s', r) -> same_tables s s'.
Proof.
  intros H. pose proof (checkShape_same_tables array s) as Hs.
  now rewrite H in Hs.
Qed.

Lemma add_inserts (N : Collab) (T : TimeLib) (now : struct_time)
      (op : add_op) (s s' : CameraCalibration) (d : struct_time) :
  run_add N T now op s = (s', Ok tt) ->
  _toDate T now (op_date op) = Ok d ->
  exists r,
    op_record N d op = Some r /\
    stored_sequence s' (op_category op) (op_light op)
    = Some (py_insert
              (_insertDateIndex d
                 (sequence_or_empty s (op_category op) (op_light op)))
              r (sequence_or_empty s (op_category op) (op_light op))).
Proof.
  intros Hrun Hd.
  destruct op as [slope intercept date info error | c date info error
                 | arr date info error l | psf date info l
                 | b date info l | lens date info l];
    simpl in Hd; simpl op_record; simpl op_category; simpl op_light;
    unfold run_add, addDarkCurrent, addNoise, addFlatField, addPSF,
      addDeconvolutionBalance, addLens, bind, lift, _registerLight, modify
      in Hrun;
    cbv beta iota in Hrun; rewrite ?Hd in Hrun; cbv beta iota in Hrun.
  - destruct (_checkShape slope s) as [s1 [[]|e1]] eqn:E1; [|discriminate].
    destruct (_checkShape intercept s1) as [s2 [[]|e2]] eqn:E2;
      [|discriminate].
    apply checkShape_ok_tables in E1 as (E1 & _).
    apply checkShape_ok_tables in E2 as (E2 & _).
    injection Hrun as <-. eexists. split; [reflexivity|].
    unfold stored_sequence, sequence_or_empty, stored_sequence. simpl.
    now rewrite E2, E1.
  - injection Hrun as <-. eexists. split; [reflexivity|]. reflexivity.
  - match type of Hrun with
    | context [_checkShape ?a ?s1] =>
        destruct (_checkShape a s1) as [s2 [[]|e2]] eqn:E2; [|discriminate];
        apply checkShape_ok_tables in E2 as (_ & _ & E2 & _)
    end.
    rewrite ?Hd in Hrun. cbv beta iota in Hrun. injection Hrun as <-.
    eexists. split; [reflexivity|].
    unfold stored_sequence, sequence_or_empty, stored_sequence. simpl.
    unfold dict_insert_dated. rewrite dict_get_set_same, E2.
    destruct (light_in l (c_light_spectra s)); reflexivity.
  - injection Hrun as <-. eexists. split; [reflexivity|].
    unfold stored_sequence, sequence_or_empty, stored_sequence. simpl.
    unfold dict_insert_dated. rewrite dict_get_set_same.
    destruct (light_in l (c_light_spectra s)); reflexivity.
  - injection Hrun as <-. eexists. split; [reflexivity|].
    unfold stored_sequence, sequence_or_empty, stored_sequence. simpl.
    unfold dict_insert_dated. rewrite dict_get_set_same.
    destruct (light_in l (c_light_spectra s)); reflexivity.
  - destruct lens as [c|p].
    + injection Hrun as <-. eexists. split; [reflexivity|].
      unfold stored_sequence, sequence_or_empty, stored_sequence. simpl.
      unfold dict_insert_dated. rewrite dict_get_set_same.
      destruct (light_in l (c_light_spectra s)); reflexivity.
    + destruct (readFromFile N p) as [c|e]; [|discriminate].
      injection Hrun as <-. eexists. split; [reflexivity|].
      unfold stored_sequence, sequence_or_empty, stored_sequence. simpl.
      unfold dict_insert_dated. rewrite dict_get_set_same.
      destruct (light_in l (c_light_spectra s)); reflexivity.
Qed.

Lemma op_record_date (N : Collab) (d : struct_time) (op : add_op)
      (r : calrec) :
  op_record N d op = Some r -> rec_date r = d.
Proof.
  destruct op as [? ? ? ? ?|? ? ? ?|? ? ? ? ?|? ? ? ?|? ? ? ?|[c|p] ? ? ?];
    simpl; try (intros H; injection H as <-; reflexivity).
  destruct (readFromFile N p); [|discriminate].
  intros H; injection H as <-; reflexivity.
Qed.

Lemma every_sequence_stored (P : list calrec -> Prop)
      (s : CameraCalibration) (name : category) (light_ : light) :
  P [] -> every_sequence P s -> P (sequence_or_empty s name light_).
Proof.
  intros Hnil (Hd & Hn & Hf & Hl & Hp & Hb).
  unfold sequence_or_empty, stored_sequence.
  destruct name; simpl; try assumption;
    match goal with
    | H : each_sequence P ?d |- context [dict_get ?k ?d] =>
        destruct (dict_get k d) eqn:E; [|exact Hnil];
        eapply each_sequence_dict_get; [exact H|exact E]
    end.
Qed.

Lemma add_success_parses (N : Collab) (T : TimeLib) (now : struct_time)
      (op : add_op) (s s' : CameraCalibration) :
  run_add N T now op s = (s', Ok tt) ->
  exists d, _toDate T now (op_date op) = Ok d.
Proof.
  destruct (_toDate T now (op_date op)) as [d|e] eqn:Hd; [now exists d|].
  intros Hrun. exfalso.
  destruct op; simpl in Hd;
    unfold run_add, addDarkCurrent, addNoise, addFlatField, addPSF,
      addDeconvolutionBalance, addLens, bind, lift, _registerLight, modify
      in Hrun;
    cbv beta iota in Hrun; rewrite ?Hd in Hrun; cbv beta iota in Hrun;
    try discriminate.
  match type of Hrun with
  | context [_checkShape ?a ?s1] =>
      destruct (_checkShape a s1) as [s2 [[]|e2]]
  end; rewrite ?Hd in Hrun; discriminate.
Qed.

(** X3.  Insert, then look up.  On a store whose sequences are kept
    newest first, after an add-operation has succeeded, [getCoeff] for
    the same category and spectrum and for a request that stands for the
    same date returns the record just added. *)
Theorem add_then_getCoeff (N : Collab) (T : TimeLib) (now now' : struct_time)
        (op : add_op) (s s' : CameraCalibration) (date' : date_arg)
        (d : struct_time) :
  every_sequence descending s ->
  run_add N T now op s = (s', Ok tt) ->
  _toDate T now (op_date op) = Ok d -> _toDate T now' date' = Ok d ->
  exists r,
    op_record N d op = Some r /\
    getCoeff T now' s' (op_category op) (op_light op) date' = Ok (Some r).
Proof.
  intros Hs Hrun Hd Hd'.
  destruct (add_inserts N T now op s Hrun Hd) as (r & Hr & Hseq).
  exists r. split; [exact Hr|].
  rewrite (@getCoeff_stored T now' s' _ _ date' _ Hseq).
  unfold py_insert.
  pose proof (@every_sequence_stored descending s (op_category op)
                (op_light op) (SSorted_nil _) Hs) as Hold.
  rewrite (@getFromDate_split T now' date' d _ _ r Hd').
  - reflexivity.
  - apply insertDateIndex_firstn.
  - unfold on_or_after. rewrite (op_record_date N d op Hr).
    apply time_ltb_irrefl.
  - now apply insertDateIndex_skipn.
Qed.

Lemma add_then_getCoeff_witness :
  exists r,
    op_record lab Ex.t_feb20
      (AddNoise (VNum 3) (DStr Ex.feb20) "february" VNone) = Some r /\
    getCoeff time_en Ex.today
      (fst (run_add lab time_en Ex.today
              (AddNoise (VNum 3) (DStr Ex.feb20) "february" VNone)
              Ex.same_date_twice))
      Noise None (DStr Ex.feb20) = Ok (Some r).
Proof.
  apply (@add_then_getCoeff lab time_en Ex.today Ex.today
           (AddNoise (VNum 3) (DStr Ex.feb20) "february" VNone)
           Ex.same_date_twice _ (DStr Ex.feb20) Ex.t_feb20).
  - vm_compute. repeat split; repeat constructor.
  - reflexivity.
  - vm_compute. reflexivity.
  - vm_compute. reflexivity.
Defined.

Lemma found_stored (s : CameraCalibration) (name : category)
      (light_ : light) (c : list calrec) :
  stored_sequence s name light_ = Some c ->
  match coeffs_get s name with
  | BySpectrum f => match dict_get light_ f with
                    | Some c0 => Ok c0
                    | None => Raise KeyError
                    end
  | Flat l => Ok l
  end = Ok c.
Proof.
  unfold stored_sequence. destruct (coeffs_get s name) as [l|f]; intros H.
  - congruence.
  - now rewrite H.
Qed.

Lemma deleteCoeff_split (T : TimeLib) (now : struct_time)
      (s : CameraCalibration) (name : category) (light_ : light)
      (date : date_arg) (d : struct_time) (pre post : list calrec)
      (r : calrec) :
  stored_sequence s name light_ = Some (pre ++ r :: post) ->
  _toDate T now date = Ok d ->
  Forall (on_or_after d) pre -> on_or_after d r -> Forall (before d) post ->
  deleteCoeff T now name date light_ s
  = (store_sequence name light_ (pre ++ post) s, Ok tt).
Proof.
  intros Hc Hd Hpre Hr Hpost. unfold deleteCoeff.
  rewrite (found_stored _ _ _ Hc), Hd.
  change (pre ++ r :: post) with (pre ++ [r] ++ post).
  rewrite app_assoc, insertDateIndex_split;
    [|apply Forall_app; split; [exact Hpre|now constructor]|exact Hpost].
  rewrite length_app. simpl List.length.
  replace (Z.of_nat (List.length pre + 1) - 1)
    with (Z.of_nat (List.length pre)) by lia.
  destruct (Z.eqb_spec (Z.of_nat (List.length pre)) (-1)); [lia|].
  simpl negb. cbv iota. rewrite Nat2Z.id, <- app_assoc.
  change ([r] ++ post) with (r :: post). rewrite py_pop_app.
  unfold store_sequence. reflexivity.
Qed.

(** X4.  Insert, then delete.  On a store whose sequences are kept newest
    first, after an add-operation has succeeded, [deleteCoeff] for the
    same category and spectrum and for a date argument that stands for
    the same date succeeds and removes the record just added: the
    sequence is again what it was before the add-operation (the empty
    sequence, if the add-operation created it). *)
Theorem add_then_deleteCoeff (N : Collab) (T : TimeLib)
        (now now' : struct_time) (op : add_op) (s s' : CameraCalibration)
        (date' : date_arg) (d : struct_time) :
  every_sequence descending s ->
  run_add N T now op s = (s', Ok tt) ->
  _toDate T now (op_date op) = Ok d -> _toDate T now' date' = Ok d ->
  deleteCoeff T now' (op_category op) date' (op_light op) s'
  = (store_sequence (op_category op) (op_light op)
       (sequence_or_empty s (op_category op) (op_light op)) s', Ok tt).
Proof.
  intros Hs Hrun Hd Hd'.
  destruct (add_inserts N T now op s Hrun Hd) as (r & Hr & Hseq).
  pose proof (@every_sequence_stored descending s (op_category op)
                (op_light op) (SSorted_nil _) Hs) as Hold.
  unfold py_insert in Hseq.
  rewrite (@deleteCoeff_split T now' s' _ _ date' d _ _ r Hseq Hd').
  - now rewrite firstn_skipn.
  - apply insertDateIndex_firstn.
  - unfold on_or_after. rewrite (op_record_date N d op Hr).
    apply time_ltb_irrefl.
  - now apply insertDateIndex_skipn.
Qed.

Lemma add_then_deleteCoeff_witness :
  deleteCoeff time_en Ex.today Lens (DStr Ex.feb20) (Some "UV"%string)
    (fst (run_add lab time_en Ex.today
            (AddLens (LensInstance Ex.lens_coeffs) (DStr Ex.feb20) ""
                     (Some "UV"%string)) Ex.only_visible))
  = (store_sequence Lens (Some "UV"%string)
       (sequence_or_empty Ex.only_visible Lens (Some "UV"%string))
       (fst (run_add lab time_en Ex.today
               (AddLens (LensInstance Ex.lens_coeffs) (DStr Ex.feb20) ""
                        (Some "UV"%string)) Ex.only_visible)), Ok tt).
Proof.
  apply (@add_then_deleteCoeff lab time_en Ex.today Ex.today
           (AddLens (LensInstance Ex.lens_coeffs) (DStr Ex.feb20) ""
                    (Some "UV"%string))
           Ex.only_visible _ (DStr Ex.feb20) Ex.t_feb20).
  - vm_compute. repeat split; repeat constructor.
  - reflexivity.
  - vm_compute. reflexivity.
  - vm_compute. reflexivity.
Defined.

(** X5.  For the noise sequence the round trip is exact: [addNoise]
    followed by [deleteCoeff('noise', date)] with the same date gives the
    store back as it was. *)
Theorem addNoise_then_deleteCoeff_restores (T : TimeLib)
        (now now' : struct_time) (s : CameraCalibration) (nlf_coeff : pyval)
        (date date' : date_arg) (info : string) (error : pyval)
        (light_ : light) (d : struct_time) :
  descending (c_noise s) ->
  _toDate T now date = Ok d -> _toDate T now' date' = Ok d ->
  snd (addNoise T now nlf_coeff date info error s) = Ok tt /\
  deleteCoeff T now' Noise date' light_
              (fst (addNoise T now nlf_coeff date info error s))
  = (s, Ok tt).
Proof.
  intros Hs Hd Hd'. unfold addNoise, bind, lift, modify. rewrite Hd.
  cbv beta iota. split; [reflexivity|]. cbn [fst].
  unfold py_insert.
  rewrite (@deleteCoeff_split T now' _ Noise light_ date' d
             (firstn (_insertDateIndex d (c_noise s)) (c_noise s))
             (skipn (_insertDateIndex d (c_noise s)) (c_noise s))
             (mk_rec KList d info nlf_coeff [error])).
  - rewrite firstn_skipn. destruct s; reflexivity.
  - reflexivity.
  - exact Hd'.
  - apply insertDateIndex_firstn.
  - apply time_ltb_irrefl.
  - now apply insertDateIndex_skipn.
Qed.

Lemma addNoise_then_deleteCoeff_restores_witness :
  snd (addNoise time_en Ex.today (VNum 3) (DStr Ex.feb20) "" VNone
                Ex.same_date_twice) = Ok tt /\
  deleteCoeff time_en Ex.today Noise (DStr Ex.feb20) None
              (fst (addNoise time_en Ex.today (VNum 3) (DStr Ex.feb20) ""
                             VNone Ex.same_date_twice))
  = (Ex.same_date_twice, Ok tt).
Proof.
  apply (@addNoise_then_deleteCoeff_restores time_en Ex.today Ex.today
           Ex.same_date_twice (VNum 3) (DStr Ex.feb20) (DStr Ex.feb20) ""
           VNone None Ex.t_feb20).
  - vm_compute. repeat constructor.
  - vm_compute. reflexivity.
  - vm_compute. reflexivity.
Defined.

Lemma deleteCoeff_cases (T : TimeLib) (now : struct_time)
        (name : category) (date : date_arg) (light_ : light)
        (s : CameraCalibration) :
  match deleteCoeff T now name date light_ s with
  | (s', Ok _) =>
      exists pre r post,
        stored_sequence s name light_ = Some (pre ++ r :: post) /\
        s' = store_sequence name light_ (pre ++ post) s
  | (s', Raise e) =>
      s' = s /\ (e = KeyError <-> stored_sequence s name light_ = None)
  end.
Proof.
  unfold deleteCoeff, stored_sequence, store_sequence.
  destruct (coeffs_get s name) as [c|f] eqn:Hget.
  - destruct (_toDate T now date) as [d|e] eqn:Hd.
    + pose proof (insertDateIndex_le d c) as Hle.
      destruct (_insertDateIndex d c) as [|k] eqn:Hi.
      * simpl. split; [reflexivity|]. split; discriminate.
      * replace (Z.of_nat (S k) - 1) with (Z.of_nat k) by lia.
        destruct (Z.eqb_spec (Z.of_nat k) (-1)); [lia|]. simpl negb. cbv iota.
        rewrite Nat2Z.id.
        destruct (nth_error_split_firstn c (n := k)) as (r & _ & Hc & _);
          [lia|].
        exists (firstn k c), r, (skipn (S k) c).
        split; [now rewrite <- Hc|reflexivity].
    + split; [reflexivity|]. split; [|discriminate].
      intros ->. apply toDate_raises in Hd. discriminate.
  - destruct (dict_get light_ f) as [c|] eqn:Hf.
    + destruct (_toDate T now date) as [d|e] eqn:Hd.
      * pose proof (insertDateIndex_le d c) as Hle.
        destruct (_insertDateIndex d c) as [|k] eqn:Hi.
        -- simpl. split; [reflexivity|]. split; discriminate.
        -- replace (Z.of_nat (S k) - 1) with (Z.of_nat k) by lia.
           destruct (Z.eqb_spec (Z.of_nat k) (-1)); [lia|].
           simpl negb. cbv iota. rewrite Nat2Z.id.
           destruct (nth_error_split_firstn c (n := k)) as (r & _ & Hc & _);
             [lia|].
           exists (firstn k c), r, (skipn (S k) c).
           split; [now rewrite <- Hc|reflexivity].
      * split; [reflexivity|]. split; [|discriminate].
        intros ->. apply toDate_raises in Hd. discriminate.
    + split; [reflexivity|]. split; reflexivity.
Qed.

(** X6.  What [deleteCoeff] can do, on any store and for any arguments:
    either it succeeds, and then the addressed sequence has lost exactly
    one record, the others keeping their order, and nothing else has
    changed; or it raises, and then the store is as it was.  It raises
    [KeyError] exactly when the category is spectrum-keyed and has no
    entry for the spectrum. *)
Theorem deleteCoeff_outcomes (T : TimeLib) (now : struct_time)
        (name : category) (date : date_arg) (light_ : light)
        (s : CameraCalibration) :
  match deleteCoeff T now name date light_ s with
  | (s', Ok _) =>
      exists pre r post,
        stored_sequence s name light_ = Some (pre ++ r :: post) /\
        s' = store_sequence name light_ (pre ++ post) s
  | (s', Raise e) =>
      s' = s /\ (e = KeyError <-> stored_sequence s name light_ = None)
  end.
Proof. apply deleteCoeff_cases. Qed.

(** X7.  An add-operation that raises has inserted nothing: every
    sequence of every category is as it was before the call. *)
Theorem failed_add_inserts_nothing (N : Collab) (T : TimeLib)
        (now : struct_time) (op : add_op) (s : CameraCalibration) (e : exn) :
  snd (run_add N T now op s) = Raise e ->
  same_tables s (fst (run_add N T now op s)).
Proof.
  assert (Hreg : forall l, same_tables s
            (if light_in l (c_light_spectra s) then s
             else set_light_spectra (c_light_spectra s ++ [l]) s)).
  { intros l. destruct (light_in l (c_light_spectra s)); repeat split. }
  assert (Hrefl : same_tables s s) by (repeat split).
  destruct op as [slope intercept date info error | c date info error
                 | arr date info error l | psf date info l
                 | b date info l | lens date info l];
    unfold run_add, addDarkCurrent, addNoise, addFlatField, addPSF,
      addDeconvolutionBalance, addLens, bind, lift, _registerLight, modify;
    cbv beta iota.
  - destruct (_toDate T now date) as [d|e0]; [|intros _; exact Hrefl].
    cbv beta iota.
    destruct (_checkShape slope s) as [s1 [[]|e1]] eqn:E1;
      [|intros _; exact (checkShape_ok_tables _ _ E1)].
    destruct (_checkShape intercept s1) as [s2 [[]|e2]] eqn:E2;
      [discriminate|].
    intros _. cbn [fst].
    destruct (checkShape_ok_tables _ _ E1) as (A1 & A2 & A3 & A4 & A5 & A6).
    destruct (checkShape_ok_tables _ _ E2) as (B1 & B2 & B3 & B4 & B5 & B6).
    unfold same_tables. now rewrite B1, B2, B3, B4, B5, B6.
  - destruct (_toDate T now date) as [d|e0]; [discriminate|].
    intros _; exact Hrefl.
  - match goal with
    | |- context [_checkShape ?a ?s1] =>
        destruct (_checkShape a s1) as [s2 [[]|e2]] eqn:E2
    end.
    + destruct (_toDate T now date) as [d|e0]; [discriminate|].
      intros _. cbn [fst].
      destruct (Hreg l) as (A1 & A2 & A3 & A4 & A5 & A6).
      destruct (checkShape_ok_tables _ _ E2) as (B1 & B2 & B3 & B4 & B5 & B6).
      unfold same_tables. now rewrite B1, B2, B3, B4, B5, B6.
    + intros _. cbn [fst].
      destruct (Hreg l) as (A1 & A2 & A3 & A4 & A5 & A6).
      destruct (checkShape_ok_tables _ _ E2) as (B1 & B2 & B3 & B4 & B5 & B6).
      unfold same_tables. now rewrite B1, B2, B3, B4, B5, B6.
  - destruct (_toDate T now date) as [d|e0]; [discriminate|].
    intros _. apply Hreg.
  - destruct (_toDate T now date) as [d|e0]; [discriminate|].
    intros _. apply Hreg.
  - destruct (_toDate T now date) as [d|e0]; [|intros _; apply Hreg].
    cbv beta iota.
    destruct lens as [c|p]; [discriminate|].
    destruct (readFromFile N p) as [c|e0]; [discriminate|].
    intros _. apply Hreg.
Qed.

Lemma failed_add_inserts_nothing_witness :
  same_tables Ex.with_flat
    (fst (run_add lab time_en Ex.today
            (AddFlatField (VArr Ex.flat_2x2) DNone "" VNone
                          (Some "IR"%string)) Ex.with_flat)).
Proof.
  apply (@failed_add_inserts_nothing lab time_en Ex.today
           (AddFlatField (VArr Ex.flat_2x2) DNone "" VNone (Some "IR"%string))
           Ex.with_flat (Exception "array shapes are different")).
  vm_compute. reflexivity.
Defined.

Lemma dict_get_set_other (k k' : light) (v : list calrec) (d : dict) :
  k' <> k -> dict_get k' (dict_set k v d) = dict_get k' d.
Proof.
  intros Hne.
  assert (Hkk : light_eqb k k' = false).
  { destruct (light_eqb k k') eqn:E; [|reflexivity].
    apply light_eqb_eq in E. congruence. }
  induction d as [|[k0 v0] d IH]; simpl.
  - now rewrite Hkk.
  - destruct (light_eqb k0 k) eqn:E; simpl.
    + apply light_eqb_eq in E. subst k0. now rewrite Hkk.
    + destruct (light_eqb k0 k'); [reflexivity|exact IH].
Qed.

Lemma same_tables_coeffs_get (s s' : CameraCalibration) (name : category) :
  same_tables s s' -> coeffs_get s' name = coeffs_get s name.
Proof.
  intros (E1 & E2 & E3 & E4 & E5 & E6). destruct name; simpl; congruence.
Qed.

Lemma registerLight_tables (l : light) (s : CameraCalibration) :
  same_tables s (if light_in l (c_light_spectra s) then s
                 else set_light_spectra (c_light_spectra s ++ [l]) s).
Proof. destruct (light_in l (c_light_spectra s)); repeat split. Qed.

Lemma same_tables_trans (a b c : CameraCalibration) :
  same_tables a b -> same_tables b c -> same_tables a c.
Proof.
  intros (A1 & A2 & A3 & A4 & A5 & A6) (B1 & B2 & B3 & B4 & B5 & B6).
  unfold same_tables. now rewrite B1, B2, B3, B4, B5, B6.
Qed.

Ltac other_tables Hsame :=
  split;
  [ intros [] Hne; try congruence; simpl;
    destruct Hsame as (? & ? & ? & ? & ? & ?); congruence
  | intros light' Hne f f' Hf Hf'; simpl in Hf, Hf'; try discriminate;
    injection Hf as <-; injection Hf' as <-;
    unfold dict_insert_dated; rewrite dict_get_set_other by exact Hne;
    destruct Hsame as (? & ? & ? & ? & ? & ?); congruence ].

Lemma add_keeps_others (N : Collab) (T : TimeLib) (now : struct_time)
      (op : add_op) (s s' : CameraCalibration) :
  run_add N T now op s = (s', Ok tt) ->
  (forall name', name' <> op_category op ->
                 coeffs_get s' name' = coeffs_get s name') /\
  (forall light', light' <> op_light op ->
   forall f f', coeffs_get s (op_category op) = BySpectrum f ->
                coeffs_get s' (op_category op) = BySpectrum f' ->
                dict_get light' f' = dict_get light' f).
Proof.
  intros Hrun.
  destruct (add_success_parses N T now op s Hrun) as [d Hd].
  destruct op as [slope intercept date info error | c date info error
                 | arr date info error l | psf date info l
                 | b date info l | lens date info l];
    simpl in Hd; simpl op_category; simpl op_light;
    unfold run_add, addDarkCurrent, addNoise, addFlatField, addPSF,
      addDeconvolutionBalance, addLens, bind, lift, _registerLight, modify
      in Hrun;
    cbv beta iota in Hrun; rewrite ?Hd in Hrun; cbv beta iota in Hrun.
  - destruct (_checkShape slope s) as [s1 [[]|e1]] eqn:E1; [|discriminate].
    destruct (_checkShape intercept s1) as [s2 [[]|e2]] eqn:E2;
      [|discriminate].
    pose proof (same_tables_trans (checkShape_ok_tables _ _ E1)
                                  (checkShape_ok_tables _ _ E2)) as Hsame.
    injection Hrun as <-. other_tables Hsame.
  - injection Hrun as <-.
    assert (Hsame : same_tables s s) by (repeat split).
    other_tables Hsame.
  - match type of Hrun with
    | context [_checkShape ?a ?s1] =>
        destruct (_checkShape a s1) as [s2 [[]|e2]] eqn:E2; [|discriminate]
    end.
    pose proof (same_tables_trans (registerLight_tables l s)
                                  (checkShape_ok_tables _ _ E2)) as Hsame.
    rewrite ?Hd in Hrun. cbv beta iota in Hrun. injection Hrun as <-.
    other_tables Hsame.
  - injection Hrun as <-. pose proof (registerLight_tables l s) as Hsame.
    other_tables Hsame.
  - injection Hrun as <-. pose proof (registerLight_tables l s) as Hsame.
    other_tables Hsame.
  - pose proof (registerLight_tables l s) as Hsame.
    destruct lens as [c|p].
    + injection Hrun as <-. other_tables Hsame.
    + destruct (readFromFile N p) as [c|e]; [|discriminate].
      injection Hrun as <-. other_tables Hsame.
Qed.

(** X8.  An add-operation that succeeds has parsed its date and inserted
    exactly one record: the addressed sequence is the old one with the
    new record put in at the insertion index, no other category has
    changed, and in the addressed category no other spectrum has
    changed. *)
Theorem successful_add_inserts_one (N : Collab) (T : TimeLib)
        (now : struct_time) (op : add_op) (s s' : CameraCalibration) :
  run_add N T now op s = (s', Ok tt) ->
  exists d r,
    _toDate T now (op_date op) = Ok d /\ op_record N d op = Some r /\
    stored_sequence s' (op_category op) (op_light op)
    = Some (py_insert
              (_insertDateIndex d
                 (sequence_or_empty s (op_category op) (op_light op)))
              r (sequence_or_empty s (op_category op) (op_light op))) /\
    (forall name', name' <> op_category op ->
                   coeffs_get s' name' = coeffs_get s name') /\
    (forall light', light' <> op_light op ->
     forall f f', coeffs_get s (op_category op) = BySpectrum f ->
                  coeffs_get s' (op_category op) = BySpectrum f' ->
                  dict_get light' f' = dict_get light' f).
Proof.
  intros Hrun.
  destruct (add_success_parses N T now op s Hrun) as [d Hd].
  destruct (add_inserts N T now op s Hrun Hd) as (r & Hr & Hseq).
  destruct (add_keeps_others N T now op s Hrun) as [H1 H2].
  exists d, r. repeat split; assumption.
Qed.

Lemma successful_add_inserts_one_witness :
  exists d r,
    _toDate time_en Ex.today (DStr Ex.feb20) = Ok d /\
    op_record lab d (AddLens (LensInstance Ex.lens_coeffs) (DStr Ex.feb20) ""
                             (Some "UV"%string)) = Some r /\
    stored_sequence
      (fst (run_add lab time_en Ex.today
              (AddLens (LensInstance Ex.lens_coeffs) (DStr Ex.feb20) ""
                       (Some "UV"%string)) Ex.only_visible))
      Lens (Some "UV"%string)
    = Some (py_insert
              (_insertDateIndex d
                 (sequence_or_empty Ex.only_visible Lens (Some "UV"%string)))
              r (sequence_or_empty Ex.only_visible Lens (Some "UV"%string)))
    /\
    (forall name', name' <> Lens ->
       coeffs_get (fst (run_add lab time_en Ex.today
                          (AddLens (LensInstance Ex.lens_coeffs)
                                   (DStr Ex.feb20) "" (Some "UV"%string))
                          Ex.only_visible)) name'
       = coeffs_get Ex.only_visible name') /\
    (forall light', light' <> Some "UV"%string ->
     forall f f',
       coeffs_get Ex.only_visible Lens = BySpectrum f ->
       coeffs_get (fst (run_add lab time_en Ex.today
                          (AddLens (LensInstance Ex.lens_coeffs)
                                   (DStr Ex.feb20) "" (Some "UV"%string))
                          Ex.only_visible)) Lens = BySpectrum f' ->
       dict_get light' f' = dict_get light' f).
Proof.
  apply (@successful_add_inserts_one lab time_en Ex.today
           (AddLens (LensInstance Ex.lens_coeffs) (DStr Ex.feb20) ""
                    (Some "UV"%string)) Ex.only_visible).
  reflexivity.
Defined.

(** C3 (as amended).  After any sequence of add-operations on a new
    object, with dates in any order, every sequence of every category is
    sorted by date, newest first, records of equal date following each
    other.  And an add-operation that succeeds on a store so sorted puts
    its record into the sequence it addresses behind all records dated
    on or after the date of the new record -- so behind the records of
    the same date -- and in front of all records dated before it; the
    store is sorted afterwards. *)
Theorem add_operations_keep_descending (N : Collab) (T : TimeLib)
        (ops : list (struct_time * add_op)) (now : struct_time)
        (op : add_op) (s s' : CameraCalibration) :
  every_sequence descending (run_adds N T ops init) /\
  (every_sequence descending s -> run_add N T now op s = (s', Ok tt) ->
   exists d r pre post,
     _toDate T now (op_date op) = Ok d /\
     op_record N d op = Some r /\ rec_date r = d /\
     sequence_or_empty s (op_category op) (op_light op) = pre ++ post /\
     stored_sequence s' (op_category op) (op_light op)
     = Some (pre ++ r :: post) /\
     Forall (on_or_after d) pre /\ Forall (before d) post /\
     every_sequence descending s').
Proof.
  split; [apply run_adds_descending, init_descending|].
  intros Hs Hrun.
  destruct (add_success_parses N T now op s Hrun) as [d Hd].
  destruct (add_inserts N T now op s Hrun Hd) as (r & Hr & Hseq).
  set (l := sequence_or_empty s (op_category op) (op_light op)) in *.
  assert (Hl : descending l).
  { apply every_sequence_stored; [constructor|exact Hs]. }
  exists d, r, (firstn (_insertDateIndex d l) l),
         (skipn (_insertDateIndex d l) l).
  split; [exact Hd|]. split; [exact Hr|].
  split; [exact (op_record_date N d op Hr)|].
  split; [symmetry; apply firstn_skipn|].
  split; [exact Hseq|].
  split; [apply insertDateIndex_firstn|].
  split; [now apply insertDateIndex_skipn|].
  pose proof (@run_add_descending N T now op s Hs) as H.
  now rewrite Hrun in H.
Qed.

(** The noise sequence holds a record of January 2020 and one of January
    2019; a record added for January 2020 goes between the two. *)
Lemma add_operations_keep_descending_witness :
  let s' := fst (run_add lab time_en Ex.today Ex2.add_b Ex2.two_noise) in
  c_noise Ex2.two_noise = [Ex2.rec_a; Ex2.rec_z] /\
  c_noise s' = [Ex2.rec_a; Ex2.rec_b; Ex2.rec_z] /\
  exists d r pre post,
    _toDate time_en Ex.today (op_date Ex2.add_b) = Ok d /\
    op_record lab d Ex2.add_b = Some r /\ rec_date r = d /\
    sequence_or_empty Ex2.two_noise (op_category Ex2.add_b)
                      (op_light Ex2.add_b) = pre ++ post /\
    stored_sequence s' (op_category Ex2.add_b) (op_light Ex2.add_b)
    = Some (pre ++ r :: post) /\
    Forall (on_or_after d) pre /\ Forall (before d) post /\
    every_sequence descending s'.
Proof.
  cbv zeta. split; [vm_compute; reflexivity|].
  split; [vm_compute; reflexivity|].
  apply (proj2 (@add_operations_keep_descending lab time_en [] Ex.today
                  Ex2.add_b Ex2.two_noise
                  (fst (run_add lab time_en Ex.today Ex2.add_b
                                Ex2.two_noise)))).
  - apply run_adds_descending, init_descending.
  - reflexivity.
Defined.

(* ================================================================= *)
(** ** Invariants of the store under all mutating methods *)

Lemma transforms_bind {A B} (P Q R : CameraCalibration -> Prop)
      (m : M A) (k : A -> M B) :
  transforms P m Q -> (forall a, transforms Q (k a) R) ->
  (forall s, Q s -> R s) -> transforms P (bind m k) R.
Proof.
  intros Hm Hk HQR s Hs. unfold bind. specialize (Hm s Hs).
  destruct (m s) as [s' [a|e]]; simpl in *; [now apply Hk|now apply HQR].
Qed.

Lemma every_sequence_store_sequence (P : list calrec -> Prop)
      (name : category) (light_ : light) (l : list calrec)
      (s : CameraCalibration) :
  P l -> every_sequence P s ->
  every_sequence P (store_sequence name light_ l s).
Proof.
  intros Hl (Hd & Hn & Hf & Hle & Hp & Hb).
  unfold store_sequence, every_sequence.
  destruct name; simpl; repeat split; try assumption;
    now apply each_sequence_dict_set.
Qed.

Lemma descending_remove (pre post : list calrec) (r : calrec) :
  descending (pre ++ r :: post) -> descending (pre ++ post).
Proof.
  induction pre as [|x pre IH]; simpl; intros Hs.
  - now apply StronglySorted_inv in Hs.
  - apply StronglySorted_inv in Hs as [Hs Hall].
    constructor; [now apply IH|].
    apply Forall_app in Hall as [H1 H2]. apply Forall_app.
    split; [exact H1|now inversion H2].
Qed.

Lemma stored_sequence_every (P : list calrec -> Prop)
      (s : CameraCalibration) (name : category) (light_ : light)
      (l : list calrec) :
  every_sequence P s -> stored_sequence s name light_ = Some l -> P l.
Proof.
  intros (Hd & Hn & Hf & Hl & Hp & Hb). unfold stored_sequence.
  destruct name; simpl; intros H;
    try (injection H as <-; assumption);
    match goal with
    | H1 : each_sequence P ?d, H2 : dict_get _ ?d = Some _ |- _ =>
        eapply each_sequence_dict_get; [exact H1|exact H2]
    end.
Qed.

Lemma deleteCoeff_descending (T : TimeLib) (now : struct_time)
      (name : category) (date : date_arg) (light_ : light) :
  preserves (every_sequence descending) (deleteCoeff T now name date light_).
Proof.
  intros s Hs. pose proof (deleteCoeff_cases T now name date light_ s) as H.
  destruct (deleteCoeff T now name date light_ s) as [s' [[]|e]]; simpl.
  - destruct H as (pre & r & post & Hseq & ->).
    apply every_sequence_store_sequence; [|exact Hs].
    eapply descending_remove, stored_sequence_every; eassumption.
  - destruct H as [-> _]. exact Hs.
Qed.

Lemma keep_last_each_property (P : list calrec -> Prop) (d : dict) :
  (forall x, P [x]) -> each_sequence P d ->
  each_sequence P (fst (keep_last_each d)).
Proof.
  intros Hone Hd. induction Hd as [|[k l] d Hl Hd IH]; simpl; [constructor|].
  destruct (py_index l (-1)) as [r|e]; simpl.
  - destruct (keep_last_each d) as [d'' res]; simpl in *.
    constructor; [apply Hone|exact IH].
  - constructor; assumption.
Qed.

Lemma clearOldCalibrations_property (P : list calrec -> Prop) :
  (forall x, P [x]) -> preserves (every_sequence P) clearOldCalibrations.
Proof.
  intros Hone s (Hd & Hn & Hf & Hl & Hp & Hb).
  unfold clearOldCalibrations, bind.
  destruct (py_index (c_dark_current s) (-1)) as [r|e]; simpl;
    [|repeat split; assumption].
  destruct (py_index (c_noise s) (-1)) as [r'|e]; simpl;
    [|repeat split; try assumption; apply Hone].
  pose proof (keep_last_each_property Hone Hf) as Hf'.
  destruct (keep_last_each (c_flat_field s)) as [f [[]|e]]; simpl in *;
    [|repeat split; try assumption; apply Hone].
  pose proof (keep_last_each_property Hone Hl) as Hl'.
  destruct (keep_last_each (c_lens s)) as [l' res]; simpl in *.
  repeat split; try assumption; apply Hone.
Qed.

Lemma descending_t (np_T : ndarray -> ndarray) (sh : option (list nat))
      (l : list calrec) :
  descending l -> descending (_t np_T sh l).
Proof.
  intros Hs. induction Hs as [|x l Hl IH Hall]; simpl; constructor.
  - exact IH.
  - unfold _t. rewrite Forall_map. exact Hall.
Qed.

Lemma each_sequence_t_dict (P : list calrec -> Prop)
      (np_T : ndarray -> ndarray) (sh : option (list nat)) (d : dict) :
  (forall l, P l -> P (_t np_T sh l)) ->
  each_sequence P d -> each_sequence P (_t_dict np_T sh d).
Proof.
  intros HP Hd. unfold _t_dict, each_sequence. rewrite Forall_map.
  eapply Forall_impl; [|exact Hd]. intros [k l] H. simpl in *. now apply HP.
Qed.

Lemma transpose_property (P : list calrec -> Prop)
      (np_T : ndarray -> ndarray) :
  (forall sh l, P l -> P (_t np_T sh l)) ->
  preserves (every_sequence P) (transpose np_T).
Proof.
  intros HP s (Hd & Hn & Hf & Hl & Hp & Hb). unfold transpose.
  destruct (c_shape s) as [sh|]; simpl;
    repeat split; try (now apply HP);
    apply each_sequence_t_dict; try assumption; apply HP.
Qed.

Lemma run_call_descending (N : Collab) (T : TimeLib)
      (np_T : ndarray -> ndarray) (now : struct_time) (c : call) :
  preserves (every_sequence descending) (run_call N T np_T now c).
Proof.
  destruct c as [op|name date l| | |]; simpl.
  - apply run_add_descending.
  - apply deleteCoeff_descending.
  - apply clearOldCalibrations_property. intros x. repeat constructor.
  - intros s Hs. exact Hs.
  - apply transpose_property. intros sh l. apply descending_t.
Qed.

(** X9.  Whatever sequence of calls to the add-operations, [deleteCoeff],
    [clearOldCalibrations], [setCamera] and [transpose] is made on a new
    object, with whatever outcomes, every sequence of every category
    stays sorted by date, newest first. *)
Theorem calls_keep_descending (N : Collab) (T : TimeLib)
        (np_T : ndarray -> ndarray) (cs : list (struct_time * call)) :
  every_sequence descending (run_calls N T np_T cs init).
Proof.
  assert (H : forall s, every_sequence descending s ->
                        every_sequence descending (run_calls N T np_T cs s)).
  { induction cs as [|[now c] cs IH]; intros s Hs; simpl; [exact Hs|].
    apply IH. now apply run_call_descending. }
  apply H, init_descending.
Qed.

(** *** The registry of light spectra *)

Lemma light_in_In (k : light) (l : list light) :
  light_in k l = true <-> In k l.
Proof.
  induction l as [|a l IH]; simpl; [split; [discriminate|contradiction]|].
  rewrite orb_true_iff, IH, light_eqb_eq. reflexivity.
Qed.

Lemma dict_keys_set (k : light) (v : list calrec) (d : dict) :
  dict_keys (dict_set k v d)
  = if light_in k (dict_keys d) then dict_keys d else dict_keys d ++ [k].
Proof.
  induction d as [|[k' v'] d IH]; simpl; [reflexivity|].
  destruct (light_eqb k' k) eqn:E; simpl; [reflexivity|].
  rewrite IH. now destruct (light_in k (dict_keys d)).
Qed.

Lemma dict_get_in_keys (k : light) (l : list calrec) (d : dict) :
  dict_get k d = Some l -> light_in k (dict_keys d) = true.
Proof.
  induction d as [|[k' v'] d IH]; simpl; [discriminate|].
  destruct (light_eqb k' k); simpl; [reflexivity|exact IH].
Qed.

Lemma registry_same (s s' : CameraCalibration) :
  registry_fields s' = registry_fields s ->
  registry_in_order s -> registry_in_order s'.
Proof.
  unfold registry_fields, registry_in_order, keys_registered.
  intros H. injection H as -> -> -> -> ->. exact (fun x => x).
Qed.

Lemma NoDup_snoc {A} (l : list A) (k : A) :
  NoDup l -> ~ In k l -> NoDup (l ++ [k]).
Proof.
  induction l as [|a l IH]; simpl; intros Hnd Hk.
  - constructor; [intros []|constructor].
  - inversion Hnd as [|x l' Ha Hl]; subst. constructor.
    + intros Hin. apply in_app_or in Hin as [Hin | [-> | []]]; tauto.
    + apply IH; tauto.
Qed.

Lemma keys_registered_insert (s s' : CameraCalibration) (k : light)
      (d : struct_time) (r : calrec) (f : dict) :
  c_light_spectra s' = c_light_spectra s ->
  In k (c_light_spectra s) -> keys_registered s f ->
  keys_registered s' (dict_insert_dated k d r f).
Proof.
  intros Hsp Hk [Hnd Hreg]. unfold keys_registered, dict_insert_dated.
  rewrite Hsp, dict_keys_set.
  destruct (light_in k (dict_keys f)) eqn:E; [now split|].
  split.
  - apply NoDup_snoc; [exact Hnd|].
    intros Hin. apply light_in_In in Hin. congruence.
  - intros k' Hin. apply in_app_or in Hin as [Hin | [<- | []]]; auto.
Qed.

Lemma keys_registered_more (s s' : CameraCalibration) (l : light) (f : dict) :
  c_light_spectra s' = c_light_spectra s ++ [l] ->
  keys_registered s f -> keys_registered s' f.
Proof.
  intros Hsp [Hnd Hreg]. split; [exact Hnd|].
  intros k Hk. rewrite Hsp. apply in_or_app. left. now apply Hreg.
Qed.

Lemma registerLight_registers (l : light) :
  transforms registry_in_order (_registerLight l)
             (fun s => registry_in_order s /\ In l (c_light_spectra s)).
Proof.
  intros s H. unfold _registerLight, modify. simpl.
  destruct (light_in l (c_light_spectra s)) eqn:E.
  - split; [exact H|]. now apply light_in_In.
  - destruct H as (Hnd & Hf & Hl & Hp & Hb).
    split; [|simpl; apply in_or_app; right; now left].
    refine (conj _ (conj _ (conj _ (conj _ _))));
      [ apply NoDup_snoc; [exact Hnd|];
        intros Hin; apply light_in_In in Hin; congruence
      | apply keys_registered_more with (s := s) (l := l);
        [reflexivity|assumption] .. ].
Qed.

Lemma checkShape_transforms (Q : CameraCalibration -> Prop) (array : pyval) :
  (forall s x, Q s -> Q (set_shape x s)) ->
  transforms Q (_checkShape array) Q.
Proof.
  intros HQ s Hs. unfold _checkShape.
  destruct array; simpl; try exact Hs.
  destruct (c_shape s); simpl; [|now apply HQ].
  destruct (shape_eqb _ _); exact Hs.
Qed.

Lemma insert_keeps_registry (l : light) (d : struct_time) (r : calrec)
      (s : CameraCalibration) :
  registered l s ->
  registry_in_order
    (set_flat_field (dict_insert_dated l d r (c_flat_field s)) s) /\
  registry_in_order (set_lens (dict_insert_dated l d r (c_lens s)) s) /\
  registry_in_order (set_psf (dict_insert_dated l d r (c_psf s)) s) /\
  registry_in_order (set_balance (dict_insert_dated l d r (c_balance s)) s).
Proof.
  intros [(Hnd & Hf & Hl & Hp & Hb) Hin].
  assert (Hins : forall f, keys_registered s f ->
                           keys_registered s (dict_insert_dated l d r f)).
  { intros f Hk. apply keys_registered_insert with (s := s);
      [reflexivity|exact Hin|exact Hk]. }
  exact (conj (conj Hnd (conj (Hins _ Hf) (conj Hl (conj Hp Hb))))
          (conj (conj Hnd (conj Hf (conj (Hins _ Hl) (conj Hp Hb))))
          (conj (conj Hnd (conj Hf (conj Hl (conj (Hins _ Hp) Hb))))
                (conj Hnd (conj Hf (conj Hl (conj Hp (Hins _ Hb)))))))).
Qed.

Ltac after_register l :=
  apply transforms_bind with (Q := registered l);
  [ | intros ? | intros ? [? _]; assumption ].

Lemma run_add_registry (N : Collab) (T : TimeLib) (now : struct_time)
      (op : add_op) :
  preserves registry_in_order (run_add N T now op).
Proof.
  destruct op as [slope intercept date info error | c date info error
                 | arr date info error l | psf date info l
                 | b date info l | lens date info l];
    unfold run_add, addDarkCurrent, addNoise, addFlatField, addPSF,
      addDeconvolutionBalance, addLens.
  - apply preserves_bind; [apply preserves_lift|intros d].
    apply preserves_bind;
      [apply checkShape_transforms; intros s x H; exact H|intros _].
    apply preserves_bind;
      [apply checkShape_transforms; intros s x H; exact H|intros _].
    apply preserves_modify. intros s H. exact H.
  - apply preserves_bind; [apply preserves_lift|intros d].
    apply preserves_modify. intros s H. exact H.
  - after_register l; [apply registerLight_registers|].
    after_register l;
      [apply checkShape_transforms; intros s x H; exact H|].
    after_register l; [intros s H; exact H|].
    intros s H. apply (@insert_keeps_registry l _ _ s H).
  - after_register l; [apply registerLight_registers|].
    after_register l; [intros s H; exact H|].
    intros s H. apply (@insert_keeps_registry l _ _ s H).
  - after_register l; [apply registerLight_registers|].
    after_register l; [intros s H; exact H|].
    intros s H. apply (@insert_keeps_registry l _ _ s H).
  - after_register l; [apply registerLight_registers|].
    after_register l; [intros s H; exact H|].
    after_register l; [intros s H; exact H|].
    intros s H. apply (@insert_keeps_registry l _ _ s H).
Qed.

Lemma store_sequence_registry (s : CameraCalibration) (name : category)
      (light_ : light) (c l : list calrec) :
  stored_sequence s name light_ = Some c ->
  registry_fields (store_sequence name light_ l s) = registry_fields s.
Proof.
  unfold stored_sequence, store_sequence, registry_fields.
  destruct name; simpl; intros H; try reflexivity;
    rewrite dict_keys_set, (dict_get_in_keys _ _ H); reflexivity.
Qed.

Lemma deleteCoeff_registry (T : TimeLib) (now : struct_time)
      (name : category) (date : date_arg) (light_ : light) :
  preserves registry_in_order (deleteCoeff T now name date light_).
Proof.
  intros s Hs. pose proof (deleteCoeff_cases T now name date light_ s) as H.
  destruct (deleteCoeff T now name date light_ s) as [s' [[]|e]]; simpl.
  - destruct H as (pre & r & post & Hseq & ->).
    eapply registry_same; [|exact Hs].
    eapply store_sequence_registry. exact Hseq.
  - destruct H as [-> _]. exact Hs.
Qed.

Lemma keep_last_each_keys (d : dict) :
  dict_keys (fst (keep_last_each d)) = dict_keys d.
Proof.
  induction d as [|[k l] d IH]; simpl; [reflexivity|].
  destruct (py_index l (-1)) as [r|e]; simpl; [|reflexivity].
  destruct (keep_last_each d) as [d'' res]; simpl in *. now rewrite IH.
Qed.

Lemma clearOldCalibrations_registry :
  preserves registry_in_order clearOldCalibrations.
Proof.
  intros s Hs. eapply registry_same; [|exact Hs].
  unfold clearOldCalibrations, bind, registry_fields.
  destruct (py_index (c_dark_current s) (-1)) as [r|e]; simpl;
    [|reflexivity].
  destruct (py_index (c_noise s) (-1)) as [r'|e]; simpl; [|reflexivity].
  pose proof (keep_last_each_keys (c_flat_field s)) as Hf.
  destruct (keep_last_each (c_flat_field s)) as [f [[]|e]]; simpl in *;
    [|now rewrite Hf].
  pose proof (keep_last_each_keys (c_lens s)) as Hl.
  destruct (keep_last_each (c_lens s)) as [l' res]; simpl in *.
  now rewrite Hf, Hl.
Qed.

Lemma t_dict_keys (np_T : ndarray -> ndarray) (sh : option (list nat))
      (d : dict) :
  dict_keys (_t_dict np_T sh d) = dict_keys d.
Proof.
  unfold dict_keys, _t_dict. rewrite map_map. reflexivity.
Qed.

Lemma transpose_registry (np_T : ndarray -> ndarray) :
  preserves registry_in_order (transpose np_T).
Proof.
  intros s Hs. eapply registry_same; [|exact Hs].
  unfold transpose, registry_fields.
  destruct (c_shape s); simpl; now rewrite !t_dict_keys.
Qed.

Lemma run_call_registry (N : Collab) (T : TimeLib)
      (np_T : ndarray -> ndarray) (now : struct_time) (c : call) :
  preserves registry_in_order (run_call N T np_T now c).
Proof.
  destruct c as [op|name date l| | |]; simpl.
  - apply run_add_registry.
  - apply deleteCoeff_registry.
  - apply clearOldCalibrations_registry.
  - intros s Hs. exact Hs.
  - apply transpose_registry.
Qed.

(** X10.  Whatever sequence of calls to the add-operations,
    [deleteCoeff], [clearOldCalibrations], [setCamera] and [transpose]
    is made on a new object, with whatever outcomes: no light spectrum
    is registered twice, no spectrum-keyed category has an entry for a
    spectrum twice, and every spectrum a category has an entry for is
    registered. *)
Theorem calls_keep_registry (N : Collab) (T : TimeLib)
        (np_T : ndarray -> ndarray) (cs : list (struct_time * call)) :
  registry_in_order (run_calls N T np_T cs init).
Proof.
  assert (H : forall s, registry_in_order s ->
                        registry_in_order (run_calls N T np_T cs s)).
  { induction cs as [|[now c] cs IH]; intros s Hs; simpl; [exact Hs|].
    apply IH. now apply run_call_registry. }
  apply H. unfold registry_in_order, keys_registered. simpl.
  repeat split; try constructor; intros k [].
Qed.

(* ================================================================= *)
(** ** Pruning, again *)

Lemma keep_last_each_ok_singletons (d d' : dict) :
  keep_last_each d = (d', Ok tt) ->
  each_sequence (fun l => exists r, l = [r]) d'.
Proof.
  revert d'. induction d as [|[k l] d IH]; simpl; intros d' H.
  - injection H as <-. constructor.
  - destruct (py_index l (-1)) as [r|e]; [|discriminate].
    destruct (keep_last_each d) as [d'' res]. injection H as <- ->.
    constructor; [now exists r|now apply IH].
Qed.

Lemma keep_last_each_singletons (d : dict) :
  each_sequence (fun l => exists r, l = [r]) d ->
  keep_last_each d = (d, Ok tt).
Proof.
  intros H. induction H as [|[k l] d [r Hr] _ IH]; [reflexivity|].
  simpl in Hr. subst l. cbn [keep_last_each].
  assert (E : py_index [r] (-1) = Ok r) by apply (py_index_last [] r).
  rewrite E, IH. reflexivity.
Qed.

(** X11.  [clearOldCalibrations] is idempotent: after a call that
    succeeded, a second call succeeds too and leaves the store as the
    first call left it. *)
Theorem clearOldCalibrations_idempotent (s s' : CameraCalibration) :
  clearOldCalibrations s = (s', Ok tt) ->
  clearOldCalibrations s' = (s', Ok tt).
Proof.
  unfold clearOldCalibrations, bind.
  destruct (py_index (c_dark_current s) (-1)) as [r|e]; cbv beta iota;
    [|discriminate].
  cbn [c_noise set_dark_current].
  destruct (py_index (c_noise s) (-1)) as [r'|e]; cbv beta iota;
    [|discriminate].
  cbn [c_flat_field set_dark_current set_noise].
  destruct (keep_last_each (c_flat_field s)) as [f [[]|e]] eqn:Ef;
    cbv beta iota; [|discriminate].
  cbn [c_lens set_dark_current set_noise set_flat_field].
  destruct (keep_last_each (c_lens s)) as [l res] eqn:El.
  intros H. injection H as <- ->.
  assert (E : py_index [r] (-1) = Ok r) by apply (py_index_last [] r).
  assert (E' : py_index [r'] (-1) = Ok r') by apply (py_index_last [] r').
  cbn [c_dark_current c_noise c_flat_field c_lens
       set_dark_current set_noise set_flat_field set_lens].
  rewrite E. cbv beta iota.
  cbn [c_dark_current c_noise c_flat_field c_lens
       set_dark_current set_noise set_flat_field set_lens].
  rewrite E'. cbv beta iota.
  cbn [c_dark_current c_noise c_flat_field c_lens
       set_dark_current set_noise set_flat_field set_lens].
  rewrite (keep_last_each_singletons (keep_last_each_ok_singletons _ Ef)).
  cbv beta iota.
  cbn [c_dark_current c_noise c_flat_field c_lens
       set_dark_current set_noise set_flat_field set_lens].
  rewrite (keep_last_each_singletons (keep_last_each_ok_singletons _ El)).
  reflexivity.
Qed.

Lemma clearOldCalibrations_idempotent_witness :
  clearOldCalibrations (fst (clearOldCalibrations Ex.several))
  = (fst (clearOldCalibrations Ex.several), Ok tt).
Proof.
  apply (@clearOldCalibrations_idempotent Ex.several).
  vm_compute. reflexivity.
Defined.

Lemma py_index_last_nonempty {A} (l : list A) :
  l <> [] -> exists x, py_index l (-1) = Ok x.
Proof.
  intros H. destruct (exists_last H) as (pre & x & ->).
  exists x. apply py_index_last.
Qed.

Lemma keep_last_each_result (d : dict) :
  (each_sequence (fun l => l <> []) d /\ snd (keep_last_each d) = Ok tt) \/
  (~ each_sequence (fun l => l <> []) d /\
   snd (keep_last_each d) = Raise IndexError).
Proof.
  induction d as [|[k l] d IH]; simpl.
  - left. split; [constructor|reflexivity].
  - destruct l as [|x l].
    + right. rewrite py_index_nil. split; [|reflexivity].
      intros H. apply Forall_inv in H. now apply H.
    + destruct (@py_index_last_nonempty _ (x :: l)) as [y ->];
        [discriminate|].
      destruct (keep_last_each d) as [d'' res]; simpl in *.
      destruct IH as [[H1 H2] | [H1 H2]].
      * left. split; [|exact H2]. constructor; [discriminate|exact H1].
      * right. split; [|exact H2]. intros H. apply H1.
        now apply Forall_inv_tail in H.
Qed.

(** X12.  [clearOldCalibrations] succeeds exactly when the dark-current
    sequence, the noise sequence and every flat-field and lens sequence
    hold a record; otherwise it raises [IndexError] -- so it does on a
    new object. *)
Theorem clearOldCalibrations_succeeds_iff (s : CameraCalibration) :
  (snd (clearOldCalibrations s) = Ok tt <->
   c_dark_current s <> [] /\ c_noise s <> [] /\
   each_sequence (fun l => l <> []) (c_flat_field s) /\
   each_sequence (fun l => l <> []) (c_lens s)) /\
  (forall e, snd (clearOldCalibrations s) = Raise e -> e = IndexError).
Proof.
  unfold clearOldCalibrations, bind.
  destruct (c_dark_current s) as [|x dc] eqn:Ed.
  { rewrite py_index_nil. simpl. split.
    - split; [discriminate|]. intros [H _]. now destruct H.
    - intros e H. now injection H as <-. }
  destruct (@py_index_last_nonempty _ (x :: dc)) as [y ->]; [discriminate|].
  simpl. destruct (c_noise s) as [|x' ns] eqn:En.
  { rewrite py_index_nil. simpl. split.
    - split; [discriminate|]. intros (_ & H & _). now destruct H.
    - intros e H. now injection H as <-. }
  destruct (@py_index_last_nonempty _ (x' :: ns)) as [y' ->]; [discriminate|].
  simpl.
  pose proof (keep_last_each_result (c_flat_field s)) as Hf.
  destruct (keep_last_each (c_flat_field s)) as [f rf]; simpl in *.
  destruct Hf as [[Hf ->] | [Hf ->]]; simpl.
  - pose proof (keep_last_each_result (c_lens s)) as Hl.
    destruct (keep_last_each (c_lens s)) as [l rl]; simpl in *.
    destruct Hl as [[Hl ->] | [Hl ->]]; simpl.
    + split; [|discriminate].
      split; [intros _|reflexivity].
      repeat split; try discriminate; assumption.
    + split.
      * split; [discriminate|]. intros (_ & _ & _ & H). now destruct Hl.
      * intros e H. now injection H as <-.
  - split.
    + split; [discriminate|]. intros (_ & _ & H & _). now destruct Hf.
    + intros e H. now injection H as <-.
Qed.

Lemma clearOldCalibrations_succeeds_iff_witness :
  snd (clearOldCalibrations Ex.several) = Ok tt /\
  snd (clearOldCalibrations init) = Raise IndexError.
Proof.
  split.
  - apply (proj2 (proj1 (clearOldCalibrations_succeeds_iff Ex.several))).
    vm_compute. repeat split; try discriminate; constructor.
  - destruct (snd (clearOldCalibrations init)) as [[]|e] eqn:E.
    + apply (proj1 (proj1 (clearOldCalibrations_succeeds_iff init))) in E.
      destruct E as [E _]. now contradiction E.
    + f_equal.
      exact (proj2 (clearOldCalibrations_succeeds_iff init) e E).
Defined.


(** X13.  [clearOldCalibrations] is not atomic: when the dark-current
    sequence holds records and the noise sequence is empty, the call
    raises [IndexError] after it has pruned the dark-current sequence to
    its last record; nothing else has changed. *)
Theorem clearOldCalibrations_partial (s : CameraCalibration)
        (pre : list calrec) (r : calrec) :
  c_dark_current s = pre ++ [r] -> c_noise s = [] ->
  clearOldCalibrations s = (set_dark_current [r] s, Raise IndexError).
Proof.
  intros Hd Hn. unfold clearOldCalibrations, bind.
  rewrite Hd, py_index_last. simpl. rewrite Hn, py_index_nil. reflexivity.
Qed.

Lemma clearOldCalibrations_partial_witness :
  clearOldCalibrations Ex.two_dark
  = (set_dark_current [Ex.rec_jan] Ex.two_dark, Raise IndexError).
Proof.
  apply (@clearOldCalibrations_partial Ex.two_dark [Ex.rec_mar] Ex.rec_jan);
    reflexivity.
Defined.

(* ================================================================= *)
(** ** What the pipeline leaves in the store *)

Lemma acquire_state (N : Collab) (T : TimeLib) (clock : clock_t)
      (images : images_arg) (date : list (string * date_arg))
      (s : CameraCalibration) :
  fst (acquire N T clock images date s) = s \/
  (noise_level_function s = None /\
   exists f, fst (acquire N T clock images date s)
             = set_noise_level_function (Some f) s).
Proof.
  unfold acquire.
  destruct (is_image_stack images); [|now left].
  destruct (1 <? images_len images)%nat; [|now left].
  unfold bind.
  destruct (noise_level_function s) as [f0|] eqn:Hn.
  - cbv beta iota. rewrite Hn.
    destruct (SingleTimeEffectDetection N images (Some f0)) as [[img f]|e];
      now left.
  - destruct (c_noise s) as [|x n]; cbv beta iota.
    + rewrite Hn.
      destruct (SingleTimeEffectDetection N images None) as [[img f]|e];
        [|now left].
      right. split; [reflexivity|]. now exists f.
    + destruct (do d <- date_item date "noise";
                _getFromDate T (clock Noise) (x :: n) d) as [r|e];
        cbv beta iota; [|now left].
      simpl noise_level_function.
      destruct (SingleTimeEffectDetection N images _) as [[img f]|e];
        right; (split; [reflexivity|]); eexists; reflexivity.
Qed.

Lemma checkShape_state (array : pyval) (s : CameraCalibration) :
  fst (_checkShape array s) = s \/
  (c_shape s = None /\
   exists x, fst (_checkShape array s) = set_shape (Some x) s).
Proof.
  unfold _checkShape. destruct array; try now left.
  destruct (c_shape s) as [sh|].
  - destruct (shape_eqb _ _); now left.
  - right. split; [reflexivity|]. eexists. reflexivity.
Qed.

Lemma correct_state (N : Collab) (T : TimeLib) (clock : clock_t)
      (images : images_arg) (bgImages : option images_arg)
      (exposure_time : pyval) (light_spectrum : light) (threshold : Q)
      (keep_size : bool) (date : correct_date) (deblur denoise : bool)
      (s : CameraCalibration) :
  exists s1 img,
    (s1 = s \/
     (noise_level_function s = None /\
      exists f, s1 = set_noise_level_function (Some f) s)) /\
    (fst (correct N T clock images bgImages exposure_time light_spectrum
                  threshold keep_size date deblur denoise s) = s1 \/
     fst (correct N T clock images bgImages exposure_time light_spectrum
                  threshold keep_size date deblur denoise s)
     = fst (_checkShape (VArr img) s1)).
Proof.
  pose proof (acquire_state N T clock images (date_dict date) s) as Ha.
  unfold correct, bind.
  destruct (acquire N T clock images (date_dict date) s) as [s1 [img|e]];
    simpl fst in Ha; cbv beta iota.
  - exists s1, img. split; [exact Ha|]. right.
    destruct (_checkShape (VArr img) s1) as [s2 [[]|e2]]; cbv beta iota zeta;
      [|reflexivity].
    destruct denoise; reflexivity.
  - exists s1, (mk_array [] []). split; [exact Ha|]. now left.
Qed.

(** X14.  The pipeline never writes a calibration entry: whatever its
    arguments and however it ends, [correct] leaves every sequence of
    every category, the list of spectra, the camera name and the bit
    depth as they were, and a reference shape that was set stays as it
    was. *)
Theorem correct_writes_no_record (N : Collab) (T : TimeLib) (clock : clock_t)
        (images : images_arg) (bgImages : option images_arg)
        (exposure_time : pyval) (light_spectrum : light) (threshold : Q)
        (keep_size : bool) (date : correct_date) (deblur denoise : bool)
        (s : CameraCalibration) :
  let s' := fst (correct N T clock images bgImages exposure_time
                         light_spectrum threshold keep_size date deblur
                         denoise s) in
  same_tables s s' /\ c_light_spectra s' = c_light_spectra s /\
  c_name s' = c_name s /\ c_depth s' = c_depth s /\
  (forall sh, c_shape s = Some sh -> c_shape s' = Some sh).
Proof.
  intros s'. subst s'.
  destruct (correct_state N T clock images bgImages exposure_time
              light_spectrum threshold keep_size date deblur denoise s)
    as (s1 & img & H1 & H2).
  assert (Hs1 : same_tables s s1 /\ c_light_spectra s1 = c_light_spectra s /\
                c_name s1 = c_name s /\ c_depth s1 = c_depth s /\
                c_shape s1 = c_shape s).
  { destruct H1 as [-> | (_ & f & ->)]; repeat split. }
  destruct Hs1 as (Ht & Hl & Hn & Hd & Hsh).
  destruct H2 as [-> | ->].
  - repeat split; try apply Ht; try assumption. intros sh H. congruence.
  - destruct (checkShape_state (VArr img) s1) as [-> | (Hnone & x & ->)].
    + repeat split; try apply Ht; try assumption. intros sh H. congruence.
    + simpl. repeat split; try apply Ht; try assumption.
      intros sh H. congruence.
Qed.

Lemma correct_writes_no_record_witness :
  c_shape Ex.after_first_image = Some [1; 2]%nat /\
  c_shape (fst (correct lab time_en Ex.clock (ImgOne (SrcArr Ex.image_2_4))
                        None VNone None 0 true (DateOne None) false false
                        Ex.after_first_image))
  = Some [1; 2]%nat.
Proof.
  split; [reflexivity|].
  pose proof (correct_writes_no_record lab time_en Ex.clock
                (ImgOne (SrcArr Ex.image_2_4)) None VNone None 0 true
                (DateOne None) false false Ex.after_first_image) as H.
  cbv zeta in H. destruct H as (_ & _ & _ & _ & H).
  apply H. reflexivity.
Defined.


(** X15.  A noise-level function that is cached on the object is never
    replaced: whatever its arguments and however it ends, [correct]
    leaves it in place. *)
Theorem correct_keeps_cached_nlf (N : Collab) (T : TimeLib) (clock : clock_t)
        (images : images_arg) (bgImages : option images_arg)
        (exposure_time : pyval) (light_spectrum : light) (threshold : Q)
        (keep_size : bool) (date : correct_date) (deblur denoise : bool)
        (s : CameraCalibration) (f : nlf) :
  noise_level_function s = Some f ->
  noise_level_function
    (fst (correct N T clock images bgImages exposure_time light_spectrum
                  threshold keep_size date deblur denoise s)) = Some f.
Proof.
  intros Hf.
  destruct (correct_state N T clock images bgImages exposure_time
              light_spectrum threshold keep_size date deblur denoise s)
    as (s1 & img & H1 & H2).
  assert (Hs1 : s1 = s) by (destruct H1 as [-> | (H & _)]; congruence).
  subst s1. destruct H2 as [-> | ->]; [exact Hf|].
  destruct (checkShape_state (VArr img) s) as [-> | (_ & x & ->)];
    exact Hf.
Qed.

Lemma correct_keeps_cached_nlf_witness :
  noise_level_function
    (fst (correct lab time_en Ex.clock
                  (ImgSeq [SrcArr Ex.image_2_4; SrcArr Ex.image_2_4]) None
                  VNone None 0 true (DateOne None) false false
                  Ex2.with_cached_nlf))
  = Some (NlfEstimated (VObj "nlf")).
Proof.
  apply correct_keeps_cached_nlf. reflexivity.
Defined.

(* ================================================================= *)
(** ** The reference shape *)

Lemma shape_eqb_eq (a b : list nat) : shape_eqb a b = true <-> a = b.
Proof.
  unfold shape_eqb. destruct (list_eq_dec Nat.eq_dec a b); split;
    congruence.
Qed.

(** X16.  [addFlatField] with an array succeeds exactly when the date
    parses and the array passes the shape check (the reference shape is
    unset, or agrees with the array in its first two dimensions); and
    after a success the reference shape is set and agrees with the
    array in its first two dimensions. *)
Theorem addFlatField_succeeds_iff (T : TimeLib) (now : struct_time)
        (s : CameraCalibration) (a : ndarray) (date : date_arg)
        (info : string) (error : pyval) (light_spectrum : light) :
  let out := addFlatField T now (VArr a) date info error light_spectrum s in
  (snd out = Ok tt <->
   shape_admits s a /\ exists d, _toDate T now date = Ok d) /\
  (snd out = Ok tt ->
   exists sh, c_shape (fst out) = Some sh /\
              firstn 2 sh = firstn 2 (arr_shape a)).
Proof.
  intros out. subst out.
  unfold addFlatField, bind, lift, _registerLight, modify. cbv beta iota.
  set (s1 := if light_in light_spectrum (c_light_spectra s) then s
             else set_light_spectra (c_light_spectra s ++ [light_spectrum]) s).
  assert (Hsh : c_shape s1 = c_shape s)
    by (subst s1; destruct (light_in _ _); reflexivity).
  unfold shape_admits, _checkShape. rewrite Hsh.
  destruct (c_shape s) as [sh|] eqn:Es.
  - destruct (shape_eqb (firstn 2 sh) (firstn 2 (arr_shape a))) eqn:E.
    + apply shape_eqb_eq in E. cbv beta iota.
      destruct (_toDate T now date) as [d|e]; cbv beta iota; simpl.
      * split; [split; [intros _; split; [exact E|now exists d]|reflexivity]|].
        intros _. exists sh. rewrite Hsh. now split.
      * split; [split; [discriminate|intros [_ [d Hd]]; discriminate]|].
        discriminate.
    + cbv beta iota. simpl. split; [split; [discriminate|]|discriminate].
      intros [H _]. exfalso.
      change (firstn 2 sh = firstn 2 (arr_shape a)) in H.
      apply (proj2 (shape_eqb_eq _ _)) in H. congruence.
  - cbv beta iota.
    destruct (_toDate T now date) as [d|e]; cbv beta iota; simpl.
    + split; [split; [intros _; split; [exact I|now exists d]|reflexivity]|].
      intros _. exists (arr_shape a). now split.
    + split; [split; [discriminate|intros [_ [d Hd]]; discriminate]|].
      discriminate.
Qed.

Lemma addFlatField_succeeds_iff_witness :
  exists sh,
    c_shape (fst (addFlatField time_en Ex.today (VArr Ex2.a_2x2)
                               (DStr Ex.jan20) "" VNone None init))
    = Some sh /\
    firstn 2 sh = firstn 2 (arr_shape Ex2.a_2x2).
Proof.
  apply (@addFlatField_succeeds_iff time_en Ex.today init Ex2.a_2x2
           (DStr Ex.jan20) "" VNone None).
  reflexivity.
Defined.

(** X17.  [addDarkCurrent] is not atomic either: on a store without
    reference shape, with a slope array and an intercept array that
    differ in their first two dimensions, and a date that parses, the
    call raises and inserts nothing, but it has set the reference shape
    to the shape of the slope. *)
Theorem addDarkCurrent_sets_shape_before_failing (T : TimeLib)
        (now : struct_time) (s : CameraCalibration) (slope intercept : ndarray)
        (date : date_arg) (info : string) (error : pyval) (d : struct_time) :
  c_shape s = None -> _toDate T now date = Ok d ->
  firstn 2 (arr_shape slope) <> firstn 2 (arr_shape intercept) ->
  addDarkCurrent T now (VArr slope) (VArr intercept) date info error s
  = (set_shape (Some (arr_shape slope)) s,
     Raise (Exception "array shapes are different")).
Proof.
  intros Hs Hd Hne. unfold addDarkCurrent, bind, lift. rewrite Hd.
  cbv beta iota. unfold _checkShape at 1. rewrite Hs. cbv beta iota.
  rewrite (@checkShape_mismatch intercept
             (set_shape (Some (arr_shape slope)) s) (arr_shape slope)
             eq_refl Hne).
  reflexivity.
Qed.

Lemma addDarkCurrent_sets_shape_before_failing_witness :
  addDarkCurrent time_en Ex.today (VArr Ex2.a_2x2) (VArr Ex2.a_3x3)
                 (DStr Ex.jan20) "" VNone init
  = (set_shape (Some (arr_shape Ex2.a_2x2)) init,
     Raise (Exception "array shapes are different")).
Proof.
  apply (@addDarkCurrent_sets_shape_before_failing time_en Ex.today init
           Ex2.a_2x2 Ex2.a_3x3 (DStr Ex.jan20) "" VNone Ex.t_jan20).
  - reflexivity.
  - vm_compute. reflexivity.
  - vm_compute. discriminate.
Defined.

(* ================================================================= *)
(** ** File names *)

Lemma list_ascii_of_string_app (a b : string) :
  list_ascii_of_string (a ++ b)
  = list_ascii_of_string a ++ list_ascii_of_string b.
Proof. induction a as [|c a IH]; simpl; [reflexivity|now rewrite IH]. Qed.

Lemma starts_with_app (p l : list ascii) : starts_with p (p ++ l) = true.
Proof.
  induction p as [|c p IH]; simpl; [reflexivity|].
  now rewrite Ascii.eqb_refl, IH.
Qed.

Lemma endswith_app (path suffix : string) :
  endswith (path ++ suffix) suffix = true.
Proof.
  unfold endswith. rewrite list_ascii_of_string_app, rev_app_distr.
  apply starts_with_app.
Qed.

(** X18.  [_correctPath] returns a name that ends in [.cal], returns a
    name that already ends in [.cal] unchanged, and is idempotent. *)
Theorem correctPath_idempotent (path : string) :
  endswith (_correctPath path) ftype = true /\
  (endswith path ftype = true -> _correctPath path = path) /\
  _correctPath (_correctPath path) = _correctPath path.
Proof.
  assert (H1 : endswith (_correctPath path) ftype = true).
  { unfold _correctPath. destruct (endswith path ftype) eqn:E; simpl.
    - exact E.
    - apply endswith_app. }
  split; [exact H1|]. split.
  - intros E. unfold _correctPath. now rewrite E.
  - unfold _correctPath at 1. now rewrite H1.
Qed.

Lemma correctPath_idempotent_witness :
  endswith "camera.cal" ftype = true /\
  _correctPath "camera.cal" = "camera.cal"%string.
Proof.
  split; [reflexivity|].
  apply (proj1 (proj2 (correctPath_idempotent "camera.cal"))).
  reflexivity.
Defined.


(* ================================================================= *)
(** ** Transposing the store *)

Lemma t_value_none (np_T : ndarray -> ndarray) (v : pyval) :
  tuple_free v = true -> _t_value np_T None v = v.
Proof.
  induction v as [| | |a IHa b IHb|a IHa b IHb|]; simpl; try reflexivity;
    [discriminate|].
  intros H. apply andb_true_iff in H as [Ha Hb]. now rewrite IHa, IHb.
Qed.

Lemma t_values_none (np_T : ndarray -> ndarray) (l : list pyval) :
  Forall (fun v => tuple_free v = true) l -> map (_t_value np_T None) l = l.
Proof.
  intros H. induction H as [|v l Hv _ IH]; simpl; [reflexivity|].
  now rewrite IH, (@t_value_none np_T v Hv).
Qed.

Lemma t_record_none (np_T : ndarray -> ndarray) (r : calrec) :
  rec_kind r = KList ->
  Forall (fun v => tuple_free v = true) (record_values r) ->
  _t_record np_T None r = r.
Proof.
  destruct r as [k d i v rest]. unfold record_values.
  cbn [rec_kind rec_data rec_rest]. intros -> H.
  apply Forall_cons_iff in H as [Hv Hrest].
  unfold _t_record. cbn [rec_kind rec_date rec_info rec_data rec_rest].
  now rewrite (@t_value_none np_T v Hv), (@t_values_none np_T rest Hrest).
Qed.

Lemma t_none (np_T : ndarray -> ndarray) (l : list calrec) :
  all_lists l ->
  Forall (fun v => tuple_free v = true) (flat_map record_values l) ->
  _t np_T None l = l.
Proof.
  intros H. unfold _t.
  induction H as [|r l Hr _ IH]; cbn [map flat_map]; intros Hv;
    [reflexivity|].
  apply Forall_app in Hv as [Hv Hl].
  now rewrite (IH Hl), (@t_record_none np_T r Hr Hv).
Qed.

Lemma t_dict_none (np_T : ndarray -> ndarray) (d : dict) :
  each_sequence all_lists d ->
  each_sequence (fun l => Forall (fun v => tuple_free v = true)
                                 (flat_map record_values l)) d ->
  _t_dict np_T None d = d.
Proof.
  intros H. unfold _t_dict.
  induction H as [|[k l] d Hl _ IH]; cbn [map fst snd]; intros Hv;
    [reflexivity|].
  inversion Hv as [|x y Hx Hy]; subst. cbn [snd] in *.
  now rewrite (IH Hy), (@t_none np_T l Hl Hx).
Qed.

(** X19.  [transpose] on a store without reference shape -- a new object,
    or one that holds no arrays -- raises [TypeError]; and it leaves the
    store as it was if every record is a list and no payload holds a
    tuple (a tuple it would have replaced by a list before raising, see
    X27). *)
Theorem transpose_without_shape (np_T : ndarray -> ndarray)
        (s : CameraCalibration) :
  c_shape s = None -> every_sequence all_lists s ->
  every_value (fun v => tuple_free v = true) s ->
  transpose np_T s = (s, Raise TypeError).
Proof.
  intros Hs (Hd & Hn & Hf & Hl & Hp & Hb) (Vd & Vn & Vf & Vl & Vp & Vb).
  unfold transpose. rewrite Hs.
  rewrite (@t_none np_T _ Hd Vd), (@t_none np_T _ Hn Vn),
    (@t_dict_none np_T _ Hf Vf), (@t_dict_none np_T _ Hl Vl),
    (@t_dict_none np_T _ Hp Vp), (@t_dict_none np_T _ Hb Vb).
  destruct s; simpl in *. now subst.
Qed.

Lemma transpose_without_shape_witness :
  transpose ndarray_T Ex.two_dark = (Ex.two_dark, Raise TypeError).
Proof.
  apply transpose_without_shape.
  - reflexivity.
  - vm_compute. repeat split; repeat constructor.
  - vm_compute. repeat split; repeat constructor.
Defined.

Lemma t_value_no_tuple (np_T : ndarray -> ndarray) (sh : option (list nat))
      (v x y : pyval) :
  _t_value np_T sh v <> VTuple2 x y.
Proof.
  destruct v as [| |a|a b|a b|]; simpl; try discriminate.
  destruct sh as [sh|]; [|discriminate].
  destruct (shape_eqb (arr_shape a) sh); discriminate.
Qed.

(** X27.  A store that holds a dark current given as a pair, which
    [addDarkCurrent] stores as a tuple, is never what [transpose]
    leaves behind, after one call or after several: [transpose] replaces
    the tuple by a list.  It does so also in the call that raises
    [TypeError] for want of a reference shape, so that call has changed
    the store. *)
Theorem transpose_replaces_tuples (np_T : ndarray -> ndarray)
        (s : CameraCalibration) (r : calrec) (a b : pyval) :
  In r (c_dark_current s) -> rec_data r = VTuple2 a b ->
  (forall s0, fst (transpose np_T s0) <> s) /\
  (c_shape s = None ->
   snd (transpose np_T s) = Raise TypeError /\ fst (transpose np_T s) <> s).
Proof.
  intros Hin Hr.
  assert (H : forall s0, fst (transpose np_T s0) <> s).
  { intros s0 Heq.
    assert (Hd : c_dark_current s = _t np_T (c_shape s0) (c_dark_current s0)).
    { rewrite <- Heq. unfold transpose.
      destruct (c_shape s0); reflexivity. }
    rewrite Hd in Hin. unfold _t in Hin.
    apply in_map_iff in Hin as (r0 & <- & _).
    unfold _t_record in Hr. cbn [rec_data] in Hr.
    exact (t_value_no_tuple _ _ _ Hr). }
  split; [exact H|].
  intros Hs. split; [|apply H].
  unfold transpose. now rewrite Hs.
Qed.

Lemma transpose_replaces_tuples_witness :
  c_shape Ex2.scalar_pair = None /\
  snd (transpose ndarray_T Ex2.scalar_pair) = Raise TypeError /\
  fst (transpose ndarray_T Ex2.scalar_pair) <> Ex2.scalar_pair.
Proof.
  split; [reflexivity|].
  apply (proj2 (@transpose_replaces_tuples ndarray_T Ex2.scalar_pair
                  (mk_rec KList Ex.t_jan20 "" (VTuple2 (VNum 1) (VNum 10))
                          [VNone])
                  (VNum 1) (VNum 10) (or_introl eq_refl) eq_refl)).
  reflexivity.
Defined.

Lemma dict_get_t_dict (np_T : ndarray -> ndarray) (sh : option (list nat))
      (k : light) (d : dict) :
  dict_get k (_t_dict np_T sh d)
  = match dict_get k d with
    | Some l => Some (_t np_T sh l)
    | None => None
    end.
Proof.
  induction d as [|[k' l] d IH]; simpl; [reflexivity|].
  destruct (light_eqb k' k); [reflexivity|exact IH].
Qed.

Lemma t_dates_infos (np_T : ndarray -> ndarray) (sh : option (list nat))
      (l : list calrec) :
  map rec_date (_t np_T sh l) = map rec_date l /\
  map rec_info (_t np_T sh l) = map rec_info l.
Proof. unfold _t. rewrite !map_map. split; reflexivity. Qed.

(** X20.  On a store with a reference shape, [transpose] succeeds, the
    reference shape is read backwards afterwards, and every sequence
    keeps its records in place: for every category and spectrum the
    dates and the infos of the sequence are as before, in the same
    order. *)
Theorem transpose_keeps_dates (np_T : ndarray -> ndarray)
        (s : CameraCalibration) (sh : list nat) :
  c_shape s = Some sh ->
  snd (transpose np_T s) = Ok tt /\
  c_shape (fst (transpose np_T s)) = Some (rev sh) /\
  c_light_spectra (fst (transpose np_T s)) = c_light_spectra s /\
  forall name light_ l,
    stored_sequence s name light_ = Some l ->
    exists l',
      stored_sequence (fst (transpose np_T s)) name light_ = Some l' /\
      map rec_date l' = map rec_date l /\ map rec_info l' = map rec_info l.
Proof.
  intros Hs. unfold transpose. rewrite Hs. simpl.
  repeat split.
  intros name light_ l. unfold stored_sequence.
  destruct name; simpl; rewrite ?dict_get_t_dict; intros H;
    try (injection H as <-; eexists; split; [reflexivity|];
         apply t_dates_infos);
    rewrite H; eexists; (split; [reflexivity|]); apply t_dates_infos.
Qed.

Lemma transpose_keeps_dates_witness :
  snd (transpose ndarray_T Ex2.flat_and_psf) = Ok tt /\
  c_shape (fst (transpose ndarray_T Ex2.flat_and_psf))
  = Some (rev [2; 3]%nat) /\
  c_light_spectra (fst (transpose ndarray_T Ex2.flat_and_psf))
  = c_light_spectra Ex2.flat_and_psf /\
  forall name light_ l,
    stored_sequence Ex2.flat_and_psf name light_ = Some l ->
    exists l',
      stored_sequence (fst (transpose ndarray_T Ex2.flat_and_psf)) name light_
      = Some l' /\
      map rec_date l' = map rec_date l /\ map rec_info l' = map rec_info l.
Proof.
  apply (@transpose_keeps_dates ndarray_T Ex2.flat_and_psf [2; 3]%nat).
  reflexivity.
Defined.

Lemma t_value_twice (np_T : ndarray -> ndarray) (sh : list nat) (v : pyval) :
  tuple_free v = true ->
  Forall (flips_back np_T sh) (value_arrays v) ->
  _t_value np_T (Some (rev sh)) (_t_value np_T (Some sh) v) = v.
Proof.
  induction v as [| |a|a IHa b IHb|a IHa b IHb|]; simpl; intros Hf H;
    try reflexivity; [|discriminate|].
  - apply Forall_inv in H. destruct H as [H1 H2].
    destruct (shape_eqb (arr_shape a) sh) eqn:E; simpl.
    + apply shape_eqb_eq in E. destruct (H1 E) as [Hback Hshape].
      rewrite Hshape. rewrite (proj2 (shape_eqb_eq _ _) eq_refl).
      now rewrite Hback.
    + destruct (shape_eqb (arr_shape a) (rev sh)) eqn:E'; [|reflexivity].
      apply shape_eqb_eq in E'. apply H2 in E'.
      apply (proj2 (shape_eqb_eq _ _)) in E'. congruence.
  - apply andb_true_iff in Hf as [Hfa Hfb].
    apply Forall_app in H as [Ha Hb]. now rewrite IHa, IHb.
Qed.

Lemma t_values_twice (np_T : ndarray -> ndarray) (sh : list nat)
      (l : list pyval) :
  Forall (fun v => tuple_free v = true) l ->
  Forall (flips_back np_T sh) (flat_map value_arrays l) ->
  map (_t_value np_T (Some (rev sh))) (map (_t_value np_T (Some sh)) l) = l.
Proof.
  intros Hf. induction Hf as [|v l Hv _ IH]; cbn [map flat_map]; intros H;
    [reflexivity|].
  apply Forall_app in H as [Hx Hl].
  now rewrite (@t_value_twice np_T sh v Hv Hx), (IH Hl).
Qed.

Lemma t_record_twice (np_T : ndarray -> ndarray) (sh : list nat)
      (r : calrec) :
  rec_kind r = KList ->
  Forall (fun v => tuple_free v = true) (record_values r) ->
  Forall (flips_back np_T sh) (record_arrays r) ->
  _t_record np_T (Some (rev sh)) (_t_record np_T (Some sh) r) = r.
Proof.
  destruct r as [k d i v rest]. unfold record_arrays, record_values.
  cbn [rec_kind rec_data rec_rest].
  intros -> Hf Hrec. apply Forall_cons_iff in Hf as [Hfv Hfrest].
  apply Forall_app in Hrec as [Hv Hrest].
  unfold _t_record. cbn [rec_kind rec_date rec_info rec_data rec_rest].
  now rewrite (@t_value_twice np_T sh v Hfv Hv), (@t_values_twice np_T sh rest Hfrest Hrest).
Qed.

Lemma t_twice (np_T : ndarray -> ndarray) (sh : list nat) (l : list calrec) :
  all_lists l ->
  Forall (fun v => tuple_free v = true) (flat_map record_values l) ->
  Forall (flips_back np_T sh) (flat_map record_arrays l) ->
  _t np_T (Some (rev sh)) (_t np_T (Some sh) l) = l.
Proof.
  intros Hk. unfold _t.
  induction Hk as [|r l Hr _ IH]; cbn [map flat_map]; intros Hf H;
    [reflexivity|].
  apply Forall_app in Hf as [Hfr Hfl].
  apply Forall_app in H as [Hrec Hl].
  now rewrite (IH Hfl Hl), (@t_record_twice np_T sh r Hr Hfr Hrec).
Qed.

Lemma t_dict_twice (np_T : ndarray -> ndarray) (sh : list nat) (d : dict) :
  each_sequence all_lists d ->
  each_sequence (fun l => Forall (fun v => tuple_free v = true)
                                 (flat_map record_values l)) d ->
  each_sequence (fun l => Forall (flips_back np_T sh)
                                 (flat_map record_arrays l)) d ->
  _t_dict np_T (Some (rev sh)) (_t_dict np_T (Some sh) d) = d.
Proof.
  intros Hk. unfold _t_dict.
  induction Hk as [|[k l] d Hl _ IH]; cbn [map fst snd]; intros Hf H;
    [reflexivity|].
  inversion Hf as [|x y Hfx Hfy]; subst.
  inversion H as [|x y Hx Hy]; subst. cbn [snd] in *.
  now rewrite (IH Hfy Hy), (@t_twice np_T sh l Hl Hfx Hx).
Qed.

(** X21.  [transpose] twice gives the store back, provided the store has
    a reference shape, its records are lists, no payload holds a tuple
    (after one [transpose] none does), and every array it holds either
    has the reference shape -- and then [numpy]'s [.T] turns its shape
    round and undoes itself on it -- or has neither the reference shape
    nor the reference shape read backwards.  (An array stored with the
    reference shape read backwards is left alone by the first call and
    transposed by the second.) *)
Theorem transpose_twice_restores (np_T : ndarray -> ndarray)
        (s : CameraCalibration) (sh : list nat) :
  c_shape s = Some sh -> every_sequence all_lists s ->
  every_value (fun v => tuple_free v = true) s ->
  every_array (flips_back np_T sh) s ->
  snd (transpose np_T s) = Ok tt /\
  transpose np_T (fst (transpose np_T s)) = (s, Ok tt).
Proof.
  intros Hs (Kd & Kn & Kf & Kl & Kp & Kb) (Vd & Vn & Vf & Vl & Vp & Vb)
         (Ad & An & Af & Al & Ap & Ab).
  unfold transpose. rewrite Hs. simpl. split; [reflexivity|].
  rewrite (@t_twice np_T sh _ Kd Vd Ad), (@t_twice np_T sh _ Kn Vn An),
    (@t_dict_twice np_T sh _ Kf Vf Af), (@t_dict_twice np_T sh _ Kl Vl Al),
    (@t_dict_twice np_T sh _ Kp Vp Ap), (@t_dict_twice np_T sh _ Kb Vb Ab).
  rewrite rev_involutive. destruct s; simpl in *. now subst.
Qed.

(** The store of the witness holds a pair of arrays of 3 x 2 pixels as a
    list: it is what one [transpose] left of a dark current given as two
    arrays of 2 x 3 pixels. *)
Lemma transpose_twice_restores_witness :
  c_dark_current Ex2.array_pair_T
  = [mk_rec KList Ex.t_jan20 "" (VList2 (VArr Ex2.a_3x2) (VArr Ex2.a_3x2))
            [VNone]] /\
  snd (transpose ndarray_T Ex2.array_pair_T) = Ok tt /\
  transpose ndarray_T (fst (transpose ndarray_T Ex2.array_pair_T))
  = (Ex2.array_pair_T, Ok tt).
Proof.
  split; [vm_compute; reflexivity|].
  apply (@transpose_twice_restores ndarray_T Ex2.array_pair_T [3; 2]%nat).
  - reflexivity.
  - vm_compute. repeat split; repeat constructor.
  - vm_compute. repeat split; repeat constructor.
  - unfold every_array, every_sequence, each_sequence, flips_back.
    vm_compute. repeat split; repeat constructor; try discriminate;
      intros; try discriminate; reflexivity.
Defined.

(* ================================================================= *)
(** ** The dark current of a store built by calls *)

Lemma py_index_In {A} (l : list A) (i : Z) (x : A) :
  py_index l i = Ok x -> In x l.
Proof.
  unfold py_index.
  destruct ((0 <=? (if i <? 0 then i + Z.of_nat (List.length l) else i)) &&
            ((if i <? 0 then i + Z.of_nat (List.length l) else i)
             <? Z.of_nat (List.length l))); [|discriminate].
  destruct (nth_error l _) as [y|] eqn:E; [|discriminate].
  intros H. injection H as <-. eapply nth_error_In. exact E.
Qed.

Lemma keep_last_each_sub (P : list calrec -> Prop) (d : dict) :
  (forall l r, P l -> In r l -> P [r]) -> each_sequence P d ->
  each_sequence P (fst (keep_last_each d)).
Proof.
  intros Hone Hd. induction Hd as [|[k l] d Hl Hd IH]; simpl; [constructor|].
  destruct (py_index l (-1)) as [r|e] eqn:E; simpl.
  - destruct (keep_last_each d) as [d'' res]; simpl in *.
    constructor; [|exact IH]. simpl.
    exact (Hone l r Hl (py_index_In _ _ E)).
  - constructor; assumption.
Qed.

Lemma clearOldCalibrations_sub (P : list calrec -> Prop) :
  (forall l r, P l -> In r l -> P [r]) ->
  preserves (every_sequence P) clearOldCalibrations.
Proof.
  intros Hone s (Hd & Hn & Hf & Hl & Hp & Hb).
  unfold clearOldCalibrations, bind.
  destruct (py_index (c_dark_current s) (-1)) as [r|e] eqn:Er; simpl;
    [|repeat split; assumption].
  pose proof (Hone _ _ Hd (py_index_In _ _ Er)) as Hd'.
  destruct (py_index (c_noise s) (-1)) as [r'|e] eqn:Er'; simpl;
    [|repeat split; assumption].
  pose proof (Hone _ _ Hn (py_index_In _ _ Er')) as Hn'.
  pose proof (keep_last_each_sub Hone Hf) as Hf'.
  destruct (keep_last_each (c_flat_field s)) as [f [[]|e]]; simpl in *;
    [|repeat split; assumption].
  pose proof (keep_last_each_sub Hone Hl) as Hl'.
  destruct (keep_last_each (c_lens s)) as [l' res]; simpl in *.
  repeat split; assumption.
Qed.

Lemma all_lists_t (np_T : ndarray -> ndarray) (sh : option (list nat))
      (l : list calrec) :
  all_lists l -> all_lists (_t np_T sh l).
Proof.
  intros _. unfold all_lists, _t. rewrite Forall_map.
  apply Forall_forall. intros r _. reflexivity.
Qed.

Lemma run_call_all_lists (N : Collab) (T : TimeLib)
      (np_T : ndarray -> ndarray) (now : struct_time) (c : call) :
  preserves (every_sequence all_lists) (run_call N T np_T now c).
Proof.
  destruct c as [op|name date l| | |]; simpl.
  - apply run_add_all_lists.
  - intros s Hs. pose proof (deleteCoeff_cases T now name date l s) as H.
    destruct (deleteCoeff T now name date l s) as [s' [[]|e]]; simpl.
    + destruct H as (pre & r & post & Hseq & ->).
      apply every_sequence_store_sequence; [|exact Hs].
      pose proof (@stored_sequence_every all_lists s name l _ Hs Hseq)
        as Hall.
      unfold all_lists in *. apply Forall_app in Hall as [H1 H2].
      apply Forall_app. split; [exact H1|now inversion H2].
    + destruct H as [-> _]. exact Hs.
  - apply clearOldCalibrations_sub. intros l r Hl Hin.
    unfold all_lists in *. rewrite Forall_forall in Hl.
    constructor; [now apply Hl|constructor].
  - intros s Hs. exact Hs.
  - apply transpose_property. intros sh l. apply all_lists_t.
Qed.

(** X22.  On a store built from a new object by whatever calls to the
    add-operations, [deleteCoeff], [clearOldCalibrations], [setCamera]
    and [transpose], [calcDarkCurrent] returns the payload of the record
    that the date look-up finds in the dark-current sequence, as it is
    stored, and raises what the look-up raises: the result depends
    neither on the exposure time, nor on the bit depth, nor on the
    numeric library. *)
Theorem calcDarkCurrent_after_calls (N N' : Collab) (T T' : TimeLib)
        (np_T : ndarray -> ndarray) (cs : list (struct_time * call))
        (now : struct_time) (exposuretime : pyval) (date : date_arg) :
  calcDarkCurrent N T now (run_calls N' T' np_T cs init) exposuretime date
  = match _getFromDate T now
            (c_dark_current (run_calls N' T' np_T cs init)) date with
    | Ok r => Ok (rec_data r)
    | Raise e => Raise e
    end.
Proof.
  assert (H : forall s, every_sequence all_lists s ->
                        every_sequence all_lists (run_calls N' T' np_T cs s)).
  { induction cs as [|[now' c] cs IH]; intros s Hs; simpl; [exact Hs|].
    apply IH. now apply run_call_all_lists. }
  assert (Hall : every_sequence all_lists (run_calls N' T' np_T cs init)).
  { apply H. unfold every_sequence, each_sequence; simpl.
    repeat split; constructor. }
  destruct Hall as [Hd _]. unfold calcDarkCurrent.
  destruct (_getFromDate T now
              (c_dark_current (run_calls N' T' np_T cs init)) date)
    as [r|e] eqn:E; simpl; [|reflexivity].
  apply getFromDate_In in E.
  unfold all_lists in Hd. rewrite Forall_forall in Hd.
  now rewrite (Hd r E).
Qed.

(* ================================================================= *)
(** ** Listing dates and infos *)

Lemma getDate_stored (s : CameraCalibration) (typ : category)
      (light_ : light) (l : list calrec) :
  _getDate s typ light_ = Ok l -> stored_sequence s typ light_ = Some l.
Proof.
  unfold _getDate, stored_sequence.
  destruct (coeffs_get s typ) as [l'|d].
  - intros H. now injection H as <-.
  - destruct light_ as [k|]; [|discriminate].
    destruct (dict_get (Some k) d); [|discriminate].
    intros H. now injection H as <-.
Qed.

(** X23.  [dates] raises only when a spectrum-keyed category is asked
    for without light spectrum, and then with the failed assertion (also
    when records are stored under the key [None]).  Otherwise it returns
    the dates of the sequence stored for the category and spectrum,
    formatted one by one in the order of the sequence, and the empty list
    when the category has no entry for the spectrum. *)
Theorem dates_outcomes (strftime : struct_time -> string)
        (s : CameraCalibration) (typ : category) (light_ : light) :
  match dates strftime s typ light_ with
  | Ok ds =>
      ds = map (fun c => strftime (rec_date c))
               (sequence_or_empty s typ light_) /\
      (light_ = None -> exists l, coeffs_get s typ = Flat l)
  | Raise e =>
      light_ = None /\ (exists d, coeffs_get s typ = BySpectrum d) /\
      e = Exception "need light spectrum given to access"
  end.
Proof.
  unfold dates, _getDate, sequence_or_empty, stored_sequence.
  destruct (coeffs_get s typ) as [l|d].
  - split; [reflexivity|]. intros _. now exists l.
  - destruct light_ as [k|].
    + destruct (dict_get (Some k) d); (split; [reflexivity|discriminate]).
    + split; [reflexivity|]. split; [now exists d|reflexivity].
Qed.

Lemma dates_outcomes_witness :
  dates strftime_en Ex.two_dark DarkCurrent None = Ok [Ex.mar20; Ex.jan20] /\
  exists l, coeffs_get Ex.two_dark DarkCurrent = Flat l.
Proof.
  split; [vm_compute; reflexivity|].
  pose proof (dates_outcomes strftime_en Ex.two_dark DarkCurrent None) as H.
  change (dates strftime_en Ex.two_dark DarkCurrent None)
    with (Ok (A := list string) [Ex.mar20; Ex.jan20]) in H.
  destruct H as [_ H]. exact (H eq_refl).
Defined.


(** X24.  Every date string that [dates] lists finds a record again: if
    the sequence is sorted by date, newest first, and [strptime] reads
    back what [strftime] wrote for the dates of the sequence, then
    [getCoeff] with a listed string returns a record of the sequence
    whose date is written as that string. *)
Theorem dates_then_getCoeff (T : TimeLib) (strftime : struct_time -> string)
        (now : struct_time) (s : CameraCalibration) (typ : category)
        (light_ : light) (l : list calrec) (ds : list string) (str : string) :
  _getDate s typ light_ = Ok l -> descending l ->
  (forall r, In r l -> strptime T (strftime (rec_date r)) = Some (rec_date r)) ->
  dates strftime s typ light_ = Ok ds -> In str ds ->
  exists r, getCoeff T now s typ light_ (DStr str) = Ok (Some r) /\
            In r l /\ strftime (rec_date r) = str.
Proof.
  intros Hg Hs Hback Hd Hin. unfold dates in Hd. rewrite Hg in Hd.
  injection Hd as <-. apply in_map_iff in Hin as (r0 & <- & Hin).
  destruct (@lookup_stored_date T now s typ light_
              (DStr (strftime (rec_date r0))) l r0
              (getDate_stored _ _ _ Hg) Hs Hin)
    as (pre & r & post & Hget & Hdate & El & _).
  { simpl. now rewrite (Hback r0 Hin). }
  exists r. split; [exact Hget|]. split.
  - rewrite El. apply in_or_app. right. now left.
  - now rewrite Hdate.
Qed.

Lemma dates_then_getCoeff_witness :
  exists r,
    getCoeff time_en Ex.today Ex.two_dark DarkCurrent None (DStr Ex.jan20)
    = Ok (Some r) /\
    In r [Ex.rec_mar; Ex.rec_jan] /\ strftime_en (rec_date r) = Ex.jan20.
Proof.
  apply (@dates_then_getCoeff time_en strftime_en Ex.today Ex.two_dark
           DarkCurrent None [Ex.rec_mar; Ex.rec_jan] [Ex.mar20; Ex.jan20]
           Ex.jan20).
  - vm_compute. reflexivity.
  - repeat constructor.
  - intros r [<- | [<- | []]]; vm_compute; reflexivity.
  - vm_compute. reflexivity.
  - right. left. reflexivity.
Defined.

(** X25.  The three read paths part on a spectrum that a spectrum-keyed
    category has no entry for: [infos] raises [KeyError], [dates] returns
    the empty list, and [getCoeff] answers from the first-inserted
    spectrum of the category, if there is one, as [infos] does for that
    spectrum. *)
Theorem missing_spectrum_read_paths (T : TimeLib)
        (strftime : struct_time -> string) (now : struct_time)
        (s : CameraCalibration) (typ : category) (k k0 : string)
        (d : dict) (l0 : list calrec) (date : string) :
  coeffs_get s typ = BySpectrum ((Some k0, l0) :: d) ->
  dict_get (Some k) ((Some k0, l0) :: d) = None ->
  infos T now s typ (Some k) (DStr date) = Raise KeyError /\
  dates strftime s typ (Some k) = Ok [] /\
  match getCoeff T now s typ (Some k) (DStr date) with
  | Ok (Some r) =>
      infos T now s typ (Some k0) (DStr date) = Ok (OneInfo (rec_info r))
  | Ok None => False
  | Raise e => infos T now s typ (Some k0) (DStr date) = Raise e
  end.
Proof.
  intros Hc Hk. unfold infos, dates, _getDate, getCoeff. rewrite Hc, Hk.
  split; [reflexivity|]. split; [reflexivity|].
  simpl. rewrite String.eqb_refl. simpl.
  destruct (_getFromDate T now l0 (DStr date)); reflexivity.
Qed.

Lemma missing_spectrum_read_paths_witness :
  infos time_en Ex.today Ex.only_visible Lens (Some "IR"%string)
        (DStr Ex.jan20) = Raise KeyError /\
  dates strftime_en Ex.only_visible Lens (Some "IR"%string) = Ok [] /\
  match getCoeff time_en Ex.today Ex.only_visible Lens (Some "IR"%string)
                 (DStr Ex.jan20) with
  | Ok (Some r) =>
      infos time_en Ex.today Ex.only_visible Lens (Some "visible"%string)
            (DStr Ex.jan20) = Ok (OneInfo (rec_info r))
  | Ok None => False
  | Raise e =>
      infos time_en Ex.today Ex.only_visible Lens (Some "visible"%string)
            (DStr Ex.jan20) = Raise e
  end.
Proof.
  apply (@missing_spectrum_read_paths time_en strftime_en Ex.today
           Ex.only_visible Lens "IR" "visible" []
           [Ex.rec_visible] Ex.jan20).
  - vm_compute. reflexivity.
  - vm_compute. reflexivity.
Defined.
